(** * Delicatessen production planner: the computation pipeline

    A shallow embedding of the planner's core (fiscal calendar, holiday
    engine, demand forecaster, batch optimizer, plan generator) and the
    properties its specification states about it, with the conversion of
    the rows of a sales file (CSV processor, format helpers) and further
    properties of the code: edge cases, invariants and how the operations
    compose.

    Conventions of the embedding.
    - A JavaScript [number] is an abstract type with the operations the
      program uses (class [Number]), and the program is written once over
      it.  Two interpretations are given: [float64], the IEEE 754 binary64
      numbers the program runs on (with NaN, the infinities and rounding),
      on which the program is run on concrete inputs; and [R], exact real
      arithmetic, in which the laws that hold for all inputs are proved.
      In the batch optimizer no division has a zero divisor (the divisors
      are [max 1 _], [max 0.1 _], a positive size, or a setting replaced
      by its default when 0), so that the two differ there by rounding
      only.
    - Integer-valued settings (day counts, batch sizes, holiday windows)
      are [Z]; array lengths and indices are [nat].  The source does not
      check that a setting is a whole number: a fractional setting is
      outside the embedding.
    - A [Date] is its time value: milliseconds since the epoch, in a time
      zone without offset or daylight saving, so that local midnight is a
      multiple of 86400000.
    - The wall clock read by [new Date()] is a parameter [now], read once
      per run.
    - Methods that update an object in place return the updated object.
      A [catch] block is modelled where the guarded code can throw, which
      among the modelled operations only [reduce] on an empty array does;
      promises are not modelled: awaited calls run in sequence. *)

From Stdlib Require Import ZArith QArith Reals Lra Lia Floats Bool.
From Stdlib Require Import String Ascii DecimalString List Sorted.
From stdpp Require Import gmap strings.
Import ListNotations.

Set Warnings "-inexact-float".
Set Implicit Arguments.
Open Scope Z_scope.

(** ** Numbers *)

Class Number (A : Type) := {
  ofZ : Z -> A;
  nadd : A -> A -> A;
  nsub : A -> A -> A;
  nmul : A -> A -> A;
  ndiv : A -> A -> A;
  nltb : A -> A -> bool;
  nleb : A -> A -> bool;
  neqb : A -> A -> bool;
  isNaN : A -> bool;
  Math_sqrt : A -> A;
  Math_abs : A -> A;
  Math_max : A -> A -> A;
  Math_min : A -> A -> A;
  Math_ceil : A -> A;
  Math_round : A -> A;
  (* String(x), in template literals *)
  numToString : A -> string
}.

Declare Scope num_scope.
Delimit Scope num_scope with num.
Infix "+" := nadd : num_scope.
Infix "-" := nsub : num_scope.
Infix "*" := nmul : num_scope.
Infix "/" := ndiv : num_scope.
Infix "<?" := nltb : num_scope.
Infix "<=?" := nleb : num_scope.
Notation "x >? y" := (nltb y x) : num_scope.
Notation "x >=? y" := (nleb y x) : num_scope.
Infix "=?" := neqb : num_scope.

(** A decimal literal of the source: the quotient of two integers, which
    on [float64] is the correctly rounded value of the literal. *)
Definition lit `{Number A} (q : Q) : A :=
  (ofZ (Qnum q) / ofZ (Zpos (Qden q)))%num.
Arguments lit {A _} q%_Q.

(** [x || d] on numbers: [d] replaces 0 and NaN. *)
Definition truthy `{Number A} (x : A) : bool :=
  negb (isNaN x) && negb (x =? ofZ 0)%num.

Definition orElse `{Number A} (x d : A) : A := if truthy x then x else d.

(** Math.pow(x, n) for an array index n. *)
Fixpoint Math_pow `{Number A} (x : A) (n : nat) : A :=
  match n with
  | O => ofZ 1
  | S k => (x * Math_pow x k)%num
  end.

Definition Z_to_string (z : Z) : string := NilZero.string_of_int (Z.to_int z).

(** *** binary64 *)

Module Float64.

Definition ofZ (z : Z) : float :=
  match z with
  | Z0 => 0%float
  | Zpos p => SF2Prim (S754_finite false p 0)
  | Zneg p => SF2Prim (S754_finite true p 0)
  end.

(** Math.max and Math.min of two numbers: NaN if either is NaN; of two
    zeros, +0 is the larger. *)
Definition max (x y : float) : float :=
  if PrimFloat.is_nan x || PrimFloat.is_nan y then nan
  else if PrimFloat.ltb x y then y
  else if PrimFloat.ltb y x then x
  else if PrimFloat.eqb x 0 then (x + y)%float else x.

Definition min (x y : float) : float :=
  if PrimFloat.is_nan x || PrimFloat.is_nan y then nan
  else if PrimFloat.ltb y x then y
  else if PrimFloat.ltb x y then x
  else if PrimFloat.eqb x 0 then (- (- x + - y))%float else x.

(** A finite float is [m * 2^e]; below, [e < 0] and [k = -e]. *)
Definition ceil (x : float) : float :=
  match Prim2SF x with
  | S754_finite s m e =>
      if 0 <=? e then x
      else
        let k := Z.pow 2 (- e) in
        if s then PrimFloat.opp (ofZ (Zpos m / k))
        else ofZ (- ((- Zpos m) / k))
  | _ => x
  end.

(** Math.round: the nearest integer, a tie going up. *)
Definition round (x : float) : float :=
  match Prim2SF x with
  | S754_finite s m e =>
      if 0 <=? e then x
      else
        let k := Z.pow 2 (- e) in
        let n := if s then - Zpos m else Zpos m in
        let r := (2 * n + k) / (2 * k) in
        if (r =? 0) && s then (-0)%float else ofZ r
  | _ => x
  end.

(** String(x) for NaN, the infinities and the integers below 1e21, which
    is all that the program formats; of another number, the integer part. *)
Definition toString (x : float) : string :=
  match Prim2SF x with
  | S754_nan => "NaN"
  | S754_infinity s => if s then "-Infinity" else "Infinity"
  | S754_zero _ => "0"
  | S754_finite s m e =>
      let n := if 0 <=? e then Zpos m * Z.pow 2 e else Zpos m / Z.pow 2 (- e) in
      Z_to_string (if s then - n else n)
  end.

End Float64.

#[export] Instance float64 : Number float := {|
  ofZ := Float64.ofZ;
  nadd := PrimFloat.add;
  nsub := PrimFloat.sub;
  nmul := PrimFloat.mul;
  ndiv := PrimFloat.div;
  nltb := PrimFloat.ltb;
  nleb := PrimFloat.leb;
  neqb := PrimFloat.eqb;
  isNaN := PrimFloat.is_nan;
  Math_sqrt := PrimFloat.sqrt;
  Math_abs := PrimFloat.abs;
  Math_max := Float64.max;
  Math_min := Float64.min;
  Math_ceil := Float64.ceil;
  Math_round := Float64.round;
  numToString := Float64.toString
|}.

(** *** Exact reals *)

Module Real.

Definition ltb (x y : R) : bool := if Rlt_dec x y then true else false.
Definition leb (x y : R) : bool := if Rle_dec x y then true else false.
Definition eqb (x y : R) : bool := if Req_dec_T x y then true else false.
Definition ceilZ (x : R) : Z := - Int_part (- x).
Definition ceil (x : R) : R := IZR (ceilZ x).
Definition round (x : R) : R := IZR (Int_part (x + / 2)).
(** String(x) for an integer [x] (see [Float64.toString]). *)
Definition toString (x : R) : string := Z_to_string (Int_part x).

End Real.

#[export] Instance real : Number R := {|
  ofZ := IZR;
  nadd := Rplus;
  nsub := Rminus;
  nmul := Rmult;
  ndiv := Rdiv;
  nltb := Real.ltb;
  nleb := Real.leb;
  neqb := Real.eqb;
  isNaN := fun _ => false;
  Math_sqrt := R_sqrt.sqrt;
  Math_abs := Rabs;
  Math_max := Rmax;
  Math_min := Rmin;
  Math_ceil := Real.ceil;
  Math_round := Real.round;
  numToString := Real.toString
|}.

(** ** Dates

    The time value of a [Date], with the day and calendar functions of the
    language standard (Day, TimeWithinDay, DayFromYear, YearFromTime,
    MonthFromTime, DateFromTime, WeekDay, MakeDay, MakeDate). *)

Definition Date := Z.

Definition msPerDay : Z := 86400000.
Definition Day (t : Date) : Z := t / msPerDay.
Definition TimeWithinDay (t : Date) : Z := t mod msPerDay.

Definition isLeapYear (y : Z) : bool :=
  ((y mod 4 =? 0) && negb (y mod 100 =? 0)) || (y mod 400 =? 0).

Definition DayFromYear (y : Z) : Z :=
  365 * (y - 1970) + (y - 1969) / 4 - (y - 1901) / 100 + (y - 1601) / 400.

(** The year of a day number: the largest [y] with [DayFromYear y <= d],
    found from the mean length of a year and at most one step of
    correction (lemma [YearFromDay_spec]). *)
Definition YearFromDay (d : Z) : Z :=
  let y := 1970 + (400 * d) / 146097 in
  if d <? DayFromYear y then y - 1
  else if DayFromYear (y + 1) <=? d then y + 1
  else y.

Definition YearFromTime (t : Date) : Z := YearFromDay (Day t).
Definition InLeapYear (t : Date) : bool := isLeapYear (YearFromTime t).
Definition DayWithinYear (t : Date) : Z := Day t - DayFromYear (YearFromTime t).

(** The day within the year on which month [m] (0 = January) begins. *)
Definition monthStart (leap : bool) (m : Z) : Z :=
  let l := if leap then 1 else 0 in
  match m with
  | 0 => 0
  | 1 => 31
  | 2 => 59 + l
  | 3 => 90 + l
  | 4 => 120 + l
  | 5 => 151 + l
  | 6 => 181 + l
  | 7 => 212 + l
  | 8 => 243 + l
  | 9 => 273 + l
  | 10 => 304 + l
  | 11 => 334 + l
  | _ => 365 + l
  end.

Definition monthOfYearDay (leap : bool) (d : Z) : Z :=
  if d <? monthStart leap 1 then 0
  else if d <? monthStart leap 2 then 1
  else if d <? monthStart leap 3 then 2
  else if d <? monthStart leap 4 then 3
  else if d <? monthStart leap 5 then 4
  else if d <? monthStart leap 6 then 5
  else if d <? monthStart leap 7 then 6
  else if d <? monthStart leap 8 then 7
  else if d <? monthStart leap 9 then 8
  else if d <? monthStart leap 10 then 9
  else if d <? monthStart leap 11 then 10
  else 11.

Definition MonthFromTime (t : Date) : Z :=
  monthOfYearDay (InLeapYear t) (DayWithinYear t).

Definition DateFromTime (t : Date) : Z :=
  DayWithinYear t - monthStart (InLeapYear t) (MonthFromTime t) + 1.

Definition WeekDay (t : Date) : Z := (Day t + 4) mod 7.

Definition MakeDay (year month date : Z) : Z :=
  let ym := year + month / 12 in
  let mn := month mod 12 in
  DayFromYear ym + monthStart (isLeapYear ym) mn + date - 1.

Definition MakeDate (day time : Z) : Date := day * msPerDay + time.

(** [new Date(year, monthIndex, day)]: local midnight; a year from 0 to 99
    stands for 1900 + year. *)
Definition new_Date (year month day : Z) : Date :=
  let yy := if (0 <=? year) && (year <=? 99) then 1900 + year else year in
  MakeDate (MakeDay yy month day) 0.

Definition getTime (t : Date) : Z := t.
Definition getFullYear (t : Date) : Z := YearFromTime t.
Definition getMonth (t : Date) : Z := MonthFromTime t.
Definition getDate (t : Date) : Z := DateFromTime t.
Definition getDay (t : Date) : Z := WeekDay t.

Definition setFullYear (t : Date) (year : Z) : Date :=
  MakeDate (MakeDay year (MonthFromTime t) (DateFromTime t)) (TimeWithinDay t).

Definition setDate (t : Date) (date : Z) : Date :=
  MakeDate (MakeDay (YearFromTime t) (MonthFromTime t) date) (TimeWithinDay t).

(** date-fns *)
Definition addDays (date : Date) (amount : Z) : Date :=
  if amount =? 0 then date else setDate date (getDate date + amount).

Definition startOfDay (date : Date) : Date := date - TimeWithinDay date.

(** ** Fiscal calendar (class FiscalCalendar, src/lib/fiscal-calendar.ts) *)

Record FiscalDate := mkFiscalDate {
  fiscalYear : Z;
  fiscalPeriod : Z;
  fiscalWeek : Z;
  fiscalDay : Z
}.

Module FiscalCalendar.

Record t := mk {
  fiscalYearStart : Date
}.

Definition constructor (month day : Z) : t :=
  mk (new_Date 2024 (month - 1) day).

Definition convertToCalendarDate (this : t)
    (fiscalYear fiscalPeriod fiscalWeek fiscalDay : Z) : Date :=
  let fiscalYearStartDate := setFullYear (fiscalYearStart this) (fiscalYear - 1) in
  let daysFromFiscalStart :=
    (fiscalPeriod - 1) * 28 + (fiscalWeek - 1) * 7 + (fiscalDay - 1) in
  let calendarDate := addDays fiscalYearStartDate daysFromFiscalStart in
  startOfDay calendarDate.

Definition convertToFiscalDate (this : t) (calendarDate : Date) : FiscalDate :=
  let date := startOfDay calendarDate in
  let fiscalYear0 := getFullYear date in
  let fiscalYearStart0 := setFullYear (fiscalYearStart this) (fiscalYear0 - 1) in
  let '(fiscalYear, fiscalYearStart) :=
    if date <? fiscalYearStart0 then
      (fiscalYear0 - 1, setFullYear fiscalYearStart0 (fiscalYear0 - 1 - 1))
    else
      let nextFiscalYearStart := setFullYear fiscalYearStart0 fiscalYear0 in
      if nextFiscalYearStart <=? date then (fiscalYear0 + 1, nextFiscalYearStart)
      else (fiscalYear0, fiscalYearStart0) in
  let daysDifference := (getTime date - getTime fiscalYearStart) / (1000 * 60 * 60 * 24) in
  let fiscalPeriod := daysDifference / 28 + 1 in
  let remainingDays := Z.rem daysDifference 28 in
  let fiscalWeek := remainingDays / 7 + 1 in
  let fiscalDay := Z.rem remainingDays 7 + 1 in
  {| fiscalYear := fiscalYear + 1;
     fiscalPeriod := Z.max 1 (Z.min 13 fiscalPeriod);
     fiscalWeek := Z.max 1 (Z.min 4 fiscalWeek);
     fiscalDay := Z.max 1 (Z.min 7 fiscalDay) |}.

Definition getCorrespondingDateLastYear (this : t) (currentDate : Date) : Date :=
  let fiscalDate := convertToFiscalDate this currentDate in
  convertToCalendarDate this (fiscalYear fiscalDate - 1) (fiscalPeriod fiscalDate)
    (fiscalWeek fiscalDate) (fiscalDay fiscalDate).

Definition getFiscalYear (this : t) (calendarDate : Date) : Z :=
  fiscalYear (convertToFiscalDate this calendarDate).

Definition getFiscalYearStart (this : t) (fiscalYear : Z) : Date :=
  setFullYear (fiscalYearStart this) (fiscalYear - 1).

Definition isValidFiscalDate (fiscalDate : FiscalDate) : bool :=
  (2020 <=? fiscalYear fiscalDate) && (fiscalYear fiscalDate <=? 2030) &&
  (1 <=? fiscalPeriod fiscalDate) && (fiscalPeriod fiscalDate <=? 13) &&
  (1 <=? fiscalWeek fiscalDate) && (fiscalWeek fiscalDate <=? 4) &&
  (1 <=? fiscalDay fiscalDate) && (fiscalDay fiscalDate <=? 7).

Definition getFiscalYearEnd (this : t) (fiscalYear : Z) : Date :=
  let endDate := getFiscalYearStart this (fiscalYear + 1) in
  addDays endDate (-1).

Definition isInFiscalYear (this : t) (date : Date) (fiscalYear : Z) : bool :=
  let start := getFiscalYearStart this fiscalYear in
  let end_ := getFiscalYearEnd this fiscalYear in
  (start <=? date) && (date <=? end_).

Definition formatFiscalDate (fiscalDate : FiscalDate) : string :=
  "FY" +:+ Z_to_string (fiscalYear fiscalDate)
    +:+ " P" +:+ Z_to_string (fiscalPeriod fiscalDate)
    +:+ " W" +:+ Z_to_string (fiscalWeek fiscalDate)
    +:+ " D" +:+ Z_to_string (fiscalDay fiscalDate).

(** The two loops, over the weeks 1 to 4 and the days 1 to 7; the
    conversion does not throw, so that no date is skipped. *)
Definition getFiscalPeriodDates (this : t) (fiscalYear fiscalPeriod : Z) : list Date :=
  List.flat_map
    (fun week =>
       List.map
         (fun day => convertToCalendarDate this fiscalYear fiscalPeriod week day)
         [1; 2; 3; 4; 5; 6; 7])
    [1; 2; 3; 4].

Definition getFiscalQuarter `{Number A} (fiscalPeriod : A) : A :=
  Math_ceil (fiscalPeriod / ofZ 3)%num.

End FiscalCalendar.

(** ** Strings and arrays of the runtime *)

Definition lowerChar (c : ascii) : ascii :=
  let n := nat_of_ascii c in
  if (Nat.leb 65 n && Nat.leb n 90)%bool then ascii_of_nat (n + 32) else c.

Fixpoint toLowerCase (s : string) : string :=
  match s with
  | EmptyString => EmptyString
  | String c s' => String (lowerChar c) (toLowerCase s')
  end.

Fixpoint stripPrefix (p s : string) : option string :=
  match p with
  | EmptyString => Some s
  | String a p' =>
      match s with
      | String b s' => if Ascii.eqb a b then stripPrefix p' s' else None
      | EmptyString => None
      end
  end.

(** The class [\s] of regular expressions, on ASCII. *)
Definition isSpace (c : ascii) : bool :=
  let n := nat_of_ascii c in
  (Nat.eqb n 32 || (Nat.leb 9 n && Nat.leb n 13))%bool.

Fixpoint dropSpaces (s : string) : string :=
  match s with
  | String c s' => if isSpace c then dropSpaces s' else s
  | EmptyString => EmptyString
  end.

Definition strTruthy (s : string) : bool := negb (String.eqb s EmptyString).

(** [xs.join(sep)] *)
Fixpoint join (sep : string) (xs : list string) : string :=
  match xs with
  | [] => EmptyString
  | [x] => x
  | x :: rest => x +:+ sep +:+ join sep rest
  end.

(** [xs.indexOf(x)] *)
Fixpoint indexOf (x : string) (xs : list string) : Z :=
  match xs with
  | [] => -1
  | y :: rest =>
      if String.eqb x y then 0
      else let i := indexOf x rest in if i <? 0 then -1 else i + 1
  end.

(** [xs.sort(cmp)] for a comparator given by an integer key (ascending):
    the sort of arrays is stable, as is this insertion sort. *)
Fixpoint insertByKey {T : Type} (key : T -> Z) (x : T) (xs : list T) : list T :=
  match xs with
  | [] => [x]
  | y :: rest => if key y <=? key x then y :: insertByKey key x rest else x :: xs
  end.

Definition sortByKey {T : Type} (key : T -> Z) (xs : list T) : list T :=
  fold_left (fun acc x => insertByKey key x acc) xs [].

(** An optional integer property used as a condition: present and not 0. *)
Definition optTruthy (z : option Z) : bool :=
  match z with Some v => negb (v =? 0) | None => false end.

(** The class [\d]. *)
Definition isDigit (c : ascii) : bool :=
  let n := nat_of_ascii c in
  (Nat.leb 48 n && Nat.leb n 57)%bool.

(** The line terminators, which [.] does not match (on ASCII). *)
Definition isLineTerminator (c : ascii) : bool :=
  let n := nat_of_ascii c in
  (Nat.eqb n 10 || Nat.eqb n 13)%bool.

Definition anyChar (c : ascii) : bool := negb (isLineTerminator c).

(** [s.trim()], on ASCII: [dropSpaces] at the start, [trimEnd] at the end. *)
Fixpoint trimEnd (s : string) : string :=
  match s with
  | EmptyString => EmptyString
  | String c s' =>
      match trimEnd s' with
      | EmptyString => if isSpace c then EmptyString else String c EmptyString
      | rest => String c rest
      end
  end.

Definition trim (s : string) : string := trimEnd (dropSpaces s).

Fixpoint repeatChar (c : ascii) (n : nat) : string :=
  match n with
  | O => EmptyString
  | S k => String c (repeatChar c k)
  end.

(** [s.padStart(targetLength, c)] for a one-character filler. *)
Definition padStart (s : string) (targetLength : nat) (c : ascii) : string :=
  repeatChar c (targetLength - String.length s) +:+ s.

(** Regular expressions of the form [^C1+C2+...Cn+], with [$] at the end
    when [toEnd] is set, each [Ci] a class of characters.  [plusSplits p s]
    lists the ways in which [p+] matches at the start of [s], the longest
    first: the matcher backtracks through them in this order.  The result
    of [matchRuns] is the text matched by each [Ci+]. *)
Fixpoint plusSplits (p : ascii -> bool) (s : string) : list (string * string) :=
  match s with
  | String c s' =>
      if p c then
        List.map (fun '(m, rest) => (String c m, rest)) (plusSplits p s')
        ++ [(String c EmptyString, s')]
      else []
  | EmptyString => []
  end.

Fixpoint firstSome {T U : Type} (f : T -> option U) (xs : list T) : option U :=
  match xs with
  | [] => None
  | x :: rest => match f x with Some u => Some u | None => firstSome f rest end
  end.

Fixpoint matchRuns (classes : list (ascii -> bool)) (toEnd : bool) (s : string)
    : option (list string) :=
  match classes with
  | [] =>
      match s with
      | EmptyString => Some []
      | String _ _ => if toEnd then None else Some []
      end
  | p :: classes' =>
      firstSome
        (fun '(m, rest) =>
           match matchRuns classes' toEnd rest with
           | Some groups => Some (m :: groups)
           | None => None
           end)
        (plusSplits p s)
  end.

(** The double quote, for the messages that quote an example. *)
Definition quote : string := String (ascii_of_nat 34) EmptyString.

(** ** Data model (src/types/index.ts) *)

Inductive HolidayType := fixed | floating | relative.

Module Holiday.
Record t (A : Type) := mk {
  id : string;
  name : string;
  type : HolidayType;
  month : option Z;
  day : option Z;
  rule : option string;
  daysBefore : Z;
  daysAfter : Z;
  salesMultiplier : A;
  description : string;
  isActive : bool
}.
End Holiday.

Module HolidayInstance.
Record t (A : Type) := mk {
  holiday : Holiday.t A;
  date : Date;
  year : Z
}.
End HolidayInstance.

Module AffectedHoliday.
Record t (A : Type) := mk {
  holiday : Holiday.t A;
  distance : Z;
  impact : A
}.
End AffectedHoliday.

Module HolidayImpact.
Record t (A : Type) := mk {
  factor : A;
  affectedHolidays : list (AffectedHoliday.t A);
  explanation : string
}.
End HolidayImpact.

Module ItemConfig.
Record t (A : Type) := mk {
  itemNumber : string;
  itemDescription : string;
  productivity : A;
  shelfLife : Z;
  minBatchSize : Z;
  maxDaysAhead : Z;
  defaultGrowthRate : A;
  isActive : bool
}.
End ItemConfig.

Module ForecastFactors.
Record t (A : Type) := mk {
  seasonal : A;
  dayOfWeek : A;
  holiday : A;
  trend : A;
  growth : A
}.
End ForecastFactors.

Module DailyForecast.
Record t (A : Type) := mk {
  date : Date;
  baseDemand : A;
  adjustedDemand : A;
  dateFactor : A;
  confidence : A;
  factors : ForecastFactors.t A
}.
End DailyForecast.

Module MultiDayDemand.
Record t (A : Type) := mk {
  totalDemand : A;
  dailyForecasts : list (DailyForecast.t A);
  daysAhead : Z;
  confidenceScore : A
}.
End MultiDayDemand.

Module BatchOption.
Record t (A : Type) := mk {
  size : A;
  efficiency : A;
  wasteRisk : A;
  cost : A;
  reasoning : string;
  score : A
}.
End BatchOption.

Module BatchDecision.
Record t (A : Type) := mk {
  recommendedBatchSize : A;
  produceToday : A;
  hoursNeeded : A;
  reasoning : string;
  options : list (BatchOption.t A);
  selectedOption : BatchOption.t A;
  efficiencyScore : A;
  wasteRiskScore : A
}.
End BatchDecision.

Module ProcessedSalesData.
Record t (A : Type) := mk {
  itemNumber : string;
  itemDescription : string;
  calendarDate : Date;
  fiscalDate : FiscalDate;
  currentYearUnits : A;
  lastYearUnits : A;
  twoYearsAgoUnits : option A;
  variance : A;
  variancePercent : A;
  dataSource : string
}.
End ProcessedSalesData.

Module ForecastResult.
Record t (A : Type) := mk {
  forecast : A;
  baseDemand : A;
  adjustedDemand : A;
  confidence : A;
  factors : ForecastFactors.t A;
  explanation : string;
  dataPoints : nat;
  targetDate : Date
}.
End ForecastResult.

Module DateRange.
Record t := mk {
  start : Date;
  end_ : Date
}.
End DateRange.

Inductive Theme := light | dark | auto.

Module GlobalSettings.
Record t (A : Type) := mk {
  fiscalYearStart : Z * Z; (* month, day *)
  defaultProductivity : A;
  defaultShelfLife : Z;
  defaultMinBatchSize : Z;
  defaultMaxDaysAhead : Z;
  defaultGrowthRate : A;
  currency : string;
  timezone : string;
  dateFormat : string;
  theme : Theme
}.
End GlobalSettings.

Module ProductionPlanItem.
Record t (A : Type) := mk {
  itemNumber : string;
  itemDescription : string;
  oldStockStart : A;
  oldStockEnd : A;
  stockAge : A;
  newStockEnd : A;
  isExpired : bool;
  lastYearUnits : A;
  twoYearsAgoUnits : A;
  dateFactor : A;
  dateFactorReasons : list string;
  seasonalFactor : A;
  holidayFactor : A;
  dayOfWeekFactor : A;
  multiDayDemand : MultiDayDemand.t A;
  todayNeed : A;
  batchDecision : BatchDecision.t A;
  productivity : A;
  shelfLife : Z;
  growthRate : A;
  minBatchSize : Z;
  maxDaysAhead : Z
}.
End ProductionPlanItem.

Module ProductionSummary.
Record t (A : Type) := mk {
  totalItems : nat;
  activeItems : nat;
  totalUnitsToProduce : A;
  totalHoursNeeded : A;
  itemsWithCarryover : nat;
  expiredItems : nat;
  batchEfficiencyScore : A;
  estimatedCost : A;
  wasteRiskScore : A
}.
End ProductionSummary.

Module PlanMetadata.
Record t (A : Type) := mk {
  generatedAt : Date;
  dataSource : list string;
  holidaysConsidered : list (Holiday.t A);
  planningHorizon : A;
  fiscalYearStart : Date;
  version : string;
  settings : GlobalSettings.t A
}.
End PlanMetadata.

Module ProductionPlan.
Record t (A : Type) := mk {
  date : Date;
  items : list (ProductionPlanItem.t A);
  summary : ProductionSummary.t A;
  metadata : PlanMetadata.t A
}.
End ProductionPlan.

Module RawSalesData.
Record t (A : Type) := mk {
  deptNum : string;
  fiscalYear : Z;
  memberNetSalesAmt : A;
  memberNetSalesAmtLY : A;
  majorGroupCatCode : string;
  memberNetSalesUnits : A;
  memberNetSalesUnitsLY : A;
  item : string;
  fiscalPeriod : Z;
  fiscalWeek : Z;
  fiscalDay : Z
}.
End RawSalesData.

(** The [value: any] of a validation error: a number or a text. *)
Inductive CellValue := numberValue (z : Z) | textValue (s : string).

Module ValidationError.
Record t := mk {
  row : Z;
  column : string;
  value : CellValue;
  expected : string;
  message : string
}.
End ValidationError.

Inductive IssueType := missing_data | invalid_format | outlier | inconsistency.
Inductive Severity := low | medium | high.

Module DataQualityIssue.
Record t := mk {
  type : IssueType;
  severity : Severity;
  description : string;
  affectedRows : nat;
  suggestion : string
}.
End DataQualityIssue.

Module DataQualityReport.
Record t (A : Type) := mk {
  completeness : A;
  accuracy : A;
  consistency : A;
  issues : list DataQualityIssue.t;
  recommendations : list string
}.
End DataQualityReport.

(** [Partial<Holiday>]: each property is absent or holds a value. *)
Module HolidayUpdates.
Record t (A : Type) := mk {
  id : option string;
  name : option string;
  type : option HolidayType;
  month : option (option Z);
  day : option (option Z);
  rule : option (option string);
  daysBefore : option Z;
  daysAfter : option Z;
  salesMultiplier : option A;
  description : option string;
  isActive : option bool
}.
End HolidayUpdates.

(** ** Holiday engine (class HolidayEngine, src/lib/holiday-engine.ts) *)

Module HolidayEngine.
Section WithNumber.
Context {A : Type} `{Number A}.

Record t := mk {
  holidays : list (Holiday.t A)
}.

Definition getDefaultHolidays : list (Holiday.t A) :=
  [ Holiday.mk "new-years-day" "New Year's Day" fixed (Some 1) (Some 1) None
      2 1 (lit 0.7) "New Year's Day - typically lower sales" true;
    Holiday.mk "martin-luther-king-day" "Martin Luther King Jr. Day" floating
      (Some 1) None (Some "third monday")
      0 0 (lit 1.0) "MLK Day - normal sales" true;
    Holiday.mk "presidents-day" "Presidents Day" floating
      (Some 2) None (Some "third monday")
      0 0 (lit 1.1) "Presidents Day - slightly increased sales" true;
    Holiday.mk "memorial-day" "Memorial Day" floating
      (Some 5) None (Some "last monday")
      1 0 (lit 1.3) "Memorial Day weekend - increased sales" true;
    Holiday.mk "independence-day" "Independence Day" fixed (Some 7) (Some 4) None
      2 1 (lit 1.4) "July 4th - significantly increased sales" true;
    Holiday.mk "labor-day" "Labor Day" floating
      (Some 9) None (Some "first monday")
      1 0 (lit 1.2) "Labor Day weekend - increased sales" true;
    Holiday.mk "columbus-day" "Columbus Day" floating
      (Some 10) None (Some "second monday")
      0 0 (lit 1.0) "Columbus Day - normal sales" false;
    Holiday.mk "halloween" "Halloween" fixed (Some 10) (Some 31) None
      2 0 (lit 1.2) "Halloween - increased party food sales" true;
    Holiday.mk "thanksgiving" "Thanksgiving" floating
      (Some 11) None (Some "fourth thursday")
      3 1 (lit 1.8) "Thanksgiving - very high sales" true;
    Holiday.mk "black-friday" "Black Friday" floating
      (Some 11) None (Some "fourth friday")
      0 0 (lit 0.8) "Black Friday - reduced deli sales (people shopping)" true;
    Holiday.mk "christmas-eve" "Christmas Eve" fixed (Some 12) (Some 24) None
      2 0 (lit 1.5) "Christmas Eve - high party food sales" true;
    Holiday.mk "christmas" "Christmas Day" fixed (Some 12) (Some 25) None
      0 1 (lit 0.3) "Christmas Day - very low sales" true;
    Holiday.mk "new-years-eve" "New Year's Eve" fixed (Some 12) (Some 31) None
      1 0 (lit 1.6) "New Year's Eve - high party food sales" true ].

Definition constructor (holidays : list (Holiday.t A)) : t :=
  mk (if (0 <? length holidays)%nat then holidays else getDefaultHolidays).

Definition dayNames : list string :=
  ["sunday"; "monday"; "tuesday"; "wednesday"; "thursday"; "friday"; "saturday"].

Definition getDayOfWeekNumber (dayName : string) : Z :=
  indexOf (toLowerCase dayName) dayNames.

Definition getOccurrenceNumber (occurrence : string) : Z :=
  if String.eqb occurrence "first" then 1
  else if String.eqb occurrence "second" then 2
  else if String.eqb occurrence "third" then 3
  else if String.eqb occurrence "fourth" then 4
  else 1.

Definition getNthDayOfWeekInMonth (year month dayOfWeek occurrence : Z) : Date :=
  let firstDay := new_Date year month 1 in
  let firstDayOfWeek := getDay firstDay in
  let daysToAdd := Z.rem (dayOfWeek - firstDayOfWeek + 7) 7 in
  let daysToAdd := daysToAdd + (occurrence - 1) * 7 in
  addDays firstDay daysToAdd.

Definition getLastDayOfWeekInMonth (year month dayOfWeek : Z) : Date :=
  let lastDay := new_Date year (month + 1) 0 in
  let lastDayOfWeek := getDay lastDay in
  let daysToSubtract := Z.rem (lastDayOfWeek - dayOfWeek + 7) 7 in
  addDays lastDay (- daysToSubtract).

(** The match of
    [/^(first|second|third|fourth|last)\s+(monday|...|sunday)$/]:
    the two groups. *)
Definition matchRule (rule : string) : option (string * string) :=
  let try occurrence :=
    match stripPrefix occurrence rule with
    | Some rest =>
        let dayName := dropSpaces rest in
        if (String.length dayName <? String.length rest)%nat
           && (0 <=? indexOf dayName
                 ["monday"; "tuesday"; "wednesday"; "thursday"; "friday";
                  "saturday"; "sunday"])
        then Some (occurrence, dayName) else None
    | None => None
    end in
  List.fold_right
    (fun occurrence r => match try occurrence with Some m => Some m | None => r end)
    None ["first"; "second"; "third"; "fourth"; "last"].

Definition calculateFloatingHoliday (holiday : Holiday.t A) (year : Z) : option Date :=
  match Holiday.rule holiday, Holiday.month holiday with
  | Some rule0, Some month0 =>
      if negb (strTruthy rule0) || (month0 =? 0) then None
      else
        let rule := toLowerCase rule0 in
        let month := month0 - 1 in
        match matchRule rule with
        | None => None
        | Some (occurrence, dayName) =>
            let targetDayOfWeek := getDayOfWeekNumber dayName in
            if String.eqb occurrence "last" then
              Some (getLastDayOfWeekInMonth year month targetDayOfWeek)
            else
              let occurrenceNumber := getOccurrenceNumber occurrence in
              Some (getNthDayOfWeekInMonth year month targetDayOfWeek occurrenceNumber)
        end
  | _, _ => None
  end.

Definition calculateRelativeHoliday (holiday : Holiday.t A) (year : Z) : option Date :=
  None.

Definition calculateHolidayDate (holiday : Holiday.t A) (year : Z) : option Date :=
  match Holiday.type holiday with
  | fixed =>
      if optTruthy (Holiday.month holiday) && optTruthy (Holiday.day holiday) then
        match Holiday.month holiday, Holiday.day holiday with
        | Some month, Some day => Some (new_Date year (month - 1) day)
        | _, _ => None
        end
      else None
  | floating => calculateFloatingHoliday holiday year
  | relative => calculateRelativeHoliday holiday year
  end.

Definition getHolidaysForYear (this : t) (year : Z) : list (HolidayInstance.t A) :=
  List.flat_map
    (fun holiday =>
       match calculateHolidayDate holiday year with
       | Some date => [HolidayInstance.mk holiday date year]
       | None => []
       end)
    (List.filter (fun holiday => Holiday.isActive holiday) (holidays this)).

Definition findNearbyHolidays (date : Date) (holidays : list (HolidayInstance.t A))
    : list (AffectedHoliday.t A) :=
  let nearbyHolidays :=
    List.flat_map
      (fun instance =>
         let holiday := HolidayInstance.holiday instance in
         let daysDifference :=
           (getTime date - getTime (HolidayInstance.date instance))
           / (1000 * 60 * 60 * 24) in
         if (- Holiday.daysAfter holiday <=? daysDifference)
            && (daysDifference <=? Holiday.daysBefore holiday)
         then
           let maxDistance := Z.max (Holiday.daysBefore holiday) (Holiday.daysAfter holiday) in
           let distance := Z.abs daysDifference in
           let proximityFactor :=
             Math_max (ofZ 0) (ofZ 1 - ofZ distance / ofZ maxDistance)%num in
           let impact := (Holiday.salesMultiplier holiday * proximityFactor)%num in
           [AffectedHoliday.mk holiday daysDifference impact]
         else [])
      holidays in
  sortByKey (fun a => Z.abs (AffectedHoliday.distance a)) nearbyHolidays.

Definition calculateCombinedImpact (affectedHolidays : list (AffectedHoliday.t A)) : A :=
  if (length affectedHolidays =? 0)%nat then lit 1.0
  else
    let '(combinedFactor, totalWeight) :=
      fold_left
        (fun '(combinedFactor, totalWeight) a =>
           let impact := AffectedHoliday.impact a in
           let weight := Math_abs (impact - lit 1.0)%num in
           ((combinedFactor + (impact - lit 1.0) * weight)%num,
            (totalWeight + weight)%num))
        affectedHolidays (lit 1.0, ofZ 0) in
    let combinedFactor :=
      if (totalWeight >? ofZ 0)%num
      then (lit 1.0 + (combinedFactor - lit 1.0) / Math_sqrt totalWeight)%num
      else combinedFactor in
    Math_max (lit 0.1) (Math_min (lit 5.0) combinedFactor).

Definition generateImpactExplanation (affectedHolidays : list (AffectedHoliday.t A)) : string :=
  if (length affectedHolidays =? 0)%nat then "No holiday impact"
  else
    let explanations :=
      List.map
        (fun a =>
           let holiday := AffectedHoliday.holiday a in
           let distance := AffectedHoliday.distance a in
           let impact := AffectedHoliday.impact a in
           let direction :=
             if distance <? 0 then "before" else if 0 <? distance then "after" else "on" in
           let days := Z.abs distance in
           let dayText :=
             if days =? 0 then EmptyString else if days =? 1 then "1 day"
             else Z_to_string days +:+ " days" in
           let impactText :=
             if (impact >? lit 1.1)%num then "increased"
             else if (impact <? lit 0.9)%num then "decreased" else "normal" in
           if days =? 0 then
             Holiday.name holiday +:+ " (" +:+ impactText +:+ " sales)"
           else
             dayText +:+ " " +:+ direction +:+ " " +:+ Holiday.name holiday
               +:+ " (" +:+ impactText +:+ " sales)")
        affectedHolidays in
    join ", " explanations.

Definition getHolidayImpactFactor (this : t) (date : Date) (year : option Z)
    : HolidayImpact.t A :=
  let targetYear :=
    match year with
    | Some y => if y =? 0 then getFullYear date else y
    | None => getFullYear date
    end in
  let holidays := getHolidaysForYear this targetYear in
  let affectedHolidays := findNearbyHolidays date holidays in
  let factor := calculateCombinedImpact affectedHolidays in
  let explanation := generateImpactExplanation affectedHolidays in
  HolidayImpact.mk factor affectedHolidays explanation.

Definition addHoliday (this : t) (holiday : Holiday.t A) : t :=
  mk (holidays this ++ [holiday]).

Definition removeHoliday (this : t) (id : string) : t :=
  mk (List.filter (fun h => negb (String.eqb (Holiday.id h) id)) (holidays this)).

Definition getAllHolidays (this : t) : list (Holiday.t A) := holidays this.

(** [{ ...holiday, ...updates }] *)
Definition spread (holiday : Holiday.t A) (updates : HolidayUpdates.t A) : Holiday.t A :=
  {| Holiday.id := default (Holiday.id holiday) (HolidayUpdates.id updates);
     Holiday.name := default (Holiday.name holiday) (HolidayUpdates.name updates);
     Holiday.type := default (Holiday.type holiday) (HolidayUpdates.type updates);
     Holiday.month := default (Holiday.month holiday) (HolidayUpdates.month updates);
     Holiday.day := default (Holiday.day holiday) (HolidayUpdates.day updates);
     Holiday.rule := default (Holiday.rule holiday) (HolidayUpdates.rule updates);
     Holiday.daysBefore :=
       default (Holiday.daysBefore holiday) (HolidayUpdates.daysBefore updates);
     Holiday.daysAfter :=
       default (Holiday.daysAfter holiday) (HolidayUpdates.daysAfter updates);
     Holiday.salesMultiplier :=
       default (Holiday.salesMultiplier holiday) (HolidayUpdates.salesMultiplier updates);
     Holiday.description :=
       default (Holiday.description holiday) (HolidayUpdates.description updates);
     Holiday.isActive :=
       default (Holiday.isActive holiday) (HolidayUpdates.isActive updates) |}.

Definition updateHoliday (this : t) (id : string) (updates : HolidayUpdates.t A) : t :=
  match list_find (fun h => Holiday.id h = id) (holidays this) with
  | Some (index, holiday) => mk (<[index := spread holiday updates]> (holidays this))
  | None => this
  end.

(** A month or day that is missing, 0 or outside [lo, hi]. *)
Definition invalidPart (z : option Z) (lo hi : Z) : bool :=
  negb (optTruthy z)
  || match z with Some v => (v <? lo) || (hi <? v) | None => false end.

Definition validateHoliday (holiday : Holiday.t A) : list string :=
  let errors := [] in
  let errors :=
    if negb (strTruthy (trim (Holiday.name holiday)))
    then errors ++ ["Holiday name is required"] else errors in
  let errors :=
    match Holiday.type holiday with
    | fixed =>
        let errors :=
          if invalidPart (Holiday.month holiday) 1 12
          then errors ++ ["Fixed holidays must have a valid month (1-12)"] else errors in
        if invalidPart (Holiday.day holiday) 1 31
        then errors ++ ["Fixed holidays must have a valid day (1-31)"] else errors
    | _ => errors
    end in
  let errors :=
    match Holiday.type holiday with
    | floating =>
        let errors :=
          if invalidPart (Holiday.month holiday) 1 12
          then errors ++ ["Floating holidays must have a valid month (1-12)"] else errors in
        if match Holiday.rule holiday with
           | Some rule => negb (strTruthy rule) || negb (strTruthy (trim rule))
           | None => true
           end
        then errors ++ ["Floating holidays must have a rule (e.g., " +:+ quote
                          +:+ "fourth thursday" +:+ quote +:+ ")"]
        else errors
    | _ => errors
    end in
  let errors :=
    if (Holiday.salesMultiplier holiday <? lit 0.1)%num
       || (Holiday.salesMultiplier holiday >? lit 5.0)%num
    then errors ++ ["Sales multiplier must be between 0.1 and 5.0"] else errors in
  let errors :=
    if (Holiday.daysBefore holiday <? 0) || (14 <? Holiday.daysBefore holiday)
    then errors ++ ["Days before must be between 0 and 14"] else errors in
  let errors :=
    if (Holiday.daysAfter holiday <? 0) || (14 <? Holiday.daysAfter holiday)
    then errors ++ ["Days after must be between 0 and 14"] else errors in
  errors.

End WithNumber.
Arguments t A : clear implicits.
End HolidayEngine.

(** ** Batch optimizer (class BatchOptimizer) *)

Module BatchOptimizer.
Section WithNumber.
Context {A : Type} `{Number A}.

(** [z || d] on an integer setting. *)
Definition orZ (z d : Z) : Z := if z =? 0 then d else z.

Definition calculateBatchCost (batchSize : A) : A :=
  let setupCost := ofZ 50 in
  let variableCost := (batchSize * ofZ 2)%num in
  (setupCost + variableCost)%num.

Definition createBatchOption (size efficiency wasteRisk : A) (reasoning : string)
    : BatchOption.t A :=
  {| BatchOption.size := Math_ceil size;
     BatchOption.efficiency := Math_max (ofZ 0) efficiency;
     BatchOption.wasteRisk := Math_max (ofZ 0) (Math_min (ofZ 1) wasteRisk);
     BatchOption.cost := calculateBatchCost size;
     BatchOption.reasoning := reasoning;
     BatchOption.score := ofZ 0 |}.

Definition calculateWasteRisk (batchSize totalDemand shelfLife daysAhead : A) : A :=
  if (batchSize <=? totalDemand)%num then ofZ 0
  else
    let excess := (batchSize - totalDemand)%num in
    let excessRatio := (excess / batchSize)%num in
    let consumptionRate := (totalDemand / daysAhead)%num in
    let daysToConsume := (batchSize / Math_max (lit 0.1) consumptionRate)%num in
    if (daysToConsume >? shelfLife)%num then
      let expirationRisk := ((daysToConsume - shelfLife) / shelfLife)%num in
      Math_min (lit 1.0) (excessRatio + expirationRisk * lit 0.5)%num
    else (excessRatio * lit 0.3)%num.

Definition calculateShelfLifeConstrainedMax (totalDemand shelfLife daysAhead : A) : A :=
  let dailyConsumption := (totalDemand / daysAhead)%num in
  let maxSafeProduction :=
    (dailyConsumption * Math_min shelfLife (daysAhead + ofZ 1))%num in
  Math_ceil (Math_max totalDemand maxSafeProduction).

Definition calculateEconomicBatchQuantity (demand : A) (config : ItemConfig.t A) : A :=
  let minBatch := orZ (ItemConfig.minBatchSize config) 10 in
  let setupCostFactor := lit 2.0 in
  let economicQuantity := Math_sqrt (demand * setupCostFactor)%num in
  Math_max (ofZ minBatch) (Math_ceil economicQuantity).

Definition generateBatchOptions (netDemand totalDemand : A) (config : ItemConfig.t A)
    (multiDayDemand : MultiDayDemand.t A) : list (BatchOption.t A) :=
  let minBatch := orZ (ItemConfig.minBatchSize config) 10 in
  let shelfLife := orZ (ItemConfig.shelfLife config) 3 in
  let daysAhead := orZ (MultiDayDemand.daysAhead multiDayDemand) 3 in
  let risk size := calculateWasteRisk size totalDemand (ofZ shelfLife) (ofZ daysAhead) in
  (* Option 1: minimum batch size *)
  let options1 :=
    if 0 <? minBatch then
      [createBatchOption (ofZ minBatch)
         (ofZ minBatch / Math_max (ofZ 1) netDemand)%num
         (risk (ofZ minBatch))
         (if (ofZ minBatch >=? netDemand)%num
          then "Min batch (" +:+ Z_to_string minBatch +:+ ") covers "
                 +:+ Z_to_string daysAhead +:+ "-day demand"
          else "Min batch (" +:+ Z_to_string minBatch
                 +:+ ") - will need additional production soon")]
    else [] in
  (* Option 2: exact net demand *)
  let options2 :=
    if (netDemand >? ofZ 0)%num then
      let exactSize := Math_ceil netDemand in
      options1 ++
      [createBatchOption exactSize (lit 1.0) (risk exactSize)
         ("Exact net demand (" +:+ numToString exactSize +:+ ") for "
            +:+ Z_to_string daysAhead +:+ " days")]
    else options1 in
  (* Option 3: total demand (including current stock replacement) *)
  let options3 :=
    if (totalDemand >? netDemand)%num then
      let totalSize := Math_ceil totalDemand in
      options2 ++
      [createBatchOption totalSize
         (totalSize / Math_max (ofZ 1) netDemand)%num
         (risk totalSize)
         ("Total demand (" +:+ numToString totalSize +:+ ") for "
            +:+ Z_to_string daysAhead +:+ " days - covers all needs")]
    else options2 in
  (* Option 4: shelf-life constrained maximum *)
  let maxSafeProduction :=
    calculateShelfLifeConstrainedMax totalDemand (ofZ shelfLife) (ofZ daysAhead) in
  let options4 :=
    if (maxSafeProduction >? netDemand)%num && negb (maxSafeProduction =? totalDemand)%num
    then
      options3 ++
      [createBatchOption maxSafeProduction
         (maxSafeProduction / Math_max (ofZ 1) netDemand)%num
         (risk maxSafeProduction)
         ("Shelf-life optimized (" +:+ numToString maxSafeProduction +:+ ") for "
            +:+ Z_to_string shelfLife +:+ "-day shelf life")]
    else options3 in
  (* Option 5: economic batch quantity (if significantly different) *)
  let economicBatch := calculateEconomicBatchQuantity netDemand config in
  let options5 :=
    if (economicBatch >? ofZ minBatch)%num
       && negb (economicBatch =? netDemand)%num
       && negb (existsb
                  (fun o => (Math_abs (BatchOption.size o - economicBatch) <? ofZ 2)%num)
                  options4)
    then
      options4 ++
      [createBatchOption economicBatch
         (economicBatch / Math_max (ofZ 1) netDemand)%num
         (risk economicBatch)
         ("Economic batch (" +:+ numToString economicBatch
            +:+ ") balances setup costs and inventory")]
    else options4 in
  List.filter (fun option => (BatchOption.size option >? ofZ 0)%num) options5.

Definition scoreBatchOption (option : BatchOption.t A)
    (multiDayDemand : MultiDayDemand.t A) (config : ItemConfig.t A) (currentStock : A) : A :=
  let score := BatchOption.efficiency option in
  let score := (score - BatchOption.wasteRisk option * lit 3.0)%num in
  let score :=
    if (BatchOption.size option >=? ofZ (orZ (ItemConfig.minBatchSize config) 0))%num
    then (score + lit 0.2)%num else score in
  let score :=
    if (BatchOption.size option
          <? ofZ (orZ (ItemConfig.minBatchSize config) 10) * lit 0.5)%num
    then (score - lit 0.3)%num else score in
  let totalDemand := (MultiDayDemand.totalDemand multiDayDemand + currentStock)%num in
  let score :=
    if (BatchOption.size option >=? totalDemand * lit 0.9)%num
    then (score + lit 0.1)%num else score in
  let confidenceBonus := (MultiDayDemand.confidenceScore multiDayDemand * lit 0.1)%num in
  let score := (score + confidenceBonus)%num in
  let overproductionRatio :=
    (BatchOption.size option
       / Math_max (ofZ 1) (MultiDayDemand.totalDemand multiDayDemand))%num in
  let score :=
    if (overproductionRatio >? lit 1.5)%num
    then (score - (overproductionRatio - lit 1.5) * lit 0.5)%num else score in
  Math_max (ofZ 0) score.

Definition createErrorBatchDecision (config : ItemConfig.t A) : BatchDecision.t A :=
  let fallbackSize := ofZ (orZ (ItemConfig.minBatchSize config) 10) in
  let hoursNeeded :=
    if (ItemConfig.productivity config >? ofZ 0)%num
    then (fallbackSize / ItemConfig.productivity config)%num else ofZ 0 in
  {| BatchDecision.recommendedBatchSize := fallbackSize;
     BatchDecision.produceToday := fallbackSize;
     BatchDecision.hoursNeeded := hoursNeeded;
     BatchDecision.reasoning := "Error in batch calculation - using minimum batch size";
     BatchDecision.options :=
       [createBatchOption fallbackSize (lit 1.0) (lit 0.1) "Fallback option"];
     BatchDecision.selectedOption :=
       createBatchOption fallbackSize (lit 1.0) (lit 0.1) "Fallback option";
     BatchDecision.efficiencyScore := lit 0.5;
     BatchDecision.wasteRiskScore := lit 0.1 |}.

(** [scoredOptions.reduce((best, current) => current.score > best.score ? current : best)]
    on a non-empty array. *)
Definition selectBest (first : BatchOption.t A) (rest : list (BatchOption.t A))
    : BatchOption.t A :=
  fold_left
    (fun best current =>
       if (BatchOption.score current >? BatchOption.score best)%num then current else best)
    rest first.

Definition optimizeBatchSize (multiDayDemand : MultiDayDemand.t A) (currentStock : A)
    (config : ItemConfig.t A) : BatchDecision.t A :=
  let totalDemand := orElse (MultiDayDemand.totalDemand multiDayDemand) (ofZ 0) in
  let netDemand := Math_max (ofZ 0) (totalDemand - currentStock)%num in
  if (netDemand <=? ofZ 0)%num then
    {| BatchDecision.recommendedBatchSize := ofZ 0;
       BatchDecision.produceToday := ofZ 0;
       BatchDecision.hoursNeeded := ofZ 0;
       BatchDecision.reasoning :=
         "Sufficient stock (" +:+ numToString (Math_round currentStock)
           +:+ " units) covers "
           +:+ Z_to_string (MultiDayDemand.daysAhead multiDayDemand)
           +:+ "-day demand (" +:+ numToString (Math_round totalDemand) +:+ " units)";
       BatchDecision.options := [];
       BatchDecision.selectedOption :=
         createBatchOption (ofZ 0) (ofZ 0) (ofZ 0) "No production needed";
       BatchDecision.efficiencyScore := lit 1.0;
       BatchDecision.wasteRiskScore := lit 0.0 |}
  else
    let options := generateBatchOptions netDemand totalDemand config multiDayDemand in
    let scoredOptions :=
      List.map
        (fun option =>
           {| BatchOption.size := BatchOption.size option;
              BatchOption.efficiency := BatchOption.efficiency option;
              BatchOption.wasteRisk := BatchOption.wasteRisk option;
              BatchOption.cost := BatchOption.cost option;
              BatchOption.reasoning := BatchOption.reasoning option;
              BatchOption.score :=
                scoreBatchOption option multiDayDemand config currentStock |})
        options in
    match scoredOptions with
    | [] =>
        (* reduce of an empty array with no initial value throws; the
           enclosing catch returns the fallback decision *)
        createErrorBatchDecision config
    | first :: rest =>
        let bestOption := selectBest first rest in
        let hoursNeeded :=
          if (ItemConfig.productivity config >? ofZ 0)%num
          then (BatchOption.size bestOption / ItemConfig.productivity config)%num
          else ofZ 0 in
        {| BatchDecision.recommendedBatchSize := BatchOption.size bestOption;
           BatchDecision.produceToday := BatchOption.size bestOption;
           BatchDecision.hoursNeeded := hoursNeeded;
           BatchDecision.reasoning := BatchOption.reasoning bestOption;
           BatchDecision.options := scoredOptions;
           BatchDecision.selectedOption := bestOption;
           BatchDecision.efficiencyScore := BatchOption.efficiency bestOption;
           BatchDecision.wasteRiskScore := BatchOption.wasteRisk bestOption |}
    end.

End WithNumber.
End BatchOptimizer.

(** ** Demand forecaster (class DemandForecaster, src/lib/forecasting.ts)

    The wall clock read by [new Date()] is the parameter [now]. *)

Module DemandForecaster.
Section WithNumber.
Context {A : Type} `{Number A}.

Record t := mk {
  holidayEngine : HolidayEngine.t A;
  seasonalFactors : gmap Z A;
  dayOfWeekFactors : gmap Z A
}.

Definition getDefaultSeasonalFactors : gmap Z A :=
  list_to_map
    [ (1, lit 0.8); (2, lit 0.9); (3, lit 1.0); (4, lit 1.1); (5, lit 1.2);
      (6, lit 1.1); (7, lit 1.3); (8, lit 1.2); (9, lit 1.0); (10, lit 1.1);
      (11, lit 1.4); (12, lit 1.3) ].

Definition getDefaultDayOfWeekFactors : gmap Z A :=
  list_to_map
    [ (0, lit 0.7); (1, lit 0.9); (2, lit 1.0); (3, lit 1.1); (4, lit 1.2);
      (5, lit 1.4); (6, lit 1.1) ].

Definition constructor (holidays : list (Holiday.t A)) : t :=
  mk (HolidayEngine.constructor holidays)
     getDefaultSeasonalFactors getDefaultDayOfWeekFactors.

Definition byDateDescending (d : ProcessedSalesData.t A) : Z :=
  - getTime (ProcessedSalesData.calendarDate d).

Definition byDateAscending (d : ProcessedSalesData.t A) : Z :=
  getTime (ProcessedSalesData.calendarDate d).

Definition getSameDayOfWeekData (itemData : list (ProcessedSalesData.t A))
    (targetDate : Date) : list (ProcessedSalesData.t A) :=
  let targetDayOfWeek := getDay targetDate in
  firstn 8
    (sortByKey byDateDescending
       (List.filter
          (fun d => getDay (ProcessedSalesData.calendarDate d) =? targetDayOfWeek)
          itemData)).

Definition getRecentData (now : Date) (itemData : list (ProcessedSalesData.t A))
    (days : Z) : list (ProcessedSalesData.t A) :=
  let cutoffDate := setDate now (getDate now - days) in
  sortByKey byDateDescending
    (List.filter (fun d => cutoffDate <=? ProcessedSalesData.calendarDate d) itemData).

Definition getSamePeriodLastYear (itemData : list (ProcessedSalesData.t A))
    (targetDate : Date) : list (ProcessedSalesData.t A) :=
  let lastYear := getFullYear targetDate - 1 in
  let targetMonth := getMonth targetDate in
  let targetWeek := getDate targetDate / 7 in
  List.filter
    (fun d =>
       let dataYear := getFullYear (ProcessedSalesData.calendarDate d) in
       let dataMonth := getMonth (ProcessedSalesData.calendarDate d) in
       let dataWeek := getDate (ProcessedSalesData.calendarDate d) / 7 in
       (dataYear =? lastYear) && (dataMonth =? targetMonth)
       && (Z.abs (dataWeek - targetWeek) <=? 1))
    itemData.

(** The [forEach((item, index) => ...)] loops: a fold that carries the index. *)
Definition foldIndexed {S T : Type} (f : S -> T -> nat -> S) (xs : list T) (init : S) : S :=
  fst (fold_left (fun '(acc, index) x => (f acc x index, Datatypes.S index)) xs (init, O)).

Definition calculateWeightedAverage (data : list (ProcessedSalesData.t A)) : A :=
  if (length data =? 0)%nat then ofZ 0
  else
    let '(weightedSum, totalWeight) :=
      foldIndexed
        (fun '(weightedSum, totalWeight) item index =>
           let weight := Math_pow (lit 0.8) index in
           ((weightedSum + ProcessedSalesData.currentYearUnits item * weight)%num,
            (totalWeight + weight)%num))
        data (ofZ 0, ofZ 0) in
    if (totalWeight >? ofZ 0)%num then (weightedSum / totalWeight)%num else ofZ 0.

Definition calculateBaseDemand (now : Date) (itemData : list (ProcessedSalesData.t A))
    (targetDate : Date) : A :=
  if (length itemData =? 0)%nat then ofZ 0
  else
    let sameDayOfWeek := getSameDayOfWeekData itemData targetDate in
    if (0 <? length sameDayOfWeek)%nat then calculateWeightedAverage sameDayOfWeek
    else
      let recentData := getRecentData now itemData 30 in
      if (0 <? length recentData)%nat then calculateWeightedAverage recentData
      else
        let lastYearData := getSamePeriodLastYear itemData targetDate in
        if (0 <? length lastYearData)%nat then calculateWeightedAverage lastYearData
        else
          let totalUnits :=
            fold_left (fun sum d => (sum + ProcessedSalesData.currentYearUnits d)%num)
              itemData (ofZ 0) in
          (totalUnits / ofZ (Z.of_nat (length itemData)))%num.

Definition getSeasonalFactor (this : t) (date : Date) : A :=
  let month := getMonth date + 1 in
  match seasonalFactors this !! month with
  | Some f => orElse f (lit 1.0)
  | None => lit 1.0
  end.

Definition getDayOfWeekFactor (this : t) (date : Date) : A :=
  let dayOfWeek := getDay date in
  match dayOfWeekFactors this !! dayOfWeek with
  | Some f => orElse f (lit 1.0)
  | None => lit 1.0
  end.

Definition calculateTrendFactor (now : Date) (itemData : list (ProcessedSalesData.t A))
    (targetDate : Date) : A :=
  if (length itemData <? 4)%nat then lit 1.0
  else
    let recentData := getRecentData now itemData 28 in
    if (length recentData <? 4)%nat then lit 1.0
    else
      let recentData := sortByKey byDateAscending recentData in
      let n := ofZ (Z.of_nat (length recentData)) in
      let '(sumX, sumY, sumXY, sumX2) :=
        foldIndexed
          (fun '(sumX, sumY, sumXY, sumX2) item index =>
             let x := ofZ (Z.of_nat index) in
             let y := ProcessedSalesData.currentYearUnits item in
             ((sumX + x)%num, (sumY + y)%num, (sumXY + x * y)%num, (sumX2 + x * x)%num))
          recentData (ofZ 0, ofZ 0, ofZ 0, ofZ 0) in
      let slope := ((n * sumXY - sumX * sumY) / (n * sumX2 - sumX * sumX))%num in
      let avgY := (sumY / n)%num in
      if (avgY >? ofZ 0)%num then
        let trendFactor := (ofZ 1 + slope / avgY)%num in
        Math_max (lit 0.5) (Math_min (lit 2.0) trendFactor)
      else lit 1.0.

Definition calculateForecastFactors (this : t) (now : Date) (targetDate : Date)
    (itemData : list (ProcessedSalesData.t A)) : ForecastFactors.t A :=
  let seasonal := getSeasonalFactor this targetDate in
  let dayOfWeek := getDayOfWeekFactor this targetDate in
  let holiday :=
    HolidayImpact.factor
      (HolidayEngine.getHolidayImpactFactor (holidayEngine this) targetDate None) in
  let trend := calculateTrendFactor now itemData targetDate in
  {| ForecastFactors.seasonal := seasonal;
     ForecastFactors.dayOfWeek := dayOfWeek;
     ForecastFactors.holiday := holiday;
     ForecastFactors.trend := trend;
     ForecastFactors.growth := ofZ 0 |}.

Definition calculateDateFactor (factors : ForecastFactors.t A) : A :=
  (ForecastFactors.seasonal factors * ForecastFactors.dayOfWeek factors
   * ForecastFactors.holiday factors * ForecastFactors.trend factors)%num.

Definition calculateFactorVariation (factors : ForecastFactors.t A) : A :=
  let deviations :=
    [ Math_abs (ForecastFactors.seasonal factors - lit 1.0)%num;
      Math_abs (ForecastFactors.dayOfWeek factors - lit 1.0)%num;
      Math_abs (ForecastFactors.holiday factors - lit 1.0)%num;
      Math_abs (ForecastFactors.trend factors - lit 1.0)%num ] in
  (fold_left (fun sum dev => (sum + dev)%num) deviations (ofZ 0)
   / ofZ (Z.of_nat (length deviations)))%num.

Definition calculateConfidence (now : Date) (itemData : list (ProcessedSalesData.t A))
    (targetDate : Date) (factors : ForecastFactors.t A) : A :=
  let confidence := lit 0.5 in
  let dataPoints := length itemData in
  let confidence :=
    if (30 <=? dataPoints)%nat then (confidence + lit 0.3)%num
    else if (10 <=? dataPoints)%nat then (confidence + lit 0.2)%num
    else if (5 <=? dataPoints)%nat then (confidence + lit 0.1)%num
    else confidence in
  let recentData := getRecentData now itemData 14 in
  let confidence :=
    if (5 <=? length recentData)%nat then (confidence + lit 0.1)%num else confidence in
  let sameDayData := getSameDayOfWeekData itemData targetDate in
  let confidence :=
    if (3 <=? length sameDayData)%nat then (confidence + lit 0.1)%num else confidence in
  let factorVariation := calculateFactorVariation factors in
  let confidence :=
    if (factorVariation <? lit 0.2)%num then (confidence + lit 0.1)%num else confidence in
  Math_min (lit 1.0) confidence.

Definition generateForecastExplanation (baseDemand adjustedDemand : A)
    (factors : ForecastFactors.t A) : string :=
  let clause (f : A) (up down what : string) : list string :=
    if (Math_abs (f - lit 1.0) >? lit 0.05)%num
    then [(if (f >? lit 1.0)%num then up else down) +:+ what] else [] in
  let explanations :=
    clause (ForecastFactors.seasonal factors) "increased" "decreased" " for season"
    ++ clause (ForecastFactors.dayOfWeek factors) "higher" "lower" " for day of week"
    ++ clause (ForecastFactors.holiday factors) "increased" "decreased"
         " for holiday proximity"
    ++ clause (ForecastFactors.trend factors) "upward" "downward" " trend" in
  if (length explanations =? 0)%nat then "Normal demand expected"
  else "Adjusted for: " +:+ join ", " explanations.

Definition createEmptyForecast (targetDate : Date) : ForecastResult.t A :=
  {| ForecastResult.forecast := ofZ 0;
     ForecastResult.baseDemand := ofZ 0;
     ForecastResult.adjustedDemand := ofZ 0;
     ForecastResult.confidence := ofZ 0;
     ForecastResult.factors :=
       {| ForecastFactors.seasonal := lit 1.0;
          ForecastFactors.dayOfWeek := lit 1.0;
          ForecastFactors.holiday := lit 1.0;
          ForecastFactors.trend := lit 1.0;
          ForecastFactors.growth := ofZ 0 |};
     ForecastResult.explanation := "No historical data available";
     ForecastResult.dataPoints := 0;
     ForecastResult.targetDate := targetDate |}.

Definition forecastDemand (this : t) (now : Date)
    (historicalData : list (ProcessedSalesData.t A)) (targetDate : Date)
    (growthRate : A) (itemNumber : string) : ForecastResult.t A :=
  let itemData :=
    List.filter (fun d => String.eqb (ProcessedSalesData.itemNumber d) itemNumber)
      historicalData in
  if (length itemData =? 0)%nat then createEmptyForecast targetDate
  else
    let baseDemand := calculateBaseDemand now itemData targetDate in
    let factors := calculateForecastFactors this now targetDate itemData in
    let adjustedDemand :=
      (baseDemand * (ofZ 1 + growthRate)
       * ForecastFactors.seasonal factors
       * ForecastFactors.dayOfWeek factors
       * ForecastFactors.holiday factors
       * ForecastFactors.trend factors)%num in
    let confidence := calculateConfidence now itemData targetDate factors in
    {| ForecastResult.forecast := Math_max (ofZ 0) adjustedDemand;
       ForecastResult.baseDemand := baseDemand;
       ForecastResult.adjustedDemand := adjustedDemand;
       ForecastResult.confidence := confidence;
       ForecastResult.factors := factors;
       ForecastResult.explanation :=
         generateForecastExplanation baseDemand adjustedDemand factors;
       ForecastResult.dataPoints := length itemData;
       ForecastResult.targetDate := targetDate |}.

Definition forecastMultiDay (this : t) (now : Date)
    (historicalData : list (ProcessedSalesData.t A)) (startDate : Date)
    (days : Z) (growthRate : A) (itemNumber : string) : MultiDayDemand.t A :=
  let '(dailyForecasts, totalDemand, totalConfidence) :=
    fold_left
      (fun '(dailyForecasts, totalDemand, totalConfidence) i =>
         let targetDate := setDate startDate (getDate startDate + Z.of_nat i) in
         let forecast :=
           forecastDemand this now historicalData targetDate growthRate itemNumber in
         let dailyForecast :=
           {| DailyForecast.date := targetDate;
              DailyForecast.baseDemand := ForecastResult.baseDemand forecast;
              DailyForecast.adjustedDemand := ForecastResult.adjustedDemand forecast;
              DailyForecast.dateFactor :=
                calculateDateFactor (ForecastResult.factors forecast);
              DailyForecast.confidence := ForecastResult.confidence forecast;
              DailyForecast.factors := ForecastResult.factors forecast |} in
         (dailyForecasts ++ [dailyForecast],
          (totalDemand + ForecastResult.adjustedDemand forecast)%num,
          (totalConfidence + ForecastResult.confidence forecast)%num))
      (seq 0 (Z.to_nat days)) ([], ofZ 0, ofZ 0) in
  {| MultiDayDemand.totalDemand := Math_round totalDemand;
     MultiDayDemand.dailyForecasts := dailyForecasts;
     MultiDayDemand.daysAhead := days;
     MultiDayDemand.confidenceScore := (totalConfidence / ofZ days)%num |}.

Definition setSeasonalFactors (this : t) (factors : gmap Z A) : t :=
  mk (holidayEngine this) factors (dayOfWeekFactors this).

Definition setDayOfWeekFactors (this : t) (factors : gmap Z A) : t :=
  mk (holidayEngine this) (seasonalFactors this) factors.

Definition updateHolidays (this : t) (holidays : list (Holiday.t A)) : t :=
  mk (HolidayEngine.constructor holidays) (seasonalFactors this) (dayOfWeekFactors this).

End WithNumber.
Arguments t A : clear implicits.
End DemandForecaster.

(** ** Plan generator (class PlanGenerator)

    [generatePlan] and [generatePlanItem] take the wall clock [now] for
    the forecaster and the metadata. *)

Module PlanGenerator.
Section WithNumber.
Context {A : Type} `{Number A}.

Record t := mk {
  forecaster : DemandForecaster.t A;
  holidayEngine : HolidayEngine.t A;
  fiscalCalendar : FiscalCalendar.t
}.

Definition constructor (holidays : list (Holiday.t A))
    (globalSettings : GlobalSettings.t A) : t :=
  mk (DemandForecaster.constructor holidays)
     (HolidayEngine.constructor holidays)
     (FiscalCalendar.constructor
        (fst (GlobalSettings.fiscalYearStart globalSettings))
        (snd (GlobalSettings.fiscalYearStart globalSettings))).

(** [selectedItems.includes(x)] *)
Definition includes (xs : list string) (x : string) : bool :=
  existsb (String.eqb x) xs.

Definition filterData (data : list (ProcessedSalesData.t A)) (dateRange : DateRange.t)
    (selectedItems : list string) : list (ProcessedSalesData.t A) :=
  List.filter
    (fun record =>
       includes selectedItems (ProcessedSalesData.itemNumber record)
       && (DateRange.start dateRange <=? ProcessedSalesData.calendarDate record)
       && (ProcessedSalesData.calendarDate record <=? DateRange.end_ dateRange))
    data.

Definition groupDataByItem (data : list (ProcessedSalesData.t A))
    : gmap string (list (ProcessedSalesData.t A)) :=
  fold_left
    (fun (groups : gmap string (list (ProcessedSalesData.t A))) record =>
       let existing := default [] (groups !! ProcessedSalesData.itemNumber record) in
       <[ ProcessedSalesData.itemNumber record := existing ++ [record] ]> groups)
    data ∅.

(** [field] selects one of the unit counts; a missing or NaN value is
    left out of the average. *)
Definition getAverageUnits (itemData : list (ProcessedSalesData.t A))
    (field : ProcessedSalesData.t A -> option A) : A :=
  if (length itemData =? 0)%nat then ofZ 0
  else
    let values :=
      List.flat_map
        (fun d => match field d with
                  | Some value => if isNaN value then [] else [value]
                  | None => []
                  end)
        itemData in
    if (length values =? 0)%nat then ofZ 0
    else
      (fold_left (fun sum value => (sum + value)%num) values (ofZ 0)
       / ofZ (Z.of_nat (length values)))%num.

Definition createEmptyPlanItem (itemNumber : string) (config : ItemConfig.t A)
    (planDate : Date) : ProductionPlanItem.t A :=
  let emptyMultiDayDemand :=
    {| MultiDayDemand.totalDemand := ofZ 0;
       MultiDayDemand.dailyForecasts := [];
       MultiDayDemand.daysAhead := ItemConfig.maxDaysAhead config;
       MultiDayDemand.confidenceScore := ofZ 0 |} in
  let emptyBatchDecision :=
    {| BatchDecision.recommendedBatchSize := ofZ 0;
       BatchDecision.produceToday := ofZ 0;
       BatchDecision.hoursNeeded := ofZ 0;
       BatchDecision.reasoning := "No historical data available";
       BatchDecision.options := [];
       BatchDecision.selectedOption :=
         {| BatchOption.size := ofZ 0;
            BatchOption.efficiency := ofZ 0;
            BatchOption.wasteRisk := ofZ 0;
            BatchOption.cost := ofZ 0;
            BatchOption.reasoning := "No data";
            BatchOption.score := ofZ 0 |};
       BatchDecision.efficiencyScore := ofZ 0;
       BatchDecision.wasteRiskScore := ofZ 0 |} in
  {| ProductionPlanItem.itemNumber := itemNumber;
     ProductionPlanItem.itemDescription := ItemConfig.itemDescription config;
     ProductionPlanItem.oldStockStart := ofZ 0;
     ProductionPlanItem.oldStockEnd := ofZ 0;
     ProductionPlanItem.stockAge := ofZ 0;
     ProductionPlanItem.newStockEnd := ofZ 0;
     ProductionPlanItem.isExpired := false;
     ProductionPlanItem.lastYearUnits := ofZ 0;
     ProductionPlanItem.twoYearsAgoUnits := ofZ 0;
     ProductionPlanItem.dateFactor := lit 1.0;
     ProductionPlanItem.dateFactorReasons := ["No historical data available"];
     ProductionPlanItem.seasonalFactor := lit 1.0;
     ProductionPlanItem.holidayFactor := lit 1.0;
     ProductionPlanItem.dayOfWeekFactor := lit 1.0;
     ProductionPlanItem.multiDayDemand := emptyMultiDayDemand;
     ProductionPlanItem.todayNeed := ofZ 0;
     ProductionPlanItem.batchDecision := emptyBatchDecision;
     ProductionPlanItem.productivity := ItemConfig.productivity config;
     ProductionPlanItem.shelfLife := ItemConfig.shelfLife config;
     ProductionPlanItem.growthRate := ItemConfig.defaultGrowthRate config;
     ProductionPlanItem.minBatchSize := ItemConfig.minBatchSize config;
     ProductionPlanItem.maxDaysAhead := ItemConfig.maxDaysAhead config |}.

(** The result is [null] only when the body throws, which no modelled
    operation does. *)
Definition generatePlanItem (this : t) (now : Date) (itemNumber : string)
    (itemData : list (ProcessedSalesData.t A)) (config : ItemConfig.t A)
    (planDate : Date) (globalSettings : GlobalSettings.t A)
    : option (ProductionPlanItem.t A) :=
  if (length itemData =? 0)%nat then
    Some (createEmptyPlanItem itemNumber config planDate)
  else
    let itemDescription :=
      match itemData with
      | d :: _ =>
          if strTruthy (ProcessedSalesData.itemDescription d)
          then ProcessedSalesData.itemDescription d
          else ItemConfig.itemDescription config
      | [] => ItemConfig.itemDescription config
      end in
    let currentStock := ofZ 0 in
    let oldStockStart := ofZ 0 in
    let stockAge := ofZ 0 in
    let lastYearUnits :=
      getAverageUnits itemData (fun d => Some (ProcessedSalesData.lastYearUnits d)) in
    let twoYearsAgoUnits :=
      getAverageUnits itemData (fun d => ProcessedSalesData.twoYearsAgoUnits d) in
    let multiDayDemand :=
      DemandForecaster.forecastMultiDay (forecaster this) now itemData planDate
        (ItemConfig.maxDaysAhead config) (ItemConfig.defaultGrowthRate config)
        itemNumber in
    let todayForecast :=
      DemandForecaster.forecastDemand (forecaster this) now itemData planDate
        (ItemConfig.defaultGrowthRate config) itemNumber in
    let holidayImpact :=
      HolidayEngine.getHolidayImpactFactor (holidayEngine this) planDate None in
    let dateFactorReasons := [HolidayImpact.explanation holidayImpact] in
    let batchDecision :=
      BatchOptimizer.optimizeBatchSize multiDayDemand currentStock config in
    let isExpired := (stockAge >? ofZ (ItemConfig.shelfLife config))%num in
    let oldStockEnd :=
      if isExpired then ofZ 0
      else Math_max (ofZ 0) (oldStockStart - Math_min (ofZ 0) oldStockStart)%num in
    let newStockEnd :=
      Math_max (ofZ 0)
        (BatchDecision.produceToday batchDecision
         - Math_max (ofZ 0) (ofZ 0 - oldStockStart))%num in
    let factors := ForecastResult.factors todayForecast in
    Some
      {| ProductionPlanItem.itemNumber := itemNumber;
         ProductionPlanItem.itemDescription := itemDescription;
         ProductionPlanItem.oldStockStart := oldStockStart;
         ProductionPlanItem.oldStockEnd := oldStockEnd;
         ProductionPlanItem.stockAge := stockAge;
         ProductionPlanItem.newStockEnd := newStockEnd;
         ProductionPlanItem.isExpired := isExpired;
         ProductionPlanItem.lastYearUnits := lastYearUnits;
         ProductionPlanItem.twoYearsAgoUnits := twoYearsAgoUnits;
         ProductionPlanItem.dateFactor :=
           (ForecastFactors.holiday factors * ForecastFactors.seasonal factors
            * ForecastFactors.dayOfWeek factors)%num;
         ProductionPlanItem.dateFactorReasons := dateFactorReasons;
         ProductionPlanItem.seasonalFactor := ForecastFactors.seasonal factors;
         ProductionPlanItem.holidayFactor := ForecastFactors.holiday factors;
         ProductionPlanItem.dayOfWeekFactor := ForecastFactors.dayOfWeek factors;
         ProductionPlanItem.multiDayDemand := multiDayDemand;
         ProductionPlanItem.todayNeed := ForecastResult.forecast todayForecast;
         ProductionPlanItem.batchDecision := batchDecision;
         ProductionPlanItem.productivity := ItemConfig.productivity config;
         ProductionPlanItem.shelfLife := ItemConfig.shelfLife config;
         ProductionPlanItem.growthRate := ItemConfig.defaultGrowthRate config;
         ProductionPlanItem.minBatchSize := ItemConfig.minBatchSize config;
         ProductionPlanItem.maxDaysAhead := ItemConfig.maxDaysAhead config |}.

Definition produceTodayOf (item : ProductionPlanItem.t A) : A :=
  BatchDecision.produceToday (ProductionPlanItem.batchDecision item).

Definition average (xs : list A) : A :=
  if (0 <? length xs)%nat
  then (fold_left (fun sum x => (sum + x)%num) xs (ofZ 0) / ofZ (Z.of_nat (length xs)))%num
  else ofZ 0.

Definition generateSummary (items : list (ProductionPlanItem.t A))
    : ProductionSummary.t A :=
  let activeItems :=
    List.filter (fun item => (produceTodayOf item >? ofZ 0)%num) items in
  let totalUnits :=
    fold_left (fun sum item => (sum + produceTodayOf item)%num) items (ofZ 0) in
  let totalHours :=
    fold_left
      (fun sum item =>
         (sum + BatchDecision.hoursNeeded (ProductionPlanItem.batchDecision item))%num)
      items (ofZ 0) in
  let itemsWithCarryover :=
    length
      (List.filter (fun item => (ProductionPlanItem.oldStockStart item >? ofZ 0)%num)
         items) in
  let expiredItems :=
    length (List.filter (fun item => ProductionPlanItem.isExpired item) items) in
  let efficiencyScores :=
    List.map
      (fun item => BatchDecision.efficiencyScore (ProductionPlanItem.batchDecision item))
      (List.filter
         (fun item =>
            (BatchDecision.efficiencyScore (ProductionPlanItem.batchDecision item)
               >? ofZ 0)%num)
         items) in
  let batchEfficiencyScore := average efficiencyScores in
  let estimatedCost := (totalUnits * lit 2.5)%num in
  let wasteRiskScores :=
    List.map
      (fun item => BatchDecision.wasteRiskScore (ProductionPlanItem.batchDecision item))
      items in
  let wasteRiskScore := average wasteRiskScores in
  {| ProductionSummary.totalItems := length items;
     ProductionSummary.activeItems := length activeItems;
     ProductionSummary.totalUnitsToProduce := totalUnits;
     ProductionSummary.totalHoursNeeded := totalHours;
     ProductionSummary.itemsWithCarryover := itemsWithCarryover;
     ProductionSummary.expiredItems := expiredItems;
     ProductionSummary.batchEfficiencyScore := batchEfficiencyScore;
     ProductionSummary.estimatedCost := estimatedCost;
     ProductionSummary.wasteRiskScore := wasteRiskScore |}.

(** [[...new Set(xs)]]: the distinct values in order of first occurrence. *)
Definition distinct (xs : list string) : list string :=
  fold_left (fun acc x => if includes acc x then acc else acc ++ [x]) xs [].

Definition generateMetadata (this : t) (now : Date)
    (data : list (ProcessedSalesData.t A)) (dateRange : DateRange.t)
    (selectedItems : list string) (holidays : list (Holiday.t A))
    (globalSettings : GlobalSettings.t A) : PlanMetadata.t A :=
  let dataSources := distinct (List.map (fun d => ProcessedSalesData.dataSource d) data) in
  let planningHorizon :=
    fold_left Math_max
      (List.map (fun _ : string => ofZ (GlobalSettings.defaultMaxDaysAhead globalSettings))
         selectedItems)
      (ofZ (-1) / ofZ 0)%num in
  {| PlanMetadata.generatedAt := now;
     PlanMetadata.dataSource := dataSources;
     PlanMetadata.holidaysConsidered :=
       List.filter (fun h => Holiday.isActive h) holidays;
     PlanMetadata.planningHorizon := planningHorizon;
     PlanMetadata.fiscalYearStart :=
       FiscalCalendar.getFiscalYearStart (fiscalCalendar this) (getFullYear now + 1);
     PlanMetadata.version := "1.0.0";
     PlanMetadata.settings := globalSettings |}.

Definition generatePlanItems (this : t) (now : Date)
    (itemGroups : gmap string (list (ProcessedSalesData.t A)))
    (dateRange : DateRange.t) (selectedItems : list string)
    (itemConfigs : gmap string (ItemConfig.t A))
    (globalSettings : GlobalSettings.t A) : list (ProductionPlanItem.t A) :=
  fold_left
    (fun planItems itemNumber =>
       let itemData := default [] (itemGroups !! itemNumber) in
       match itemConfigs !! itemNumber with
       | Some itemConfig =>
           if ItemConfig.isActive itemConfig then
             match generatePlanItem this now itemNumber itemData itemConfig
                     (DateRange.start dateRange) globalSettings with
             | Some planItem => planItems ++ [planItem]
             | None => planItems
             end
           else planItems
       | None => planItems
       end)
    selectedItems [].

Definition generatePlan (this : t) (now : Date)
    (data : list (ProcessedSalesData.t A)) (dateRange : DateRange.t)
    (selectedItems : list string) (itemConfigs : gmap string (ItemConfig.t A))
    (globalSettings : GlobalSettings.t A) (holidays : list (Holiday.t A))
    : ProductionPlan.t A :=
  let filteredData := filterData data dateRange selectedItems in
  let itemGroups := groupDataByItem filteredData in
  let planItems :=
    generatePlanItems this now itemGroups dateRange selectedItems itemConfigs
      globalSettings in
  let summary := generateSummary planItems in
  let metadata :=
    generateMetadata this now data dateRange selectedItems holidays globalSettings in
  {| ProductionPlan.date := DateRange.start dateRange;
     ProductionPlan.items := planItems;
     ProductionPlan.summary := summary;
     ProductionPlan.metadata := metadata |}.

Definition updateHolidays (this : t) (holidays : list (Holiday.t A)) : t :=
  mk (DemandForecaster.updateHolidays (forecaster this) holidays)
     (HolidayEngine.constructor holidays)
     (fiscalCalendar this).

End WithNumber.
Arguments t A : clear implicits.
End PlanGenerator.

(** ** Format helpers (src/utils/format-helpers.ts) *)

Module FormatHelpers.

Definition formatItemNumber (itemNumber : string) : string :=
  if negb (strTruthy itemNumber) then EmptyString
  else padStart itemNumber 5 "0".

Record ParsedItem := mkParsedItem {
  itemNumber : string;
  description : string
}.

(** The match of [/^(\d+)\s+(.+)$/]. *)
Definition parseItemString (itemString : string) : ParsedItem :=
  if negb (strTruthy itemString) then mkParsedItem EmptyString EmptyString
  else
    match matchRuns [isDigit; isSpace; anyChar] true itemString with
    | Some [digits; _; text] => mkParsedItem (formatItemNumber digits) (trim text)
    | _ => mkParsedItem itemString EmptyString
    end.

End FormatHelpers.

(** ** CSV processor (class CsvProcessor)

    The records of a parsed file: their validation, their conversion
    and the quality report.  Reading the file and parsing its cells are
    not modelled. *)

Module CsvProcessor.

Record t := mk {
  fiscalCalendar : FiscalCalendar.t
}.

Definition constructor : t := mk (FiscalCalendar.constructor 9 2).

Section WithNumber.
Context {A : Type} `{Number A}.

(** The item format [/^\d+\s+.+/]. *)
Definition matchesItemFormat (item : string) : bool :=
  match matchRuns [isDigit; isSpace; anyChar] false item with
  | Some _ => true
  | None => false
  end.

Definition validateRecord (record : RawSalesData.t A) (rowNumber : Z)
    : list ValidationError.t :=
  let errors := [] in
  let errors :=
    if (RawSalesData.fiscalYear record =? 0)
       || (RawSalesData.fiscalYear record <? 2020)
       || (2030 <? RawSalesData.fiscalYear record)
    then errors ++
         [ValidationError.mk rowNumber "Fiscal Year"
            (numberValue (RawSalesData.fiscalYear record))
            "year between 2020-2030" "Invalid fiscal year"]
    else errors in
  let errors :=
    if (RawSalesData.fiscalPeriod record =? 0)
       || (RawSalesData.fiscalPeriod record <? 1)
       || (13 <? RawSalesData.fiscalPeriod record)
    then errors ++
         [ValidationError.mk rowNumber "Fiscal Period"
            (numberValue (RawSalesData.fiscalPeriod record))
            "period between 1-13" "Invalid fiscal period"]
    else errors in
  let errors :=
    if (RawSalesData.fiscalWeek record =? 0)
       || (RawSalesData.fiscalWeek record <? 1)
       || (4 <? RawSalesData.fiscalWeek record)
    then errors ++
         [ValidationError.mk rowNumber "Fiscal Week"
            (numberValue (RawSalesData.fiscalWeek record))
            "week between 1-4" "Invalid fiscal week"]
    else errors in
  let errors :=
    if (RawSalesData.fiscalDay record =? 0)
       || (RawSalesData.fiscalDay record <? 1)
       || (7 <? RawSalesData.fiscalDay record)
    then errors ++
         [ValidationError.mk rowNumber "Fiscal Day"
            (numberValue (RawSalesData.fiscalDay record))
            "day between 1-7" "Invalid fiscal day"]
    else errors in
  let errors :=
    if negb (strTruthy (RawSalesData.item record))
       || negb (matchesItemFormat (RawSalesData.item record))
    then errors ++
         [ValidationError.mk rowNumber "Item"
            (textValue (RawSalesData.item record))
            ("format: " +:+ quote +:+ "12345 ITEM DESCRIPTION" +:+ quote)
            "Invalid item format"]
    else errors in
  errors.

Definition convertToProcessedData (this : t) (raw : RawSalesData.t A)
    (dataSource : string) : ProcessedSalesData.t A :=
  let parsed := FormatHelpers.parseItemString (RawSalesData.item raw) in
  let calendarDate :=
    FiscalCalendar.convertToCalendarDate (fiscalCalendar this)
      (RawSalesData.fiscalYear raw) (RawSalesData.fiscalPeriod raw)
      (RawSalesData.fiscalWeek raw) (RawSalesData.fiscalDay raw) in
  let fiscalDate :=
    {| fiscalYear := RawSalesData.fiscalYear raw;
       fiscalPeriod := RawSalesData.fiscalPeriod raw;
       fiscalWeek := RawSalesData.fiscalWeek raw;
       fiscalDay := RawSalesData.fiscalDay raw |} in
  let variance :=
    (RawSalesData.memberNetSalesUnits raw - RawSalesData.memberNetSalesUnitsLY raw)%num in
  let variancePercent :=
    if (RawSalesData.memberNetSalesUnitsLY raw >? ofZ 0)%num
    then (variance / RawSalesData.memberNetSalesUnitsLY raw)%num else ofZ 0 in
  {| ProcessedSalesData.itemNumber :=
       FormatHelpers.formatItemNumber (FormatHelpers.itemNumber parsed);
     ProcessedSalesData.itemDescription := FormatHelpers.description parsed;
     ProcessedSalesData.calendarDate := calendarDate;
     ProcessedSalesData.fiscalDate := fiscalDate;
     ProcessedSalesData.currentYearUnits := RawSalesData.memberNetSalesUnits raw;
     ProcessedSalesData.lastYearUnits := RawSalesData.memberNetSalesUnitsLY raw;
     ProcessedSalesData.twoYearsAgoUnits := None;
     ProcessedSalesData.variance := variance;
     ProcessedSalesData.variancePercent := variancePercent;
     ProcessedSalesData.dataSource := dataSource |}.

Definition generateRecommendations (issues : list DataQualityIssue.t) : list string :=
  let recommendations := [] in
  let recommendations :=
    if existsb
         (fun i => match DataQualityIssue.type i with missing_data => true | _ => false end)
         issues
    then recommendations ++ ["Consider cleaning up master data to improve completeness"]
    else recommendations in
  let recommendations :=
    if existsb
         (fun i => match DataQualityIssue.type i with outlier => true | _ => false end)
         issues
    then recommendations ++ ["Review outlier records for data entry errors"]
    else recommendations in
  let recommendations :=
    if existsb
         (fun i => match DataQualityIssue.severity i with high => true | _ => false end)
         issues
    then recommendations ++ ["Address high-severity issues before proceeding with analysis"]
    else recommendations in
  if (length recommendations =? 0)%nat
  then recommendations ++ ["Data quality looks good - ready for analysis"]
  else recommendations.

Definition assessDataQuality (data : list (ProcessedSalesData.t A))
    : DataQualityReport.t A :=
  let issues := [] in
  let completeness := lit 1.0 in
  let accuracy := lit 1.0 in
  let consistency := lit 1.0 in
  let missingDescriptions :=
    length
      (List.filter (fun d => negb (strTruthy (ProcessedSalesData.itemDescription d))) data) in
  let '(issues, completeness) :=
    if (0 <? missingDescriptions)%nat then
      (issues ++
       [DataQualityIssue.mk missing_data medium
          (Z_to_string (Z.of_nat missingDescriptions) +:+ " items missing descriptions")
          missingDescriptions "Review item master data for complete descriptions"],
       (completeness
        - ofZ (Z.of_nat missingDescriptions) / ofZ (Z.of_nat (length data)) * lit 0.1)%num)
    else (issues, completeness) in
  let zeroSales :=
    length
      (List.filter
         (fun d =>
            (ProcessedSalesData.currentYearUnits d =? ofZ 0)%num
            && (ProcessedSalesData.lastYearUnits d =? ofZ 0)%num)
         data) in
  let issues :=
    if (0 <? zeroSales)%nat then
      issues ++
      [DataQualityIssue.mk missing_data low
         (Z_to_string (Z.of_nat zeroSales) +:+ " records with zero sales in both years")
         zeroSales "Consider filtering out inactive items"]
    else issues in
  let outliers :=
    length
      (List.filter
         (fun d =>
            (ProcessedSalesData.lastYearUnits d >? ofZ 0)%num
            && (ProcessedSalesData.currentYearUnits d
                  >? ProcessedSalesData.lastYearUnits d * ofZ 10)%num)
         data) in
  let '(issues, accuracy) :=
    if (0 <? outliers)%nat then
      (issues ++
       [DataQualityIssue.mk outlier medium
          (Z_to_string (Z.of_nat outliers)
             +:+ " records with unusually high sales increases")
          outliers "Review data for potential entry errors"],
       (accuracy - ofZ (Z.of_nat outliers) / ofZ (Z.of_nat (length data)) * lit 0.05)%num)
    else (issues, accuracy) in
  {| DataQualityReport.completeness := Math_max (ofZ 0) completeness;
     DataQualityReport.accuracy := Math_max (ofZ 0) accuracy;
     DataQualityReport.consistency := Math_max (ofZ 0) consistency;
     DataQualityReport.issues := issues;
     DataQualityReport.recommendations := generateRecommendations issues |}.

End WithNumber.
End CsvProcessor.

Unset Implicit Arguments.

(** * Vocabulary of the statements *)

(** The calendar of the default settings: the fiscal year starts on
    2 September. *)
Definition defaultCalendar : FiscalCalendar.t := FiscalCalendar.constructor 9 2.

(** The rule of scenario C, and the engine that holds only this rule. *)
Definition thanksgiving {A : Type} `{Number A} : Holiday.t A :=
  Holiday.mk "thanksgiving" "Thanksgiving" floating (Some 11) None
    (Some "fourth thursday"%string) 3 1 (lit 1.8) "Thanksgiving - very high sales" true.

Definition thanksgivingOnly {A : Type} `{Number A} : HolidayEngine.t A :=
  HolidayEngine.constructor [thanksgiving].

(** The fourth Thursday of November. *)
Definition thanksgivingDay (y : Z) : Date := HolidayEngine.getNthDayOfWeekInMonth y 10 4 4.

(** What [findNearbyHolidays] reports on that day: the holiday at distance
    0, its multiplier scaled by the proximity factor [max 0 (1 - 0/3)]. *)
Definition thanksgivingOnItsDay {A : Type} `{Number A} : AffectedHoliday.t A :=
  AffectedHoliday.mk thanksgiving 0
    (Holiday.salesMultiplier thanksgiving
     * Math_max (ofZ 0) (ofZ 1 - ofZ 0 / ofZ 3))%num.

(** [needle] occurs in [hay]. *)
Fixpoint mentions (needle hay : string) : bool :=
  String.prefix needle hay
  || match hay with
     | String _ rest => mentions needle rest
     | EmptyString => false
     end.

(** A positive integer, as a real number. *)
Definition positiveInteger (x : R) : Prop := exists z : Z, 0 < z /\ x = IZR z.

Definition hasItemNumber {A : Type} (itemNumber : string) (d : ProcessedSalesData.t A)
    : bool :=
  String.eqb (ProcessedSalesData.itemNumber d) itemNumber.

(** The cut-off date of [getRecentData]. *)
Definition cutoffDate (now : Date) (days : Z) : Date := setDate now (getDate now - days).

(** At both instants the three cut-off dates that the forecaster uses
    (14, 28 and 30 days back) select the same records. *)
Definition sameRecentRecords {A : Type} (now1 now2 : Date)
    (data : list (ProcessedSalesData.t A)) : bool :=
  forallb
    (fun r =>
       forallb
         (fun days =>
            Bool.eqb (cutoffDate now1 days <=? ProcessedSalesData.calendarDate r)
                     (cutoffDate now2 days <=? ProcessedSalesData.calendarDate r))
         [14; 28; 30])
    data.

(** Two plans agree in everything but the two readings of the clock kept
    in the metadata ([generatedAt], and [fiscalYearStart], which is taken
    from the year of the clock). *)
Definition sameApartFromClock {A : Type} (plan1 plan2 : ProductionPlan.t A) : Prop :=
  ProductionPlan.date plan1 = ProductionPlan.date plan2
  /\ ProductionPlan.items plan1 = ProductionPlan.items plan2
  /\ ProductionPlan.summary plan1 = ProductionPlan.summary plan2
  /\ PlanMetadata.dataSource (ProductionPlan.metadata plan1)
     = PlanMetadata.dataSource (ProductionPlan.metadata plan2)
  /\ PlanMetadata.holidaysConsidered (ProductionPlan.metadata plan1)
     = PlanMetadata.holidaysConsidered (ProductionPlan.metadata plan2)
  /\ PlanMetadata.planningHorizon (ProductionPlan.metadata plan1)
     = PlanMetadata.planningHorizon (ProductionPlan.metadata plan2)
  /\ PlanMetadata.version (ProductionPlan.metadata plan1)
     = PlanMetadata.version (ProductionPlan.metadata plan2)
  /\ PlanMetadata.settings (ProductionPlan.metadata plan1)
     = PlanMetadata.settings (ProductionPlan.metadata plan2).

(** The inputs of the two unit tests of the implementation guide
    (section 6.1): a three-day demand with confidence 0.8, and a
    configuration with productivity 5 and a shelf life of 3 days. *)
Definition testDemand (totalDemand : float) : MultiDayDemand.t float :=
  MultiDayDemand.mk totalDemand [] 3 0.8%float.

Definition testConfig (minBatchSize : Z) : ItemConfig.t float :=
  ItemConfig.mk "test" "test item" 5%float 3 minBatchSize 3 0%float true.

(** A planning run: two records of one item and a second item without
    records, planned for Monday 3 March 2025 with the default settings. *)
Definition sampleSettings : GlobalSettings.t float :=
  GlobalSettings.mk (9, 2) 5%float 3 10 3 0.1%float "USD" "America/New_York"
    "MM/dd/yyyy" light.

Definition sampleRecord (calendarDate : Date) (units : float) : ProcessedSalesData.t float :=
  ProcessedSalesData.mk "1001" "Potato salad" calendarDate
    (FiscalCalendar.convertToFiscalDate defaultCalendar calendarDate)
    units 0%float None 0%float 0%float "sales.csv".

Definition sampleData : list (ProcessedSalesData.t float) :=
  [ sampleRecord (new_Date 2025 2 4) 10%float; sampleRecord (new_Date 2025 2 20) 30%float ].

Definition coleslaw : ItemConfig.t float :=
  ItemConfig.mk "2002" "Coleslaw" 5%float 3 10 3 0.1%float true.

Definition sampleConfigs : gmap string (ItemConfig.t float) :=
  {[ "1001"%string := ItemConfig.mk "1001" "Potato salad" 5%float 3 10 3 0.1%float true;
     "2002"%string := coleslaw ]}.

Definition sampleRange : DateRange.t :=
  DateRange.mk (new_Date 2025 2 3) (new_Date 2025 2 31).

Definition sampleGenerator : PlanGenerator.t float :=
  PlanGenerator.constructor [] sampleSettings.

Definition samplePlan (now : Date) : ProductionPlan.t float :=
  PlanGenerator.generatePlan sampleGenerator now sampleData sampleRange
    ["1001"; "2002"]%string sampleConfigs sampleSettings [].

Definition noon (year month day : Z) : Date := new_Date year month day + 12 * 3600000.

(** Ascending order of an integer key. *)
Definition byKey {T : Type} (key : T -> Z) (a b : T) : Prop := key a <= key b.

(** The ordinals of the rules of floating holidays, in order. *)
Definition occurrences : list string := ["first"; "second"; "third"; "fourth"].

(** The update that switches a holiday off and leaves the rest as it is. *)
Definition deactivation {A : Type} : HolidayUpdates.t A :=
  HolidayUpdates.mk None None None None None None None None None None (Some false).

(** An affected holiday, without its impact. *)
Definition nearby {A : Type} (a : AffectedHoliday.t A) : Holiday.t A * Z :=
  (AffectedHoliday.holiday a, AffectedHoliday.distance a).

(** An item that the plan lists: it has a configuration, which is active. *)
Definition isPlanned {A : Type} (itemConfigs : gmap string (ItemConfig.t A))
    (itemNumber : string) : bool :=
  match itemConfigs !! itemNumber with
  | Some itemConfig => ItemConfig.isActive itemConfig
  | None => false
  end.

(** A record dated within a date range. *)
Definition isWithin {A : Type} (dateRange : DateRange.t) (record : ProcessedSalesData.t A)
    : bool :=
  (DateRange.start dateRange <=? ProcessedSalesData.calendarDate record)
  && (ProcessedSalesData.calendarDate record <=? DateRange.end_ dateRange).

(** Every character of a text is in a class. *)
Fixpoint allChars (p : ascii -> bool) (s : string) : bool :=
  match s with
  | EmptyString => true
  | String c s' => p c && allChars p s'
  end.

(** A text that starts with a character outside a class. *)
Definition startsOutside (p : ascii -> bool) (s : string) : bool :=
  match s with
  | EmptyString => false
  | String c _ => negb (p c)
  end.

(** Three of the default holidays: a rule on the last weekday of a month,
    and two fixed dates. *)
Definition memorialDay {A : Type} `{Number A} : Holiday.t A :=
  Holiday.mk "memorial-day" "Memorial Day" floating (Some 5) None
    (Some "last monday"%string) 1 0 (lit 1.3) "Memorial Day weekend - increased sales" true.

Definition christmas {A : Type} `{Number A} : Holiday.t A :=
  Holiday.mk "christmas" "Christmas Day" fixed (Some 12) (Some 25) None
    0 1 (lit 0.3) "Christmas Day - very low sales" true.

Definition newYearsEve {A : Type} `{Number A} : Holiday.t A :=
  Holiday.mk "new-years-eve" "New Year's Eve" fixed (Some 12) (Some 31) None
    1 0 (lit 1.6) "New Year's Eve - high party food sales" true.

(** A row of the sales file: the first day of fiscal year 2025. *)
Definition sampleRow : RawSalesData.t float :=
  RawSalesData.mk "65" 2025 120%float 100%float "6510" 12%float 10%float
    "123 POTATO SALAD" 1 1 1.

(** A record of exact units. *)
Definition exactRecord (calendarDate : Date) (units : R) : ProcessedSalesData.t R :=
  ProcessedSalesData.mk "1001" "Potato salad" calendarDate
    (FiscalCalendar.convertToFiscalDate defaultCalendar calendarDate)
    units 0%R None 0%R 0%R "sales.csv".

(** An item that is planned for the day only. *)
Definition sameDayOnly : ItemConfig.t float :=
  ItemConfig.mk "1001" "Potato salad" 5%float 3 10 0 0.1%float true.

(** Scenario A in exact arithmetic. *)
Definition exactDemand : MultiDayDemand.t R := MultiDayDemand.mk 8%R [] 3 (8 / 10)%R.

Definition exactConfig : ItemConfig.t R :=
  ItemConfig.mk "1001" "Potato salad" 5%R 3 15 3 (1 / 10)%R true.

(** An option as [createBatchOption] builds it: the size is rounded up,
    the cost is that of the size before it is rounded. *)
Definition wellFormed (o : BatchOption.t R) : Prop :=
  (exists size : R,
     BatchOption.size o = IZR (Real.ceilZ size)
     /\ BatchOption.cost o = (50 + size * 2)%R)
  /\ (0 <= BatchOption.efficiency o)%R
  /\ (0 <= BatchOption.wasteRisk o <= 1)%R.

(** * Properties *)

(** ** Numbers *)

Example float64_literal :
  (lit 1.8 : float) = 1.8%float /\ (lit 0.1 : float) = 0.1%float
  /\ (lit 5.0 : float) = 5%float.
Proof. vm_compute. repeat split. Qed.

Example float64_ceil :
  map Float64.ceil [2.5; -2.5; 7; 0.2; -0.2; 1e300]%float = [3; -2; 7; 1; -0; 1e300]%float.
Proof. vm_compute. reflexivity. Qed.

Example float64_round :
  map Float64.round [2.5; -2.5; 7.49; 0.5; -0.5; -0.2]%float = [3; -2; 7; 1; -0; -0]%float.
Proof. vm_compute. reflexivity. Qed.

Example float64_toString :
  map Float64.toString [25; -3; 0; -0; nan; infinity]%float
  = ["25"; "-3"; "0"; "0"; "NaN"; "Infinity"]%string.
Proof. vm_compute. reflexivity. Qed.

Example float64_max_min :
  map (fun '(x, y) => (Float64.max x y, Float64.min x y))
    [(1, 2); (2, 1); (0, -0); (-0, 0); (nan, 1)]%float
  = [(2, 1); (2, 1); (0, -0); (0, -0); (nan, nan)]%float.
Proof. vm_compute. reflexivity. Qed.

Lemma Real_ltb_spec (x y : R) : reflect (x < y)%R (Real.ltb x y).
Proof. unfold Real.ltb. destruct (Rlt_dec x y); now constructor. Qed.

Lemma Real_leb_spec (x y : R) : reflect (x <= y)%R (Real.leb x y).
Proof. unfold Real.leb. destruct (Rle_dec x y); now constructor. Qed.

Lemma Real_eqb_spec (x y : R) : reflect (x = y) (Real.eqb x y).
Proof. unfold Real.eqb. destruct (Req_dec_T x y); now constructor. Qed.

Lemma orElse_real_zero (x : R) : orElse x (ofZ 0) = x.
Proof.
  unfold orElse, truthy. cbn. destruct (Real_eqb_spec x 0); cbn; congruence.
Qed.

Lemma ceilZ_bounds (x : R) : (x <= IZR (Real.ceilZ x) < x + 1)%R.
Proof.
  unfold Real.ceilZ. rewrite opp_IZR.
  destruct (base_Int_part (- x)) as [Hle Hgt]. lra.
Qed.

Lemma ceilZ_pos (x : R) : (0 < x)%R -> 0 < Real.ceilZ x.
Proof.
  intros Hx. apply lt_IZR. destruct (ceilZ_bounds x). lra.
Qed.

Lemma ceilZ_IZR (z : Z) : Real.ceilZ (IZR z) = z.
Proof.
  destruct (ceilZ_bounds (IZR z)) as [Hle Hlt].
  apply le_IZR in Hle. rewrite <- plus_IZR in Hlt. apply lt_IZR in Hlt. lia.
Qed.

Lemma float_ltb_leb (x y : float) : PrimFloat.ltb x y = true -> PrimFloat.leb x y = true.
Proof.
  rewrite ltb_spec, leb_spec. unfold SFltb, SFleb.
  destruct (SFcompare (Prim2SF x) (Prim2SF y)) as [[]|]; congruence.
Qed.

(** On binary64 the clamp to [0.1, 5.0] lets nothing but NaN through. *)
Lemma float_clamp (x : float) :
  let r := Float64.max (lit 0.1) (Float64.min (lit 5.0) x) in
  PrimFloat.is_nan r = true
  \/ (PrimFloat.leb (lit 0.1) r = true /\ PrimFloat.leb r (lit 5.0) = true).
Proof.
  change (lit 0.1 : float) with 0.1%float. change (lit 5.0 : float) with 5%float.
  unfold Float64.min.
  change (PrimFloat.is_nan 5) with false. cbn [orb].
  destruct (PrimFloat.is_nan x) eqn:Hnan; [left; reflexivity|].
  assert (Hcases : forall m, (m = x /\ PrimFloat.ltb x 5 = true) \/ m = 5%float ->
            let r := Float64.max 0.1 m in
            PrimFloat.is_nan r = true
            \/ (PrimFloat.leb 0.1 r = true /\ PrimFloat.leb r 5 = true)).
  { intros m [[-> H5] | ->]; [|right; split; reflexivity].
    unfold Float64.max. change (PrimFloat.is_nan 0.1) with false. rewrite Hnan. cbn [orb].
    destruct (PrimFloat.ltb 0.1 x) eqn:H01.
    - right. split; now apply float_ltb_leb.
    - change (PrimFloat.eqb 0.1 0) with false. cbv iota.
      destruct (PrimFloat.ltb x 0.1); right; split; reflexivity. }
  apply Hcases.
  destruct (PrimFloat.ltb x 5) eqn:H5; [left; split; reflexivity|].
  right. destruct (PrimFloat.ltb 5 x); [reflexivity|].
  change (PrimFloat.eqb 5 0) with false. reflexivity.
Qed.

(** ** The calendar *)

Lemma isLeapYear_spec y :
  isLeapYear y = true <-> ((y mod 4 = 0 /\ y mod 100 <> 0) \/ y mod 400 = 0).
Proof.
  unfold isLeapYear.
  rewrite orb_true_iff, andb_true_iff, negb_true_iff, !Z.eqb_eq, Z.eqb_neq. tauto.
Qed.

Lemma DayFromYear_step y :
  DayFromYear (y + 1) = DayFromYear y + (if isLeapYear y then 366 else 365).
Proof.
  destruct (isLeapYear y) eqn:E.
  - apply isLeapYear_spec in E. unfold DayFromYear. Z.div_mod_to_equations; lia.
  - assert (~ ((y mod 4 = 0 /\ y mod 100 <> 0) \/ y mod 400 = 0)).
    { rewrite <- isLeapYear_spec. congruence. }
    unfold DayFromYear. Z.div_mod_to_equations; lia.
Qed.

Lemma DayFromYear_mono y y' :
  y <= y' -> DayFromYear y + 365 * (y' - y) <= DayFromYear y'.
Proof. unfold DayFromYear. Z.div_mod_to_equations; lia. Qed.

Lemma YearFromDay_spec d :
  DayFromYear (YearFromDay d) <= d < DayFromYear (YearFromDay d + 1).
Proof.
  unfold YearFromDay.
  destruct (Z.ltb_spec d (DayFromYear (1970 + 400 * d / 146097))).
  - replace (1970 + 400 * d / 146097 - 1 + 1) with (1970 + 400 * d / 146097) by lia.
    split; [|lia]. unfold DayFromYear in *. Z.div_mod_to_equations; lia.
  - destruct (Z.leb_spec (DayFromYear (1970 + 400 * d / 146097 + 1)) d).
    + split; [lia|]. unfold DayFromYear in *. Z.div_mod_to_equations; lia.
    + lia.
Qed.

Lemma YearFromDay_unique y d :
  DayFromYear y <= d < DayFromYear (y + 1) -> YearFromDay d = y.
Proof.
  intros Hd. pose proof (YearFromDay_spec d) as Hs.
  destruct (Z.lt_trichotomy (YearFromDay d) y) as [Hlt | [Heq | Hgt]]; [|exact Heq|].
  - pose proof (DayFromYear_mono (YearFromDay d + 1) y). lia.
  - pose proof (DayFromYear_mono (y + 1) (YearFromDay d)). lia.
Qed.

Lemma Day_MakeDate day time :
  0 <= time < msPerDay -> Day (MakeDate day time) = day.
Proof. unfold Day, MakeDate, msPerDay. intros. Z.div_mod_to_equations; lia. Qed.

Lemma TimeWithinDay_MakeDate day time :
  0 <= time < msPerDay -> TimeWithinDay (MakeDate day time) = time.
Proof. unfold TimeWithinDay, MakeDate, msPerDay. intros. Z.div_mod_to_equations; lia. Qed.

Lemma MakeDay_month y m d :
  0 <= m <= 11 -> MakeDay y m d = DayFromYear y + monthStart (isLeapYear y) m + d - 1.
Proof.
  intros Hm. unfold MakeDay.
  rewrite (Z.div_small m 12), (Z.mod_small m 12) by lia.
  now rewrite Z.add_0_r.
Qed.

Lemma monthStart_bounds l m :
  0 <= m <= 11 -> 0 <= monthStart l m /\ monthStart l (m + 1) <= monthStart l 12.
Proof.
  intros Hm.
  assert (m = 0 \/ m = 1 \/ m = 2 \/ m = 3 \/ m = 4 \/ m = 5 \/ m = 6 \/ m = 7
          \/ m = 8 \/ m = 9 \/ m = 10 \/ m = 11) as Hc by lia.
  destruct l; repeat (destruct Hc as [-> | Hc]; [simpl; lia|]); subst; simpl; lia.
Qed.

Lemma monthOfYearDay_monthStart l m d :
  0 <= m <= 11 -> 1 <= d -> monthStart l m + d <= monthStart l (m + 1) ->
  monthOfYearDay l (monthStart l m + d - 1) = m.
Proof.
  intros Hm Hd.
  assert (m = 0 \/ m = 1 \/ m = 2 \/ m = 3 \/ m = 4 \/ m = 5 \/ m = 6 \/ m = 7
          \/ m = 8 \/ m = 9 \/ m = 10 \/ m = 11) as Hc by lia.
  unfold monthOfYearDay.
  destruct l; repeat (destruct Hc as [-> | Hc]; [simpl; intros;
    repeat (match goal with |- context [Z.ltb ?a ?b] => destruct (Z.ltb_spec a b); try lia end)|]);
  subst; simpl; intros;
    repeat (match goal with |- context [Z.ltb ?a ?b] => destruct (Z.ltb_spec a b); try lia end).
Qed.

(** A date built from a year, a month and a day of that month reads back
    as the same year, month and day. *)
Lemma civil_of_MakeDate y m d time :
  0 <= m <= 11 -> 1 <= d ->
  monthStart (isLeapYear y) m + d <= monthStart (isLeapYear y) (m + 1) ->
  0 <= time < msPerDay ->
  let t := MakeDate (MakeDay y m d) time in
  YearFromTime t = y /\ MonthFromTime t = m /\ DateFromTime t = d.
Proof.
  intros Hm Hd Hlen Htime t.
  assert (Hday : Day t = DayFromYear y + monthStart (isLeapYear y) m + d - 1).
  { unfold t. rewrite Day_MakeDate by assumption. now apply MakeDay_month. }
  pose proof (monthStart_bounds (isLeapYear y) m Hm) as [Hlo Hhi].
  assert (Hyear : YearFromTime t = y).
  { unfold YearFromTime. apply YearFromDay_unique. rewrite Hday, DayFromYear_step.
    destruct (isLeapYear y); simpl in *; lia. }
  assert (Hwithin : DayWithinYear t = monthStart (isLeapYear y) m + d - 1).
  { unfold DayWithinYear. rewrite Hyear, Hday. lia. }
  assert (Hmonth : MonthFromTime t = m).
  { unfold MonthFromTime, InLeapYear. rewrite Hyear, Hwithin.
    now apply monthOfYearDay_monthStart. }
  repeat split; [exact Hyear | exact Hmonth |].
  unfold DateFromTime, InLeapYear. rewrite Hmonth, Hyear, Hwithin. lia.
Qed.

(** ** Fiscal calendar *)

Lemma monthStart_28 l m :
  0 <= m <= 11 -> monthStart l m + 28 <= monthStart l (m + 1).
Proof.
  intros Hm.
  assert (m = 0 \/ m = 1 \/ m = 2 \/ m = 3 \/ m = 4 \/ m = 5 \/ m = 6 \/ m = 7
          \/ m = 8 \/ m = 9 \/ m = 10 \/ m = 11) as Hc by lia.
  destruct l; repeat (destruct Hc as [-> | Hc]; [simpl; lia|]); subst; simpl; lia.
Qed.

Section Anchor.
(** The start of the fiscal year: a month and a day that every month has. *)
Variables (month day : Z).
Hypothesis Hmonth : 1 <= month <= 12.
Hypothesis Hday : 1 <= day <= 28.

(** The day number of the start date in year [y]. *)
Let anchor (y : Z) : Z := MakeDay y (month - 1) day.

Let calendar : FiscalCalendar.t := FiscalCalendar.constructor month day.

Lemma anchor_eq y :
  anchor y = DayFromYear y + monthStart (isLeapYear y) (month - 1) + day - 1.
Proof. unfold anchor. now rewrite MakeDay_month by lia. Qed.

Lemma anchor_bounds y : DayFromYear y <= anchor y < DayFromYear (y + 1).
Proof.
  rewrite anchor_eq, DayFromYear_step.
  pose proof (monthStart_bounds (isLeapYear y) (month - 1) ltac:(lia)) as [Hlo Hhi].
  pose proof (monthStart_28 (isLeapYear y) (month - 1) ltac:(lia)) as H28.
  destruct (isLeapYear y); simpl in *; lia.
Qed.

Lemma anchor_step y : 365 <= anchor (y + 1) - anchor y <= 366.
Proof.
  rewrite !anchor_eq, DayFromYear_step.
  assert (Hm : forall l l', -1 <= monthStart l (month - 1) - monthStart l' (month - 1) <= 1
                            /\ (monthStart l (month - 1) = monthStart l' (month - 1)
                                \/ 59 <= monthStart l' (month - 1))).
  { intros l l'.
    assert (month - 1 = 0 \/ month - 1 = 1 \/ month - 1 = 2 \/ month - 1 = 3
            \/ month - 1 = 4 \/ month - 1 = 5 \/ month - 1 = 6 \/ month - 1 = 7
            \/ month - 1 = 8 \/ month - 1 = 9 \/ month - 1 = 10 \/ month - 1 = 11)
      as Hc by lia.
    destruct l, l'; repeat (destruct Hc as [-> | Hc]; [simpl; lia|]); rewrite Hc; simpl; lia. }
  assert (Hleap : isLeapYear y = true -> isLeapYear (y + 1) = false).
  { rewrite isLeapYear_spec. intros Hy. destruct (isLeapYear (y + 1)) eqn:E; [|reflexivity].
    apply isLeapYear_spec in E. exfalso. Z.div_mod_to_equations; lia. }
  assert (Hc : month - 1 = 0 \/ month - 1 = 1 \/ 2 <= month - 1 <= 11) by lia.
  destruct (isLeapYear y) eqn:E1.
  - rewrite (Hleap eq_refl).
    destruct Hc as [-> | [-> | Hc]]; simpl; try lia.
    assert (month - 1 = 2 \/ month - 1 = 3
            \/ month - 1 = 4 \/ month - 1 = 5 \/ month - 1 = 6 \/ month - 1 = 7
            \/ month - 1 = 8 \/ month - 1 = 9 \/ month - 1 = 10 \/ month - 1 = 11)
      as Hc' by lia.
    repeat (destruct Hc' as [-> | Hc']; [simpl; lia|]); rewrite Hc'; simpl; lia.
  - destruct (isLeapYear (y + 1)).
    + destruct Hc as [-> | [-> | Hc]]; simpl; try lia.
      assert (month - 1 = 2 \/ month - 1 = 3
              \/ month - 1 = 4 \/ month - 1 = 5 \/ month - 1 = 6 \/ month - 1 = 7
              \/ month - 1 = 8 \/ month - 1 = 9 \/ month - 1 = 10 \/ month - 1 = 11)
        as Hc' by lia.
      repeat (destruct Hc' as [-> | Hc']; [simpl; lia|]); rewrite Hc'; simpl; lia.
    + lia.
Qed.

Lemma civil_of_anchor y :
  let t := MakeDate (anchor y) 0 in
  YearFromTime t = y /\ MonthFromTime t = month - 1 /\ DateFromTime t = day
  /\ TimeWithinDay t = 0.
Proof.
  intros t.
  destruct (civil_of_MakeDate y (month - 1) day 0) as (Hy & Hm & Hd).
  - lia.
  - lia.
  - pose proof (monthStart_28 (isLeapYear y) (month - 1) ltac:(lia)).
    replace (month - 1 + 1) with month in * by lia. lia.
  - unfold msPerDay; lia.
  - repeat split; try assumption.
    unfold t. apply TimeWithinDay_MakeDate. unfold msPerDay; lia.
Qed.

Lemma setFullYear_anchor y y' :
  setFullYear (MakeDate (anchor y) 0) y' = MakeDate (anchor y') 0.
Proof.
  destruct (civil_of_anchor y) as (_ & Hm & Hd & Ht).
  unfold setFullYear. now rewrite Hm, Hd, Ht.
Qed.

Lemma calendar_anchor : FiscalCalendar.fiscalYearStart calendar = MakeDate (anchor 2024) 0.
Proof. reflexivity. Qed.

Lemma convertToCalendarDate_anchor fy p w d :
  FiscalCalendar.convertToCalendarDate calendar fy p w d
  = MakeDate (anchor (fy - 1) + ((p - 1) * 28 + (w - 1) * 7 + (d - 1))) 0.
Proof.
  unfold FiscalCalendar.convertToCalendarDate.
  rewrite calendar_anchor, setFullYear_anchor.
  set (off := (p - 1) * 28 + (w - 1) * 7 + (d - 1)).
  destruct (civil_of_anchor (fy - 1)) as (Hy & Hm & Hd & Ht).
  assert (Hadd : addDays (MakeDate (anchor (fy - 1)) 0) off
                 = MakeDate (anchor (fy - 1) + off) 0).
  { unfold addDays. destruct (Z.eqb_spec off 0) as [-> | _].
    - now rewrite Z.add_0_r.
    - unfold setDate, getDate. rewrite Hy, Hm, Hd, Ht. f_equal.
      unfold anchor. rewrite !MakeDay_month by lia. lia. }
  rewrite Hadd. unfold startOfDay.
  rewrite TimeWithinDay_MakeDate by (unfold msPerDay; lia). lia.
Qed.

Lemma convertToFiscalDate_anchor fy off :
  0 <= off < 364 ->
  FiscalCalendar.convertToFiscalDate calendar (MakeDate (anchor (fy - 1) + off) 0)
  = {| fiscalYear := fy + 1;
       fiscalPeriod := Z.max 1 (Z.min 13 (off / 28 + 1));
       fiscalWeek := Z.max 1 (Z.min 4 (Z.rem off 28 / 7 + 1));
       fiscalDay := Z.max 1 (Z.min 7 (Z.rem (Z.rem off 28) 7 + 1)) |}.
Proof.
  intros Hoff. unfold FiscalCalendar.convertToFiscalDate.
  set (D := anchor (fy - 1) + off).
  assert (Hstart : startOfDay (MakeDate D 0) = MakeDate D 0).
  { unfold startOfDay. rewrite TimeWithinDay_MakeDate by (unfold msPerDay; lia). lia. }
  rewrite Hstart, calendar_anchor.
  pose proof (anchor_bounds (fy - 2)) as Hb2. replace (fy - 2 + 1) with (fy - 1) in Hb2 by lia.
  pose proof (anchor_bounds (fy - 1)) as Hb1. replace (fy - 1 + 1) with fy in Hb1 by lia.
  pose proof (anchor_bounds fy) as Hb.
  pose proof (anchor_step (fy - 1)) as Hstep. replace (fy - 1 + 1) with fy in Hstep by lia.
  assert (Hdiff : forall a b, (getTime (MakeDate a 0) - getTime (MakeDate b 0))
                              / (1000 * 60 * 60 * 24) = a - b).
  { intros a b. unfold getTime, MakeDate, msPerDay. Z.div_mod_to_equations; lia. }
  assert (Hcmp : forall a b, (MakeDate a 0 <=? MakeDate b 0) = (a <=? b)).
  { intros a b. unfold MakeDate, msPerDay.
    destruct (Z.leb_spec a b), (Z.leb_spec (a * 86400000 + 0) (b * 86400000 + 0)); lia. }
  assert (Hcmp' : forall a b, (MakeDate a 0 <? MakeDate b 0) = (a <? b)).
  { intros a b. unfold MakeDate, msPerDay.
    destruct (Z.ltb_spec a b), (Z.ltb_spec (a * 86400000 + 0) (b * 86400000 + 0)); lia. }
  assert (Hyear : getFullYear (MakeDate D 0) = fy - 1 \/ getFullYear (MakeDate D 0) = fy).
  { unfold getFullYear, YearFromTime. rewrite Day_MakeDate by (unfold msPerDay; lia).
    destruct (Z.lt_ge_cases D (DayFromYear fy)).
    - left. apply YearFromDay_unique. replace (fy - 1 + 1) with fy by lia. unfold D in *. lia.
    - right. apply YearFromDay_unique. unfold D in *. lia. }
  destruct Hyear as [-> | ->].
  - rewrite !setFullYear_anchor, Hcmp', Hcmp.
    replace (fy - 1 - 1) with (fy - 2) by lia.
    destruct (Z.ltb_spec D (anchor (fy - 2))) as [Hbad | _]; [unfold D in Hbad; lia|].
    destruct (Z.leb_spec (anchor (fy - 1)) D) as [_ | Hbad]; [|unfold D in Hbad; lia].
    rewrite Hdiff. unfold D. replace (anchor (fy - 1) + off - anchor (fy - 1)) with off by lia.
    f_equal. lia.
  - rewrite !setFullYear_anchor, Hcmp', Hcmp.
    destruct (Z.ltb_spec D (anchor (fy - 1))) as [Hbad | _]; [unfold D in Hbad; lia|].
    destruct (Z.leb_spec (anchor fy) D) as [Hbad | _]; [unfold D in Hbad; lia|].
    rewrite Hdiff. unfold D. replace (anchor (fy - 1) + off - anchor (fy - 1)) with off by lia.
    reflexivity.
Qed.

(** C1 (what the code does): whatever the start of the fiscal year,
    converting a fiscal coordinate within the valid ranges to a calendar
    date and back returns the same period, week and day, but the fiscal
    year plus one. *)
Theorem fiscal_round_trip_adds_a_year fy p w d :
  1 <= p <= 13 -> 1 <= w <= 4 -> 1 <= d <= 7 ->
  FiscalCalendar.convertToFiscalDate calendar
    (FiscalCalendar.convertToCalendarDate calendar fy p w d)
  = {| fiscalYear := fy + 1; fiscalPeriod := p; fiscalWeek := w; fiscalDay := d |}.
Proof.
  intros Hp Hw Hd.
  rewrite convertToCalendarDate_anchor, convertToFiscalDate_anchor by lia.
  set (off := (p - 1) * 28 + (w - 1) * 7 + (d - 1)).
  assert (H1 : off / 28 = p - 1) by (unfold off; Z.div_mod_to_equations; lia).
  assert (H2 : Z.rem off 28 = (w - 1) * 7 + (d - 1)).
  { rewrite Z.rem_mod_nonneg by (unfold off; lia). unfold off. Z.div_mod_to_equations; lia. }
  assert (H3 : ((w - 1) * 7 + (d - 1)) / 7 = w - 1) by (Z.div_mod_to_equations; lia).
  assert (H4 : Z.rem ((w - 1) * 7 + (d - 1)) 7 = d - 1).
  { rewrite Z.rem_mod_nonneg by lia. Z.div_mod_to_equations; lia. }
  rewrite H1, H2, H3, H4. f_equal; lia.
Qed.

End Anchor.

Lemma fiscal_round_trip_adds_a_year_witness :
  FiscalCalendar.convertToFiscalDate defaultCalendar
    (FiscalCalendar.convertToCalendarDate defaultCalendar 2025 1 1 1)
  = {| fiscalYear := 2026; fiscalPeriod := 1; fiscalWeek := 1; fiscalDay := 1 |}.
Proof. apply (fiscal_round_trip_adds_a_year 9 2 ltac:(lia) ltac:(lia) 2025 1 1 1); lia. Defined.

(** A consequence: the "corresponding date last year" of a date is the
    date itself. *)
Example last_year_is_this_year :
  FiscalCalendar.getCorrespondingDateLastYear defaultCalendar (new_Date 2025 2 3)
  = new_Date 2025 2 3.
Proof. reflexivity. Qed.

(** ** Holiday engine *)

Section HolidayEngineFacts.
Context {A : Type} `{Number A}.

Lemma getHolidaysForYear_inactive (e : HolidayEngine.t A) (year : Z) :
  forallb (fun h => negb (Holiday.isActive h)) (HolidayEngine.holidays e) = true ->
  HolidayEngine.getHolidaysForYear e year = [].
Proof.
  unfold HolidayEngine.getHolidaysForYear. intros Hall.
  induction (HolidayEngine.holidays e) as [|h hs IH]; [reflexivity|].
  simpl in Hall. apply andb_true_iff in Hall as [Hh Hhs].
  simpl. destruct (Holiday.isActive h); [discriminate|]. now apply IH.
Qed.

(** C2 (as amended): an engine that holds no active rule, in particular
    one whose rule list is empty, reports a factor of 1.0 and no holiday
    impact for every date. *)
Theorem no_active_rule_is_neutral (e : HolidayEngine.t A) (date : Date) (year : option Z) :
  forallb (fun h => negb (Holiday.isActive h)) (HolidayEngine.holidays e) = true ->
  HolidayEngine.getHolidayImpactFactor e date year
  = {| HolidayImpact.factor := lit 1.0;
       HolidayImpact.affectedHolidays := [];
       HolidayImpact.explanation := "No holiday impact" |}.
Proof.
  intros Hall. unfold HolidayEngine.getHolidayImpactFactor.
  rewrite getHolidaysForYear_inactive by assumption. reflexivity.
Qed.

End HolidayEngineFacts.

(** The rule list is empty again once its only rule is removed. *)
Lemma no_active_rule_is_neutral_witness :
  HolidayEngine.holidays
    (HolidayEngine.removeHoliday (thanksgivingOnly (A:=float)) "thanksgiving") = []
  /\ HolidayEngine.getHolidayImpactFactor
       (HolidayEngine.removeHoliday (thanksgivingOnly (A:=float)) "thanksgiving")
       (new_Date 2025 0 1) None
     = {| HolidayImpact.factor := 1%float;
          HolidayImpact.affectedHolidays := [];
          HolidayImpact.explanation := "No holiday impact" |}.
Proof.
  split; [reflexivity|].
  exact (no_active_rule_is_neutral
           (HolidayEngine.removeHoliday (thanksgivingOnly (A:=float)) "thanksgiving")
           (new_Date 2025 0 1) None eq_refl).
Defined.

(** C2 (as stated) fails: constructed from an empty list the engine holds
    the 13 default holidays, and on 1 January 2025 it reports New Year's
    Day. *)
Lemma empty_rule_set_counterexample :
  let e := HolidayEngine.constructor (A:=float) [] in
  let r := HolidayEngine.getHolidayImpactFactor e (new_Date 2025 0 1) None in
  length (HolidayEngine.holidays e) = 13%nat
  /\ HolidayImpact.factor r = 0.83568323274845002%float
  /\ (HolidayImpact.factor r =? lit 1.0)%num = false
  /\ HolidayImpact.explanation r = "New Year's Day (decreased sales)"%string.
Proof. vm_compute. repeat split. Qed.

Lemma thanksgivingDay_year y : 100 <= y -> getFullYear (thanksgivingDay y) = y.
Proof.
  intros Hy. unfold thanksgivingDay, HolidayEngine.getNthDayOfWeekInMonth.
  set (firstDay := new_Date y 10 1).
  assert (HfirstDay : firstDay = MakeDate (MakeDay y 10 1) 0).
  { unfold firstDay, new_Date.
    destruct (Z.leb_spec 0 y), (Z.leb_spec y 99); simpl; try reflexivity; lia. }
  destruct (civil_of_MakeDate y 10 1 0) as (Hyear & Hmonth & Hdate);
    [lia | lia | destruct (isLeapYear y); simpl; lia | unfold msPerDay; lia |].
  rewrite <- HfirstDay in Hyear, Hmonth, Hdate.
  set (k := Z.rem (4 - getDay firstDay + 7) 7 + (4 - 1) * 7).
  assert (Hk : 21 <= k <= 27).
  { unfold k, getDay, WeekDay.
    pose proof (Z.mod_pos_bound (Day firstDay + 4) 7 ltac:(lia)).
    rewrite Z.rem_mod_nonneg by lia.
    pose proof (Z.mod_pos_bound (4 - (Day firstDay + 4) mod 7 + 7) 7 ltac:(lia)). lia. }
  unfold addDays. destruct (Z.eqb_spec k 0); [lia|].
  unfold setDate, getDate. rewrite Hyear, Hmonth, Hdate.
  assert (Htime : TimeWithinDay firstDay = 0).
  { rewrite HfirstDay. apply TimeWithinDay_MakeDate. unfold msPerDay; lia. }
  rewrite Htime.
  destruct (civil_of_MakeDate y 10 (1 + k) 0) as (Hyear' & _);
    [lia | lia | destruct (isLeapYear y); simpl; lia | unfold msPerDay; lia |].
  exact Hyear'.
Qed.

(** On the fourth Thursday of November the engine finds Thanksgiving, at
    distance 0. *)
Lemma thanksgiving_affected {A : Type} `{Number A} (y : Z) :
  100 <= y ->
  HolidayImpact.affectedHolidays
    (HolidayEngine.getHolidayImpactFactor (thanksgivingOnly (A:=A)) (thanksgivingDay y) None)
  = [thanksgivingOnItsDay].
Proof.
  intros Hy. unfold HolidayEngine.getHolidayImpactFactor.
  cbn [HolidayImpact.affectedHolidays].
  rewrite (thanksgivingDay_year y Hy).
  change (HolidayEngine.getHolidaysForYear thanksgivingOnly y)
    with [HolidayInstance.mk (thanksgiving (A:=A)) (thanksgivingDay y) y].
  generalize (thanksgivingDay y). intros date.
  unfold HolidayEngine.findNearbyHolidays.
  cbn [flat_map HolidayInstance.date HolidayInstance.holiday].
  unfold getTime. rewrite Z.sub_diag. reflexivity.
Qed.

(** C3 (as amended): with Thanksgiving as the only rule, the engine finds
    the holiday at distance 0 with impact 1.8 on the fourth Thursday of
    November, and the factor is the blend 1 + 0.8 * 0.8 / sqrt 0.8 of that
    single impact: 1.7155417527999328 in binary64. *)
Theorem thanksgiving_factor_is_blended (y : Z) :
  100 <= y ->
  let r := HolidayEngine.getHolidayImpactFactor (thanksgivingOnly (A:=float))
             (thanksgivingDay y) None in
  map (fun a => (AffectedHoliday.distance a, AffectedHoliday.impact a))
    (HolidayImpact.affectedHolidays r) = [(0, 1.8%float)]
  /\ HolidayImpact.factor r = 1.7155417527999328%float
  /\ HolidayImpact.factor r
     = (1 + 0.8 * 0.8 / PrimFloat.sqrt 0.8)%float
  /\ HolidayImpact.explanation r = "Thanksgiving (increased sales)"%string.
Proof.
  intros Hy r.
  pose proof (thanksgiving_affected (A:=float) y Hy) as Haffected.
  unfold HolidayEngine.getHolidayImpactFactor in Haffected.
  cbn [HolidayImpact.affectedHolidays] in Haffected.
  unfold r, HolidayEngine.getHolidayImpactFactor. rewrite Haffected.
  vm_compute. repeat split.
Qed.

Lemma thanksgiving_factor_is_blended_witness :
  let r := HolidayEngine.getHolidayImpactFactor (thanksgivingOnly (A:=float))
             (thanksgivingDay 2025) None in
  map (fun a => (AffectedHoliday.distance a, AffectedHoliday.impact a))
    (HolidayImpact.affectedHolidays r) = [(0, 1.8%float)]
  /\ HolidayImpact.factor r = 1.7155417527999328%float
  /\ HolidayImpact.factor r
     = (1 + 0.8 * 0.8 / PrimFloat.sqrt 0.8)%float
  /\ HolidayImpact.explanation r = "Thanksgiving (increased sales)"%string.
Proof. apply (thanksgiving_factor_is_blended 2025). lia. Defined.

(** C3 (as stated) fails: on Thanksgiving 2024 (28 November) the factor
    is not 1.8. *)
Lemma thanksgiving_factor_counterexample :
  let r := HolidayEngine.getHolidayImpactFactor (thanksgivingOnly (A:=float))
             (thanksgivingDay 2024) None in
  thanksgivingDay 2024 = new_Date 2024 10 28
  /\ map (fun a => (AffectedHoliday.distance a, AffectedHoliday.impact a))
       (HolidayImpact.affectedHolidays r) = [(0, 1.8%float)]
  /\ HolidayImpact.factor r = 1.7155417527999328%float
  /\ (HolidayImpact.factor r =? lit 1.8)%num = false.
Proof. vm_compute. repeat split. Qed.

(** The same in exact arithmetic: the factor is 1 + 0.8 * 0.8 / sqrt 0.8,
    which lies strictly between 1.7 and 1.8. *)
Lemma sqrt_08_bounds : (8 / 10 < R_sqrt.sqrt (8 / 10) < 9 / 10)%R.
Proof.
  assert (Hpos : (0 <= 8 / 10)%R) by lra.
  pose proof (sqrt_sqrt (8 / 10) Hpos) as Hsq.
  pose proof (sqrt_pos (8 / 10)) as Hs.
  split.
  - destruct (Rlt_le_dec (8 / 10) (R_sqrt.sqrt (8 / 10))) as [|Hle]; [assumption|].
    exfalso. assert (R_sqrt.sqrt (8 / 10) * R_sqrt.sqrt (8 / 10) <= 8 / 10 * (8 / 10))%R.
    { apply Rmult_le_compat; lra. }
    lra.
  - destruct (Rlt_le_dec (R_sqrt.sqrt (8 / 10)) (9 / 10)) as [|Hge]; [assumption|].
    exfalso.
    assert (9 / 10 * (9 / 10) <= R_sqrt.sqrt (8 / 10) * R_sqrt.sqrt (8 / 10))%R.
    { apply Rmult_le_compat; lra. }
    lra.
Qed.

Lemma thanksgiving_factor_exact (y : Z) :
  100 <= y ->
  let factor :=
    HolidayImpact.factor
      (HolidayEngine.getHolidayImpactFactor (thanksgivingOnly (A:=R))
         (thanksgivingDay y) None) in
  factor = (1 + (8 / 10) * (8 / 10) / R_sqrt.sqrt (8 / 10))%R
  /\ (17 / 10 < factor < 18 / 10)%R.
Proof.
  intros Hy factor.
  assert (Hfactor : factor = HolidayEngine.calculateCombinedImpact [thanksgivingOnItsDay]).
  { pose proof (thanksgiving_affected (A:=R) y Hy) as Haffected.
    unfold HolidayEngine.getHolidayImpactFactor in Haffected.
    cbn [HolidayImpact.affectedHolidays] in Haffected.
    unfold factor, HolidayEngine.getHolidayImpactFactor. cbn [HolidayImpact.factor].
    now rewrite Haffected. }
  rewrite Hfactor. clear factor Hfactor.
  pose proof sqrt_08_bounds as [Hlo Hhi].
  assert (Hinv : (10 / 9 < / R_sqrt.sqrt (8 / 10) < 10 / 8)%R).
  { split.
    - replace (10 / 9)%R with (/ (9 / 10))%R by lra. apply Rinv_lt_contravar; [|lra].
      apply Rmult_lt_0_compat; lra.
    - replace (10 / 8)%R with (/ (8 / 10))%R by lra. apply Rinv_lt_contravar; [|lra].
      apply Rmult_lt_0_compat; lra. }
  assert (Hval : (17 / 10 < 1 + 8 / 10 * (8 / 10) / R_sqrt.sqrt (8 / 10) < 18 / 10)%R).
  { set (i := (/ R_sqrt.sqrt (8 / 10))%R) in *.
    replace (8 / 10 * (8 / 10) / R_sqrt.sqrt (8 / 10))%R with (64 / 100 * i)%R
      by (unfold i; field; lra).
    lra. }
  unfold thanksgivingOnItsDay.
  cbn -[R_sqrt.sqrt Rmax Rmin Rabs]. unfold lit. cbn -[R_sqrt.sqrt Rmax Rmin Rabs].
  replace (18 / 10 * Rmax 0 (1 - 0 / 3))%R with (18 / 10)%R
    by (rewrite Rmax_right; lra).
  replace (Rabs (18 / 10 - 10 / 10)) with (8 / 10)%R by (rewrite Rabs_right; lra).
  replace (0 + 8 / 10)%R with (8 / 10)%R by lra.
  destruct (Real_ltb_spec 0 (8 / 10)) as [_ | Hbad]; [|lra].
  replace (10 / 10 + (10 / 10 + (18 / 10 - 10 / 10) * (8 / 10) - 10 / 10)
           / R_sqrt.sqrt (8 / 10))%R
    with (1 + 8 / 10 * (8 / 10) / R_sqrt.sqrt (8 / 10))%R by (unfold Rdiv; lra).
  rewrite Rmin_right by lra. rewrite Rmax_right by lra.
  split; [reflexivity | exact Hval].
Qed.

(** C4 fails on the code: Martin Luther King Jr. Day is a default holiday
    whose windows before and after are both 0, and on that day (20 January
    2025) the proximity factor is 0/0: the factor is NaN, which the clamp
    lets through and which lies in no interval. *)
Theorem zero_window_holiday_factor_is_NaN :
  let r := HolidayEngine.getHolidayImpactFactor
             (HolidayEngine.constructor (A:=float) []) (new_Date 2025 0 20) None in
  map (fun a => (Holiday.name (AffectedHoliday.holiday a),
                 Holiday.daysBefore (AffectedHoliday.holiday a),
                 Holiday.daysAfter (AffectedHoliday.holiday a),
                 AffectedHoliday.distance a))
    (HolidayImpact.affectedHolidays r)
  = [("Martin Luther King Jr. Day"%string, 0, 0, 0)]
  /\ isNaN (HolidayImpact.factor r) = true
  /\ (lit 0.1 <=? HolidayImpact.factor r)%num = false
  /\ (HolidayImpact.factor r <=? lit 5.0)%num = false.
Proof. vm_compute. repeat split. Qed.

(** NaN is the only way out of the interval: on binary64, for every rule
    set and date, the factor is NaN or lies in [0.1, 5.0]. *)
Lemma holiday_factor_in_bounds_or_NaN
    (e : HolidayEngine.t float) (date : Date) (year : option Z) :
  let f := HolidayImpact.factor (HolidayEngine.getHolidayImpactFactor e date year) in
  isNaN f = true \/ ((lit 0.1 <=? f)%num = true /\ (f <=? lit 5.0)%num = true).
Proof.
  unfold HolidayEngine.getHolidayImpactFactor. cbn [HolidayImpact.factor].
  unfold HolidayEngine.calculateCombinedImpact.
  destruct (length _ =? 0)%nat; [right; split; reflexivity|].
  destruct (fold_left _ _ _) as [combinedFactor totalWeight].
  apply float_clamp.
Qed.

(** ** Batch optimizer, in exact arithmetic *)

(** C5: when the stock covers the multi-day demand, nothing is produced:
    no units, no waste risk, efficiency 1, and the reasoning says that the
    stock is sufficient. *)
Theorem sufficient_stock_short_circuit
    (multiDayDemand : MultiDayDemand.t R) (currentStock : R) (config : ItemConfig.t R) :
  (MultiDayDemand.totalDemand multiDayDemand <= currentStock)%R ->
  let decision := BatchOptimizer.optimizeBatchSize multiDayDemand currentStock config in
  BatchDecision.produceToday decision = 0%R
  /\ BatchDecision.wasteRiskScore decision = 0%R
  /\ BatchDecision.efficiencyScore decision = 1%R
  /\ mentions "Sufficient stock" (BatchDecision.reasoning decision) = true.
Proof.
  intros Hstock. unfold BatchOptimizer.optimizeBatchSize.
  rewrite orElse_real_zero. cbn -[mentions].
  rewrite Rmax_left by lra.
  destruct (Real_leb_spec 0 0) as [_ | Hne]; [|lra].
  cbn. repeat split; lra.
Qed.

Lemma sufficient_stock_short_circuit_witness :
  let decision :=
    BatchOptimizer.optimizeBatchSize
      (MultiDayDemand.mk 20%R [] 3 (8 / 10)%R) 25%R
      (ItemConfig.mk "1001" "Potato salad" 5%R 3 10 3 (1 / 10)%R true) in
  BatchDecision.produceToday decision = 0%R
  /\ BatchDecision.wasteRiskScore decision = 0%R
  /\ BatchDecision.efficiencyScore decision = 1%R
  /\ mentions "Sufficient stock" (BatchDecision.reasoning decision) = true.
Proof.
  apply (sufficient_stock_short_circuit
           (MultiDayDemand.mk 20%R [] 3 (8 / 10)%R) 25%R
           (ItemConfig.mk "1001" "Potato salad" 5%R 3 10 3 (1 / 10)%R true)).
  simpl. lra.
Defined.

(** Scenario B on binary64, with the input of the guide's test "should
    recommend no production when sufficient stock exists". *)
Example sufficient_stock_scenario :
  let decision := BatchOptimizer.optimizeBatchSize (testDemand 20) 25%float (testConfig 10) in
  BatchDecision.produceToday decision = 0%float
  /\ BatchDecision.wasteRiskScore decision = 0%float
  /\ BatchDecision.efficiencyScore decision = 1%float
  /\ BatchDecision.reasoning decision
     = "Sufficient stock (25 units) covers 3-day demand (20 units)"%string.
Proof. vm_compute. repeat split. Qed.

(** C6 fails on the code: for the input of the guide's test "should
    recommend minimum batch size when demand is low" the minimum batch of
    15 scores 0 (its waste risk is 0.904) and the exact demand of 8 is
    selected. *)
Theorem minimum_batch_scenario_selects_exact_demand :
  let decision := BatchOptimizer.optimizeBatchSize (testDemand 8) 0%float (testConfig 15) in
  BatchDecision.produceToday decision = 8%float
  /\ BatchDecision.reasoning decision = "Exact net demand (8) for 3 days"%string
  /\ BatchOption.reasoning (BatchDecision.selectedOption decision)
     = "Exact net demand (8) for 3 days"%string
  /\ map (fun o => (BatchOption.size o, BatchOption.wasteRisk o, BatchOption.score o,
                    BatchOption.reasoning o))
       (BatchDecision.options decision)
     = [ (15%float, 0.90416666666666667%float, 0%float,
          "Min batch (15) covers 3-day demand"%string);
         (8%float, 0%float, 1.1800000000000002%float,
          "Exact net demand (8) for 3 days"%string) ].
Proof. vm_compute. repeat split. Qed.

(** With a shelf life of 7 days the minimum batch does win. *)
Example minimum_batch_wins_with_long_shelf_life :
  let config := ItemConfig.mk "test" "test item" 5%float 7 15 3 0%float true in
  let decision := BatchOptimizer.optimizeBatchSize (testDemand 8) 0%float config in
  BatchDecision.produceToday decision = 15%float
  /\ BatchDecision.reasoning decision = "Min batch (15) covers 3-day demand"%string.
Proof. vm_compute. split; reflexivity. Qed.

Lemma excessRatio_bounds (t s : R) :
  (0 <= t)%R -> (t < s)%R -> (0 < (s - t) / s <= 1)%R.
Proof.
  intros Ht Hs. assert (0 < s)%R by lra.
  split.
  - apply Rdiv_lt_0_compat; lra.
  - replace ((s - t) / s)%R with (1 - t * / s)%R by (field; lra).
    assert (0 < / s)%R by now apply Rinv_0_lt_compat.
    assert (0 <= t * / s)%R by (apply Rmult_le_pos; lra). lra.
Qed.

Lemma excessRatio_mono (t s1 s2 : R) :
  (0 <= t)%R -> (t < s1)%R -> (s1 <= s2)%R -> ((s1 - t) / s1 <= (s2 - t) / s2)%R.
Proof.
  intros Ht H1 H12. assert (0 < s1)%R by lra. assert (0 < s2)%R by lra.
  replace ((s1 - t) / s1)%R with (1 - t * / s1)%R by (field; lra).
  replace ((s2 - t) / s2)%R with (1 - t * / s2)%R by (field; lra).
  assert (/ s2 <= / s1)%R by (apply Rinv_le_contravar; lra).
  assert (t * / s2 <= t * / s1)%R by (apply Rmult_le_compat_l; lra).
  lra.
Qed.




(** The same in exact arithmetic. *)
Example negative_shelf_life_in_exact_arithmetic :
  BatchOptimizer.calculateWasteRisk 9%R 8%R (-1)%R 3%R = (1 / 9 - (27 / 8 + 1) / 2)%R
  /\ BatchOptimizer.calculateWasteRisk 12%R 8%R (-1)%R 3%R = (1 / 3 - (9 / 2 + 1) / 2)%R
  /\ (BatchOptimizer.calculateWasteRisk 12%R 8%R (-1)%R 3%R
      < BatchOptimizer.calculateWasteRisk 9%R 8%R (-1)%R 3%R)%R.
Proof.
  assert (Hrate : Rmax (1 / 10) (8 / 3) = (8 / 3)%R) by (apply Rmax_right; lra).
  assert (H9 : BatchOptimizer.calculateWasteRisk 9%R 8%R (-1)%R 3%R = (1 / 9 - (27 / 8 + 1) / 2)%R).
  { unfold BatchOptimizer.calculateWasteRisk, lit.
    cbn [Qnum Qden ofZ nadd nsub nmul ndiv nltb nleb Math_max Math_min real].
    destruct (Real_leb_spec 9 8) as [Hbad | _]; [lra|].
    rewrite Hrate.
    destruct (Real_ltb_spec (-1) (9 / (8 / 3))) as [_ | Hbad]; [|exfalso; apply Hbad; lra].
    rewrite Rmin_right by lra. field. }
  assert (H12 : BatchOptimizer.calculateWasteRisk 12%R 8%R (-1)%R 3%R = (1 / 3 - (9 / 2 + 1) / 2)%R).
  { unfold BatchOptimizer.calculateWasteRisk, lit.
    cbn [Qnum Qden ofZ nadd nsub nmul ndiv nltb nleb Math_max Math_min real].
    destruct (Real_leb_spec 12 8) as [Hbad | _]; [lra|].
    rewrite Hrate.
    destruct (Real_ltb_spec (-1) (12 / (8 / 3))) as [_ | Hbad]; [|exfalso; apply Hbad; lra].
    rewrite Rmin_right by lra. field. }
  rewrite H9, H12. repeat split; lra.
Qed.

Lemma createBatchOption_size (size efficiency wasteRisk : R) (reasoning : string) :
  BatchOption.size (BatchOptimizer.createBatchOption size efficiency wasteRisk reasoning)
  = IZR (Real.ceilZ size).
Proof. reflexivity. Qed.

Section Options.
Variables (netDemand totalDemand : R) (config : ItemConfig.t R)
          (multiDayDemand : MultiDayDemand.t R).

Let options := BatchOptimizer.generateBatchOptions netDemand totalDemand config multiDayDemand.

Lemma generateBatchOptions_sizes (o : BatchOption.t R) :
  In o options -> positiveInteger (BatchOption.size o).
Proof.
  unfold options, BatchOptimizer.generateBatchOptions.
  rewrite filter_In. intros [Hin Hpos].
  change (Real.ltb 0 (BatchOption.size o) = true) in Hpos.
  destruct (Real_ltb_spec 0 (BatchOption.size o)) as [Hlt | ]; [|discriminate].
  assert (Hceil : exists s, BatchOption.size o = IZR (Real.ceilZ s)).
  { repeat match type of Hin with
           | In _ (if ?b then _ else _) => destruct b
           | In _ (_ ++ _) => apply in_app_or in Hin as [Hin | Hin]
           | In _ [_] => destruct Hin as [<- | []]; eexists; apply createBatchOption_size
           | In _ [] => destruct Hin
           end. }
  destruct Hceil as [s Hs]. exists (Real.ceilZ s). split; [|exact Hs].
  apply lt_IZR. rewrite <- Hs. exact Hlt.
Qed.

Lemma generateBatchOptions_exact :
  (0 < netDemand)%R ->
  exists o, In o options /\ BatchOption.size o = IZR (Real.ceilZ netDemand).
Proof.
  intros Hnet.
  set (daysAhead := BatchOptimizer.orZ (MultiDayDemand.daysAhead multiDayDemand) 3).
  set (shelfLife := BatchOptimizer.orZ (ItemConfig.shelfLife config) 3).
  exists (BatchOptimizer.createBatchOption (Math_ceil netDemand) (lit 1.0)
            (BatchOptimizer.calculateWasteRisk (Math_ceil netDemand) totalDemand
               (ofZ shelfLife) (ofZ daysAhead))
            ("Exact net demand (" +:+ numToString (Math_ceil netDemand) +:+ ") for "
               +:+ Z_to_string daysAhead +:+ " days")).
  assert (Hsize : forall e w r,
             BatchOption.size (BatchOptimizer.createBatchOption (Math_ceil netDemand) e w r)
             = IZR (Real.ceilZ netDemand)).
  { intros. rewrite createBatchOption_size. cbn. unfold Real.ceil. now rewrite ceilZ_IZR. }
  split; [|apply Hsize].
  unfold options, BatchOptimizer.generateBatchOptions.
  apply filter_In. split.
  - fold daysAhead shelfLife.
    change (@nltb R real (ofZ 0) netDemand) with (Real.ltb 0 netDemand).
    destruct (Real_ltb_spec 0 netDemand) as [_ | Hbad]; [|lra].
    repeat match goal with
           | |- In _ (if ?b then _ else _) => destruct b
           | |- In _ (_ ++ [_]) => apply in_or_app; first [right; left; reflexivity | left]
           end.
  - rewrite Hsize.
    change (Real.ltb 0 (IZR (Real.ceilZ netDemand)) = true).
    destruct (Real_ltb_spec 0 (IZR (Real.ceilZ netDemand))) as [|Hbad]; [reflexivity|].
    exfalso. apply Hbad. apply IZR_lt. now apply ceilZ_pos.
Qed.

End Options.

Lemma selectBest_In {A : Type} `{Number A} (first : BatchOption.t A) rest :
  In (BatchOptimizer.selectBest first rest) (first :: rest).
Proof.
  unfold BatchOptimizer.selectBest. revert first.
  induction rest as [|o rest IH]; intros first; [left; reflexivity|].
  cbn [fold_left].
  destruct (BatchOption.score o >? BatchOption.score first)%num.
  - right. apply IH.
  - destruct (IH first) as [Heq | Hin]; [left; exact Heq | right; right; exact Hin].
Qed.

(** C10: when the demand exceeds the stock, the list of candidate options
    holds the exact-net-demand option and so is not empty, the selection
    picks one of the scored candidates, and the quantity to produce is a
    positive integer. *)
Theorem positive_net_demand_yields_production
    (multiDayDemand : MultiDayDemand.t R) (currentStock : R) (config : ItemConfig.t R) :
  (currentStock < MultiDayDemand.totalDemand multiDayDemand)%R ->
  let totalDemand := MultiDayDemand.totalDemand multiDayDemand in
  let netDemand := Rmax 0 (totalDemand - currentStock) in
  let options :=
    BatchOptimizer.generateBatchOptions netDemand totalDemand config multiDayDemand in
  let decision := BatchOptimizer.optimizeBatchSize multiDayDemand currentStock config in
  (exists o, In o options /\ BatchOption.size o = IZR (Real.ceilZ netDemand))
  /\ 1 <= Real.ceilZ netDemand
  /\ (0 < length options)%nat
  /\ map (@BatchOption.size R) (BatchDecision.options decision)
     = map (@BatchOption.size R) options
  /\ In (BatchDecision.selectedOption decision) (BatchDecision.options decision)
  /\ positiveInteger (BatchDecision.produceToday decision).
Proof.
  intros Hstock totalDemand netDemand options decision.
  assert (Hnet : (0 < netDemand)%R).
  { unfold netDemand, totalDemand. rewrite Rmax_right; lra. }
  pose proof (generateBatchOptions_exact netDemand totalDemand config multiDayDemand Hnet)
    as Hexact.
  fold options in Hexact.
  assert (Hlen : (0 < length options)%nat).
  { destruct Hexact as (o & Hin & _). destruct options; [destruct Hin | simpl; lia]. }
  split; [exact Hexact|].
  split; [pose proof (ceilZ_pos netDemand Hnet); lia|].
  split; [exact Hlen|].
  unfold decision, BatchOptimizer.optimizeBatchSize.
  rewrite orElse_real_zero. fold totalDemand.
  change (Math_max (ofZ 0) (totalDemand - currentStock)%num) with netDemand.
  change (@nleb R real netDemand (ofZ 0)) with (Real.leb netDemand 0).
  destruct (Real_leb_spec netDemand 0) as [Hbad | _]; [lra|].
  fold options.
  pose proof (generateBatchOptions_sizes netDemand totalDemand config multiDayDemand)
    as Hsizes.
  fold options in Hsizes.
  destruct options as [|o rest]; [simpl in Hlen; lia|].
  cbn [map].
  set (scored := fun option : BatchOption.t R => _).
  cbn [BatchDecision.options BatchDecision.selectedOption BatchDecision.produceToday].
  split; [|split].
  - change (map (@BatchOption.size R) (map scored (o :: rest))
            = map (@BatchOption.size R) (o :: rest)).
    rewrite map_map. apply map_ext. reflexivity.
  - apply (selectBest_In (scored o) (map scored rest)).
  - pose proof (selectBest_In (scored o) (map scored rest)) as Hbest.
    change (scored o :: map scored rest) with (map scored (o :: rest)) in Hbest.
    apply in_map_iff in Hbest as (o' & Ho' & Hin').
    change (positiveInteger
              (BatchOption.size (BatchOptimizer.selectBest (scored o) (map scored rest)))).
    rewrite <- Ho'. apply (Hsizes o' Hin').
Qed.

(** Scenario A in exact arithmetic. *)
Lemma positive_net_demand_yields_production_witness :
  let multiDayDemand := MultiDayDemand.mk 8%R [] 3 (8 / 10)%R in
  let config := ItemConfig.mk "1001" "Potato salad" 5%R 3 15 3 (1 / 10)%R true in
  let netDemand := Rmax 0 (8 - 0) in
  let options := BatchOptimizer.generateBatchOptions netDemand 8%R config multiDayDemand in
  let decision := BatchOptimizer.optimizeBatchSize multiDayDemand 0%R config in
  (exists o, In o options /\ BatchOption.size o = IZR (Real.ceilZ netDemand))
  /\ 1 <= Real.ceilZ netDemand
  /\ (0 < length options)%nat
  /\ map (@BatchOption.size R) (BatchDecision.options decision)
     = map (@BatchOption.size R) options
  /\ In (BatchDecision.selectedOption decision) (BatchDecision.options decision)
  /\ positiveInteger (BatchDecision.produceToday decision).
Proof.
  apply (positive_net_demand_yields_production
           (MultiDayDemand.mk 8%R [] 3 (8 / 10)%R) 0%R
           (ItemConfig.mk "1001" "Potato salad" 5%R 3 15 3 (1 / 10)%R true)).
  simpl. lra.
Defined.

(** ** Forecaster and plan generator *)

Section PlanFacts.
Context {A : Type} `{Number A}.

Lemma groupDataByItem_acc (data : list (ProcessedSalesData.t A))
    (groups : gmap string (list (ProcessedSalesData.t A))) (k : string) :
  default [] (fold_left
     (fun (groups : gmap string (list (ProcessedSalesData.t A))) r =>
        let existing := default [] (groups !! ProcessedSalesData.itemNumber r) in
        <[ ProcessedSalesData.itemNumber r := existing ++ [r] ]> groups)
     data groups !! k)
  = default [] (groups !! k) ++ List.filter (hasItemNumber k) data.
Proof.
  revert groups. induction data as [|r data IH]; intros groups; cbn [fold_left List.filter].
  - now rewrite app_nil_r.
  - rewrite IH. unfold hasItemNumber at 2.
    destruct (String.eqb_spec (ProcessedSalesData.itemNumber r) k) as [-> | Hne].
    + rewrite lookup_insert_eq. cbn. now rewrite <- app_assoc.
    + rewrite lookup_insert_ne by assumption. reflexivity.
Qed.

(** The group of an item is the sub-sequence of its records. *)
Lemma groupDataByItem_lookup (data : list (ProcessedSalesData.t A)) (k : string) :
  default [] (PlanGenerator.groupDataByItem data !! k) = List.filter (hasItemNumber k) data.
Proof.
  unfold PlanGenerator.groupDataByItem. rewrite groupDataByItem_acc.
  now rewrite lookup_empty.
Qed.

Lemma filter_empty_sublist (p q : ProcessedSalesData.t A -> bool) (data : list (ProcessedSalesData.t A)) :
  List.filter p data = [] -> List.filter p (List.filter q data) = [].
Proof.
  induction data as [|r data IH]; [reflexivity|]. cbn.
  destruct (p r) eqn:Hp; [discriminate|]. intros Hrest.
  destruct (q r); cbn; rewrite ?Hp; now apply IH.
Qed.

Section Items.
Variables (this : PlanGenerator.t A) (now : Date)
          (itemGroups : gmap string (list (ProcessedSalesData.t A))) (dateRange : DateRange.t)
          (itemConfigs : gmap string (ItemConfig.t A)) (globalSettings : GlobalSettings.t A).

Let step (planItems : list (ProductionPlanItem.t A)) (itemNumber : string) :=
  let itemData := default [] (itemGroups !! itemNumber) in
  match itemConfigs !! itemNumber with
  | Some itemConfig =>
      if ItemConfig.isActive itemConfig then
        match PlanGenerator.generatePlanItem this now itemNumber itemData itemConfig
                (DateRange.start dateRange) globalSettings with
        | Some planItem => planItems ++ [planItem]
        | None => planItems
        end
      else planItems
  | None => planItems
  end.

Lemma step_keeps (item : ProductionPlanItem.t A) planItems itemNumber :
  In item planItems -> In item (step planItems itemNumber).
Proof.
  intros Hin. unfold step.
  destruct (itemConfigs !! itemNumber) as [c|]; [|assumption].
  destruct (ItemConfig.isActive c); [|assumption].
  destruct (PlanGenerator.generatePlanItem _ _ _ _ _ _ _); [|assumption].
  apply in_or_app. now left.
Qed.

Lemma steps_keep (item : ProductionPlanItem.t A) selectedItems planItems :
  In item planItems -> In item (fold_left step selectedItems planItems).
Proof.
  revert planItems. induction selectedItems as [|k ks IH]; intros planItems Hin; [assumption|].
  cbn [fold_left]. apply IH. now apply step_keeps.
Qed.

Lemma generatePlanItems_empty_item selectedItems itemNumber config :
  In itemNumber selectedItems ->
  itemConfigs !! itemNumber = Some config ->
  ItemConfig.isActive config = true ->
  default [] (itemGroups !! itemNumber) = [] ->
  In (PlanGenerator.createEmptyPlanItem itemNumber config (DateRange.start dateRange))
     (PlanGenerator.generatePlanItems this now itemGroups dateRange selectedItems
        itemConfigs globalSettings).
Proof.
  intros Hsel Hcfg Hactive Hdata.
  unfold PlanGenerator.generatePlanItems. fold step.
  generalize (@nil (ProductionPlanItem.t A)) as planItems.
  induction selectedItems as [|k ks IH]; intros planItems; [destruct Hsel|].
  cbn [fold_left]. destruct Hsel as [-> | Hsel]; [|now apply IH].
  apply steps_keep. unfold step. rewrite Hcfg, Hactive, Hdata.
  cbn. apply in_or_app. right. now left.
Qed.

End Items.

(** C9: a selected, active item without historical sales records gets a
    zero forecast with zero confidence, and the plan still holds an item
    for it: the empty plan item, which produces nothing and gives the
    lack of data as its reason. *)
Theorem item_without_history_is_planned
    (this : PlanGenerator.t A) (now : Date) (data : list (ProcessedSalesData.t A))
    (dateRange : DateRange.t) (selectedItems : list string)
    (itemConfigs : gmap string (ItemConfig.t A)) (globalSettings : GlobalSettings.t A)
    (holidays : list (Holiday.t A)) (itemNumber : string) (config : ItemConfig.t A)
    (targetDate : Date) (growthRate : A) :
  In itemNumber selectedItems ->
  itemConfigs !! itemNumber = Some config ->
  ItemConfig.isActive config = true ->
  List.filter (hasItemNumber itemNumber) data = [] ->
  let forecast :=
    DemandForecaster.forecastDemand (PlanGenerator.forecaster this) now data targetDate
      growthRate itemNumber in
  let plan :=
    PlanGenerator.generatePlan this now data dateRange selectedItems itemConfigs
      globalSettings holidays in
  let item :=
    PlanGenerator.createEmptyPlanItem itemNumber config (DateRange.start dateRange) in
  ForecastResult.forecast forecast = ofZ 0
  /\ ForecastResult.confidence forecast = ofZ 0
  /\ In item (ProductionPlan.items plan)
  /\ ProductionPlanItem.itemNumber item = itemNumber
  /\ BatchDecision.produceToday (ProductionPlanItem.batchDecision item) = ofZ 0
  /\ BatchDecision.reasoning (ProductionPlanItem.batchDecision item)
     = "No historical data available"%string
  /\ BatchOption.reasoning
       (BatchDecision.selectedOption (ProductionPlanItem.batchDecision item))
     = "No data"%string.
Proof.
  intros Hsel Hcfg Hactive Hnone forecast plan item.
  assert (Hforecast : forecast = DemandForecaster.createEmptyForecast targetDate).
  { unfold forecast, DemandForecaster.forecastDemand.
    change (fun d : ProcessedSalesData.t A =>
              (ProcessedSalesData.itemNumber d =? itemNumber)%string)
      with (hasItemNumber (A:=A) itemNumber).
    now rewrite Hnone. }
  rewrite Hforecast. split; [reflexivity|]. split; [reflexivity|].
  split; [|repeat split].
  unfold plan, PlanGenerator.generatePlan. cbn [ProductionPlan.items].
  apply generatePlanItems_empty_item with (config := config); try assumption.
  rewrite groupDataByItem_lookup. now apply filter_empty_sublist.
Qed.

(** *** The wall clock

    The clock enters the pipeline through the cut-off dates of
    [getRecentData] (14, 28 and 30 days before [now]) and through the
    metadata. *)

Lemma fold_left_pointwise {S T : Type} (f g : S -> T -> S) (xs : list T) (init : S) :
  (forall acc x, f acc x = g acc x) -> fold_left f xs init = fold_left g xs init.
Proof.
  intros Hfg. revert init. induction xs as [|x xs IH]; intros init; [reflexivity|].
  cbn. now rewrite Hfg, IH.
Qed.

Section TwoClocks.
Variables (now1 now2 : Date) (data : list (ProcessedSalesData.t A)).
Hypothesis Hsame : sameRecentRecords now1 now2 data = true.

Lemma getRecentData_same (itemData : list (ProcessedSalesData.t A)) (days : Z) :
  In days [14; 28; 30] -> incl itemData data ->
  DemandForecaster.getRecentData now1 itemData days
  = DemandForecaster.getRecentData now2 itemData days.
Proof.
  intros Hdays Hincl. unfold DemandForecaster.getRecentData. f_equal.
  apply filter_ext_in. intros r Hr.
  unfold sameRecentRecords in Hsame. rewrite forallb_forall in Hsame.
  specialize (Hsame r (Hincl r Hr)). rewrite forallb_forall in Hsame.
  specialize (Hsame days Hdays). now apply eqb_prop in Hsame.
Qed.

Lemma forecastDemand_same (this : DemandForecaster.t A)
    (historicalData : list (ProcessedSalesData.t A)) (targetDate : Date)
    (growthRate : A) (itemNumber : string) :
  incl historicalData data ->
  DemandForecaster.forecastDemand this now1 historicalData targetDate growthRate itemNumber
  = DemandForecaster.forecastDemand this now2 historicalData targetDate growthRate itemNumber.
Proof.
  intros Hincl. unfold DemandForecaster.forecastDemand.
  set (itemData := List.filter _ historicalData).
  assert (Hitem : incl itemData data).
  { intros r Hr. apply Hincl. unfold itemData in Hr. now apply filter_In in Hr as [Hr _]. }
  assert (Hbase : DemandForecaster.calculateBaseDemand now1 itemData targetDate
                  = DemandForecaster.calculateBaseDemand now2 itemData targetDate).
  { unfold DemandForecaster.calculateBaseDemand.
    now rewrite (getRecentData_same itemData 30) by (cbn; tauto || assumption). }
  assert (Htrend : DemandForecaster.calculateTrendFactor now1 itemData targetDate
                   = DemandForecaster.calculateTrendFactor now2 itemData targetDate).
  { unfold DemandForecaster.calculateTrendFactor.
    now rewrite (getRecentData_same itemData 28) by (cbn; tauto || assumption). }
  assert (Hfactors : DemandForecaster.calculateForecastFactors this now1 targetDate itemData
                     = DemandForecaster.calculateForecastFactors this now2 targetDate itemData).
  { unfold DemandForecaster.calculateForecastFactors. now rewrite Htrend. }
  assert (Hconf : forall factors,
             DemandForecaster.calculateConfidence now1 itemData targetDate factors
             = DemandForecaster.calculateConfidence now2 itemData targetDate factors).
  { intros factors. unfold DemandForecaster.calculateConfidence.
    now rewrite (getRecentData_same itemData 14) by (cbn; tauto || assumption). }
  now rewrite Hbase, Hfactors, Hconf.
Qed.

Lemma forecastMultiDay_same (this : DemandForecaster.t A)
    (historicalData : list (ProcessedSalesData.t A)) (startDate : Date) (days : Z)
    (growthRate : A) (itemNumber : string) :
  incl historicalData data ->
  DemandForecaster.forecastMultiDay this now1 historicalData startDate days growthRate itemNumber
  = DemandForecaster.forecastMultiDay this now2 historicalData startDate days growthRate
      itemNumber.
Proof.
  intros Hincl. unfold DemandForecaster.forecastMultiDay.
  erewrite fold_left_pointwise; [reflexivity|].
  intros [[dailyForecasts totalDemand] totalConfidence] i.
  now rewrite forecastDemand_same.
Qed.

Lemma generatePlanItem_same (this : PlanGenerator.t A) (itemNumber : string)
    (itemData : list (ProcessedSalesData.t A)) (config : ItemConfig.t A) (planDate : Date)
    (globalSettings : GlobalSettings.t A) :
  incl itemData data ->
  PlanGenerator.generatePlanItem this now1 itemNumber itemData config planDate globalSettings
  = PlanGenerator.generatePlanItem this now2 itemNumber itemData config planDate
      globalSettings.
Proof.
  intros Hincl. unfold PlanGenerator.generatePlanItem.
  now rewrite forecastMultiDay_same, forecastDemand_same.
Qed.

Lemma generatePlanItems_same (this : PlanGenerator.t A) (dateRange : DateRange.t)
    (selectedItems allItems : list string) (itemConfigs : gmap string (ItemConfig.t A))
    (globalSettings : GlobalSettings.t A) :
  let itemGroups :=
    PlanGenerator.groupDataByItem (PlanGenerator.filterData data dateRange allItems) in
  PlanGenerator.generatePlanItems this now1 itemGroups dateRange selectedItems itemConfigs
    globalSettings
  = PlanGenerator.generatePlanItems this now2 itemGroups dateRange selectedItems itemConfigs
      globalSettings.
Proof.
  intros itemGroups. unfold PlanGenerator.generatePlanItems.
  apply fold_left_pointwise. intros planItems itemNumber. cbv beta zeta.
  destruct (itemConfigs !! itemNumber) as [itemConfig|]; [|reflexivity].
  rewrite generatePlanItem_same; [reflexivity|].
  unfold itemGroups. rewrite groupDataByItem_lookup.
  intros r Hr. apply filter_In in Hr as [Hr _].
  unfold PlanGenerator.filterData in Hr. now apply filter_In in Hr as [Hr _].
Qed.

End TwoClocks.

(** C8 (as amended): two runs on the same inputs at two instants give the
    same plan date, items and summary, and the same metadata apart from
    the readings of the clock, whenever the cut-off dates of both instants
    select the same records. *)
Theorem plan_depends_on_clock_through_recent_data
    (this : PlanGenerator.t A) (now1 now2 : Date) (data : list (ProcessedSalesData.t A))
    (dateRange : DateRange.t) (selectedItems : list string)
    (itemConfigs : gmap string (ItemConfig.t A)) (globalSettings : GlobalSettings.t A)
    (holidays : list (Holiday.t A)) :
  sameRecentRecords now1 now2 data = true ->
  sameApartFromClock
    (PlanGenerator.generatePlan this now1 data dateRange selectedItems itemConfigs
       globalSettings holidays)
    (PlanGenerator.generatePlan this now2 data dateRange selectedItems itemConfigs
       globalSettings holidays).
Proof.
  intros Hsame.
  unfold sameApartFromClock, PlanGenerator.generatePlan.
  cbn [ProductionPlan.date ProductionPlan.items ProductionPlan.summary
       ProductionPlan.metadata].
  rewrite (generatePlanItems_same now1 now2 data Hsame).
  repeat split.
Qed.

End PlanFacts.

(** ** A planning run on binary64 *)

Lemma item_without_history_is_planned_witness :
  let forecast :=
    DemandForecaster.forecastDemand (PlanGenerator.forecaster sampleGenerator)
      (noon 2025 3 10) sampleData (new_Date 2025 2 3) 0.1%float "2002" in
  let item :=
    PlanGenerator.createEmptyPlanItem "2002" coleslaw (DateRange.start sampleRange) in
  ForecastResult.forecast forecast = 0%float
  /\ ForecastResult.confidence forecast = 0%float
  /\ In item (ProductionPlan.items (samplePlan (noon 2025 3 10)))
  /\ ProductionPlanItem.itemNumber item = "2002"%string
  /\ BatchDecision.produceToday (ProductionPlanItem.batchDecision item) = 0%float
  /\ BatchDecision.reasoning (ProductionPlanItem.batchDecision item)
     = "No historical data available"%string
  /\ BatchOption.reasoning
       (BatchDecision.selectedOption (ProductionPlanItem.batchDecision item))
     = "No data"%string.
Proof.
  exact (item_without_history_is_planned
           sampleGenerator (noon 2025 3 10) sampleData
           sampleRange ["1001"; "2002"]%string sampleConfigs sampleSettings []
           "2002"%string coleslaw (new_Date 2025 2 3) 0.1%float
           (or_intror (or_introl eq_refl)) eq_refl eq_refl eq_refl).
Defined.

(** C8 (as stated) fails: the same inputs planned on 10 April 2025, when
    the record of 20 March is within the last 30 days, and on 1 June 2025,
    when none is, give different base demands and different quantities. *)
Lemma clock_changes_the_plan_counterexample :
  let plan1 := samplePlan (noon 2025 3 10) in
  let plan2 := samplePlan (noon 2025 5 1) in
  let view (item : ProductionPlanItem.t float) :=
    (ProductionPlanItem.itemNumber item,
     map (fun d => DailyForecast.baseDemand d)
       (MultiDayDemand.dailyForecasts (ProductionPlanItem.multiDayDemand item)),
     PlanGenerator.produceTodayOf item) in
  map view (ProductionPlan.items plan1)
  = [("1001"%string, [30; 10; 30]%float, 77%float); ("2002"%string, [], 0%float)]
  /\ map view (ProductionPlan.items plan2)
     = [("1001"%string, [20; 10; 20]%float, 55%float); ("2002"%string, [], 0%float)]
  /\ sameRecentRecords (noon 2025 3 10) (noon 2025 5 1) sampleData = false.
Proof. vm_compute. repeat split. Qed.

(** On 1 June and on 10 July 2025 no record is recent, and the plans agree. *)
Lemma plan_depends_on_clock_through_recent_data_witness :
  sameApartFromClock (samplePlan (noon 2025 5 1)) (samplePlan (noon 2025 6 10)).
Proof.
  apply (plan_depends_on_clock_through_recent_data
           sampleGenerator (noon 2025 5 1) (noon 2025 6 10) sampleData sampleRange
           ["1001"; "2002"]%string sampleConfigs sampleSettings []).
  vm_compute. reflexivity.
Defined.

(** * Further properties of the code *)

(** ** Calendar arithmetic *)

Lemma monthOfYearDay_range l d : 0 <= monthOfYearDay l d <= 11.
Proof.
  unfold monthOfYearDay.
  repeat match goal with |- context [if ?b then _ else _] => destruct b; [lia|] end. lia.
Qed.

Lemma Day_TimeWithinDay t : t = Day t * msPerDay + TimeWithinDay t.
Proof. unfold Day, TimeWithinDay, msPerDay. Z.div_mod_to_equations; lia. Qed.

Lemma TimeWithinDay_range t : 0 <= TimeWithinDay t < msPerDay.
Proof. unfold TimeWithinDay, msPerDay. Z.div_mod_to_equations; lia. Qed.

(** Setting the day of the month moves the date by whole days. *)
Lemma setDate_spec t d : setDate t d = t + (d - getDate t) * msPerDay.
Proof.
  unfold setDate, getDate.
  rewrite MakeDay_month by apply monthOfYearDay_range.
  pose proof (Day_TimeWithinDay t) as Ht.
  unfold MakeDate, DateFromTime, DayWithinYear, InLeapYear, msPerDay in *. lia.
Qed.

Lemma addDays_spec t n : addDays t n = t + n * msPerDay.
Proof.
  unfold addDays. destruct (Z.eqb_spec n 0) as [-> | _]; [lia|].
  rewrite setDate_spec. lia.
Qed.

Lemma Day_add_days t n : Day (t + n * msPerDay) = Day t + n.
Proof. unfold Day, msPerDay. Z.div_mod_to_equations; lia. Qed.

Lemma TimeWithinDay_add_days t n : TimeWithinDay (t + n * msPerDay) = TimeWithinDay t.
Proof. unfold TimeWithinDay, msPerDay. Z.div_mod_to_equations; lia. Qed.

Lemma WeekDay_add_days t n : WeekDay (t + n * msPerDay) = (WeekDay t + n) mod 7.
Proof. unfold WeekDay. rewrite Day_add_days. Z.div_mod_to_equations; lia. Qed.

Lemma new_Date_regular y m d :
  (0 <=? y) && (y <=? 99) = false -> new_Date y m d = MakeDate (MakeDay y m d) 0.
Proof. unfold new_Date. now intros ->. Qed.

Lemma MakeDay_date y m d k : MakeDay y m (d + k) = MakeDay y m d + k.
Proof. unfold MakeDay. lia. Qed.

(** The day before the first of the next month. *)
Lemma MakeDay_last y m :
  0 <= m <= 11 -> MakeDay y (m + 1) 0 = DayFromYear y + monthStart (isLeapYear y) (m + 1) - 1.
Proof.
  intros Hm. destruct (Z.eq_dec m 11) as [-> | Hne].
  - unfold MakeDay. change ((11 + 1) / 12) with 1. change ((11 + 1) mod 12) with 0.
    rewrite DayFromYear_step. destruct (isLeapYear y); simpl; lia.
  - rewrite MakeDay_month by lia. lia.
Qed.

Lemma MakeDate_le a b : (MakeDate a 0 <=? MakeDate b 0) = (a <=? b).
Proof.
  unfold MakeDate, msPerDay.
  destruct (Z.leb_spec a b), (Z.leb_spec (a * 86400000 + 0) (b * 86400000 + 0)); lia.
Qed.

Lemma MakeDate_add_days a n : MakeDate a 0 + n * msPerDay = MakeDate (a + n) 0.
Proof. unfold MakeDate. lia. Qed.

(** ** Sorting *)

Section Sorting.
Context {T : Type} (key : T -> Z).

Lemma insertByKey_In x y xs : In x (insertByKey key y xs) <-> x = y \/ In x xs.
Proof.
  induction xs as [|z xs IH]; cbn; [intuition congruence|].
  destruct (key z <=? key y); cbn; [rewrite IH|]; intuition congruence.
Qed.

Lemma sortByKey_acc_In x xs acc :
  In x (fold_left (fun acc x => insertByKey key x acc) xs acc) <-> In x acc \/ In x xs.
Proof.
  revert acc. induction xs as [|y xs IH]; intros acc; cbn; [tauto|].
  rewrite IH, insertByKey_In. intuition congruence.
Qed.

Lemma sortByKey_In x xs : In x (sortByKey key xs) <-> In x xs.
Proof. unfold sortByKey. rewrite sortByKey_acc_In. cbn. tauto. Qed.

Lemma insertByKey_length y xs : length (insertByKey key y xs) = S (length xs).
Proof.
  induction xs as [|z xs IH]; cbn; [reflexivity|].
  destruct (key z <=? key y); cbn; [now rewrite IH | reflexivity].
Qed.

Lemma sortByKey_length xs : length (sortByKey key xs) = length xs.
Proof.
  unfold sortByKey.
  assert (Hacc : forall acc, length (fold_left (fun acc x => insertByKey key x acc) xs acc)
                             = (length acc + length xs)%nat).
  { induction xs as [|y xs IH]; intros acc; cbn; [lia|].
    rewrite IH, insertByKey_length. lia. }
  now rewrite Hacc.
Qed.

Lemma insertByKey_sorted y xs :
  StronglySorted (byKey key) xs -> StronglySorted (byKey key) (insertByKey key y xs).
Proof.
  induction 1 as [|z xs Hsorted IH Hall]; cbn.
  - repeat constructor.
  - destruct (Z.leb_spec (key z) (key y)) as [Hle | Hgt].
    + constructor; [exact IH|].
      apply List.Forall_forall. intros x Hx. apply insertByKey_In in Hx as [-> | Hx]; [exact Hle|].
      rewrite List.Forall_forall in Hall. now apply Hall.
    + constructor; [now constructor|].
      constructor; [unfold byKey; lia|].
      rewrite List.Forall_forall in *. intros x Hx. specialize (Hall x Hx). unfold byKey in *. lia.
Qed.

Lemma sortByKey_sorted xs : StronglySorted (byKey key) (sortByKey key xs).
Proof.
  unfold sortByKey.
  assert (Hacc : forall acc, StronglySorted (byKey key) acc ->
             StronglySorted (byKey key) (fold_left (fun acc x => insertByKey key x acc) xs acc)).
  { induction xs as [|y xs IH]; intros acc Hacc; cbn; [exact Hacc|].
    apply IH. now apply insertByKey_sorted. }
  apply Hacc. constructor.
Qed.

End Sorting.

(** ** Fiscal years *)

Section FiscalYears.
Variables (month day : Z).
Hypothesis Hmonth : 1 <= month <= 12.
Hypothesis Hday : 1 <= day <= 28.

Let anchor (y : Z) : Z := MakeDay y (month - 1) day.
Let calendar : FiscalCalendar.t := FiscalCalendar.constructor month day.

Lemma anchor_next y : anchor y + 365 <= anchor (y + 1) <= anchor y + 366.
Proof. pose proof (anchor_step month day Hmonth y) as H. cbv beta in H. unfold anchor. lia. Qed.

Lemma anchor_mono y y' : y < y' -> anchor y + 365 <= anchor y'.
Proof.
  intros Hlt. destruct (Z.eq_dec y' (y + 1)) as [-> | Hne]; [apply anchor_next|].
  pose proof (anchor_bounds month day Hmonth Hday y) as Hy.
  pose proof (anchor_bounds month day Hmonth Hday y') as Hy'.
  pose proof (DayFromYear_mono (y + 1) y' ltac:(lia)).
  cbv beta in *. unfold anchor. lia.
Qed.

Lemma getFiscalYearStart_anchor fy :
  FiscalCalendar.getFiscalYearStart calendar fy = MakeDate (anchor (fy - 1)) 0.
Proof.
  unfold FiscalCalendar.getFiscalYearStart, calendar.
  rewrite calendar_anchor. exact (setFullYear_anchor month day Hmonth Hday 2024 (fy - 1)).
Qed.

Lemma getFiscalYearEnd_anchor fy :
  FiscalCalendar.getFiscalYearEnd calendar fy = MakeDate (anchor fy - 1) 0.
Proof.
  unfold FiscalCalendar.getFiscalYearEnd.
  rewrite getFiscalYearStart_anchor, addDays_spec, MakeDate_add_days.
  f_equal. replace (fy + 1 - 1) with fy by lia. lia.
Qed.

Lemma isInFiscalYear_anchor date fy :
  FiscalCalendar.isInFiscalYear calendar date fy
  = (MakeDate (anchor (fy - 1)) 0 <=? date) && (date <=? MakeDate (anchor fy - 1) 0).
Proof.
  unfold FiscalCalendar.isInFiscalYear.
  now rewrite getFiscalYearStart_anchor, getFiscalYearEnd_anchor.
Qed.

(** X1: the calendar date of a fiscal coordinate of fiscal year [fy]
    (period 1-13, week 1-4, day 1-7) is in fiscal year [fy] according to
    [isInFiscalYear]: it lies between [getFiscalYearStart fy] and
    [getFiscalYearEnd fy]. *)
Theorem fiscal_date_lies_in_its_fiscal_year fy p w d :
  1 <= p <= 13 -> 1 <= w <= 4 -> 1 <= d <= 7 ->
  FiscalCalendar.isInFiscalYear calendar
    (FiscalCalendar.convertToCalendarDate calendar fy p w d) fy = true.
Proof.
  intros Hp Hw Hd.
  rewrite isInFiscalYear_anchor. unfold calendar.
  rewrite convertToCalendarDate_anchor by assumption.
  rewrite !MakeDate_le.
  pose proof (anchor_next (fy - 1)) as Hn. replace (fy - 1 + 1) with fy in Hn by lia.
  fold (anchor (fy - 1)).
  apply andb_true_iff. split; apply Z.leb_le; lia.
Qed.

(** X2: a date at midnight is in exactly one fiscal year according to
    [isInFiscalYear]. *)
Theorem midnight_belongs_to_one_fiscal_year date :
  TimeWithinDay date = 0 ->
  exists fy,
    FiscalCalendar.isInFiscalYear calendar date fy = true
    /\ forall fy', FiscalCalendar.isInFiscalYear calendar date fy' = true -> fy' = fy.
Proof.
  intros Hmid.
  assert (Hdate : date = MakeDate (Day date) 0).
  { rewrite (Day_TimeWithinDay date) at 1. rewrite Hmid. reflexivity. }
  set (D := Day date) in *. set (y := YearFromDay D).
  pose proof (YearFromDay_spec D) as HD. fold y in HD.
  pose proof (anchor_bounds month day Hmonth Hday y) as Hy.
  pose proof (anchor_bounds month day Hmonth Hday (y - 1)) as Hy1.
  cbv beta in Hy, Hy1. fold (anchor y) in Hy. fold (anchor (y - 1)) in Hy1.
  replace (y - 1 + 1) with y in Hy1 by lia.
  pose proof (anchor_bounds month day Hmonth Hday (y + 1)) as Hy2.
  cbv beta in Hy2. fold (anchor (y + 1)) in Hy2.
  assert (Hin : forall fy, FiscalCalendar.isInFiscalYear calendar date fy = true
                           <-> anchor (fy - 1) <= D < anchor fy).
  { intros fy. rewrite isInFiscalYear_anchor, Hdate, !MakeDate_le.
    rewrite andb_true_iff, !Z.leb_le. lia. }
  assert (Huniq : forall fy fy', anchor (fy - 1) <= D < anchor fy ->
                                 anchor (fy' - 1) <= D < anchor fy' -> fy' = fy).
  { intros fy fy' H1 H2.
    destruct (Z.lt_trichotomy fy fy') as [Hlt | [Heq | Hgt]]; [|now symmetry|].
    - destruct (Z.eq_dec (fy' - 1) fy) as [E | E]; [rewrite E in H2; lia|].
      pose proof (anchor_mono fy (fy' - 1) ltac:(lia)). lia.
    - destruct (Z.eq_dec (fy - 1) fy') as [E | E]; [rewrite E in H1; lia|].
      pose proof (anchor_mono fy' (fy - 1) ltac:(lia)). lia. }
  destruct (Z.lt_ge_cases D (anchor y)) as [Hbefore | Hafter].
  - exists y. split.
    + apply Hin. lia.
    + intros fy' H'. apply Hin in H'. apply (Huniq y fy'); lia.
  - exists (y + 1). replace (y + 1 - 1) with y in * by lia. split.
    + apply Hin. replace (y + 1 - 1) with y by lia. lia.
    + intros fy' H'. apply Hin in H'. apply (Huniq (y + 1) fy'); [|exact H'].
      replace (y + 1 - 1) with y by lia. lia.
Qed.

(** X3: [getFiscalYearEnd] is the midnight at which the last day of the
    fiscal year begins, and [isInFiscalYear] compares instants: a later
    instant of that last day is in no fiscal year. *)
Theorem last_day_after_midnight_is_in_no_fiscal_year fy time fy' :
  0 < time < msPerDay ->
  FiscalCalendar.isInFiscalYear calendar
    (FiscalCalendar.getFiscalYearEnd calendar fy + time) fy' = false.
Proof.
  intros Htime.
  rewrite isInFiscalYear_anchor, getFiscalYearEnd_anchor.
  apply andb_false_iff.
  destruct (Z.lt_trichotomy fy' fy) as [Hlt | [-> | Hgt]].
  - right. apply Z.leb_gt.
    assert (anchor fy' <= anchor fy).
    { pose proof (anchor_mono fy' fy Hlt). lia. }
    unfold MakeDate, msPerDay in *. lia.
  - right. apply Z.leb_gt. unfold MakeDate, msPerDay in *. lia.
  - left. apply Z.leb_gt.
    assert (anchor fy <= anchor (fy' - 1)).
    { destruct (Z.eq_dec (fy' - 1) fy) as [-> | E]; [lia|].
      pose proof (anchor_mono fy (fy' - 1) ltac:(lia)). lia. }
    unfold MakeDate, msPerDay in *. lia.
Qed.

Lemma convertToFiscalDate_offset fy off :
  0 <= off < anchor fy - anchor (fy - 1) ->
  FiscalCalendar.convertToFiscalDate calendar (MakeDate (anchor (fy - 1) + off) 0)
  = {| fiscalYear := fy + 1;
       fiscalPeriod := Z.max 1 (Z.min 13 (off / 28 + 1));
       fiscalWeek := Z.max 1 (Z.min 4 (Z.rem off 28 / 7 + 1));
       fiscalDay := Z.max 1 (Z.min 7 (Z.rem (Z.rem off 28) 7 + 1)) |}.
Proof.
  intros Hoff. unfold FiscalCalendar.convertToFiscalDate.
  set (D := anchor (fy - 1) + off).
  assert (Hstart : startOfDay (MakeDate D 0) = MakeDate D 0).
  { unfold startOfDay. rewrite TimeWithinDay_MakeDate by (unfold msPerDay; lia). lia. }
  rewrite Hstart. unfold calendar. rewrite calendar_anchor.
  pose proof (anchor_bounds month day Hmonth Hday (fy - 2)) as Hb2.
  pose proof (anchor_bounds month day Hmonth Hday (fy - 1)) as Hb1.
  pose proof (anchor_bounds month day Hmonth Hday fy) as Hb.
  cbv beta in Hb2, Hb1, Hb.
  fold (anchor (fy - 2)) in Hb2. fold (anchor (fy - 1)) in Hb1. fold (anchor fy) in Hb.
  replace (fy - 2 + 1) with (fy - 1) in Hb2 by lia.
  replace (fy - 1 + 1) with fy in Hb1 by lia.
  assert (Hdiff : forall a b, (getTime (MakeDate a 0) - getTime (MakeDate b 0))
                              / (1000 * 60 * 60 * 24) = a - b).
  { intros a b. unfold getTime, MakeDate, msPerDay. Z.div_mod_to_equations; lia. }
  assert (Hcmp' : forall a b, (MakeDate a 0 <? MakeDate b 0) = (a <? b)).
  { intros a b. unfold MakeDate, msPerDay.
    destruct (Z.ltb_spec a b), (Z.ltb_spec (a * 86400000 + 0) (b * 86400000 + 0)); lia. }
  assert (Hset : forall y y', setFullYear (MakeDate (anchor y) 0) y'
                              = MakeDate (anchor y') 0).
  { intros y y'. exact (setFullYear_anchor month day Hmonth Hday y y'). }
  change (MakeDay 2024 (month - 1) day) with (anchor 2024).
  assert (Hyear : getFullYear (MakeDate D 0) = fy - 1 \/ getFullYear (MakeDate D 0) = fy).
  { unfold getFullYear, YearFromTime. rewrite Day_MakeDate by (unfold msPerDay; lia).
    destruct (Z.lt_ge_cases D (DayFromYear fy)).
    - left. apply YearFromDay_unique. replace (fy - 1 + 1) with fy by lia. unfold D in *. lia.
    - right. apply YearFromDay_unique. unfold D in *. lia. }
  destruct Hyear as [-> | ->].
  - rewrite !Hset, Hcmp', MakeDate_le.
    replace (fy - 1 - 1) with (fy - 2) by lia.
    destruct (Z.ltb_spec D (anchor (fy - 2))) as [Hbad | _]; [unfold D in Hbad; lia|].
    destruct (Z.leb_spec (anchor (fy - 1)) D) as [_ | Hbad]; [|unfold D in Hbad; lia].
    rewrite Hdiff. unfold D. replace (anchor (fy - 1) + off - anchor (fy - 1)) with off by lia.
    f_equal. lia.
  - rewrite !Hset, Hcmp', MakeDate_le.
    destruct (Z.ltb_spec D (anchor (fy - 1))) as [Hbad | _]; [unfold D in Hbad; lia|].
    destruct (Z.leb_spec (anchor fy) D) as [Hbad | _]; [unfold D in Hbad; lia|].
    rewrite Hdiff. unfold D. replace (anchor (fy - 1) + off - anchor (fy - 1)) with off by lia.
    reflexivity.
Qed.

Lemma addDays_start fy n :
  addDays (FiscalCalendar.getFiscalYearStart calendar fy) n
  = MakeDate (anchor (fy - 1) + n) 0.
Proof. now rewrite getFiscalYearStart_anchor, addDays_spec, MakeDate_add_days. Qed.


(** X5: in a time zone without daylight saving, which is the convention
    for [Date] here, [getCorrespondingDateLastYear] returns, for the
    calendar date of every fiscal coordinate, the date itself, not a date
    of the year before: the fiscal year that [convertToFiscalDate] returns
    is one too large, and one year is subtracted.  (Where the clocks
    change, the number of days between two local midnights can come out
    one short, and the result is then the day before.) *)
Theorem corresponding_date_last_year_is_the_date_itself fy p w d :
  1 <= p <= 13 -> 1 <= w <= 4 -> 1 <= d <= 7 ->
  let date := FiscalCalendar.convertToCalendarDate calendar fy p w d in
  FiscalCalendar.getCorrespondingDateLastYear calendar date = date.
Proof.
  intros Hp Hw Hd date. unfold date, FiscalCalendar.getCorrespondingDateLastYear.
  unfold calendar. rewrite (convertToCalendarDate_anchor month day Hmonth Hday fy p w d).
  set (off := (p - 1) * 28 + (w - 1) * 7 + (d - 1)).
  rewrite (convertToFiscalDate_anchor month day Hmonth Hday fy off) by (unfold off; lia).
  cbn [fiscalYear fiscalPeriod fiscalWeek fiscalDay].
  rewrite convertToCalendarDate_anchor by assumption.
  assert (H1 : off / 28 = p - 1) by (unfold off; Z.div_mod_to_equations; lia).
  assert (H2 : Z.rem off 28 = (w - 1) * 7 + (d - 1)).
  { rewrite Z.rem_mod_nonneg by (unfold off; lia). unfold off. Z.div_mod_to_equations; lia. }
  assert (H3 : ((w - 1) * 7 + (d - 1)) / 7 = w - 1) by (Z.div_mod_to_equations; lia).
  assert (H4 : Z.rem ((w - 1) * 7 + (d - 1)) 7 = d - 1).
  { rewrite Z.rem_mod_nonneg by lia. Z.div_mod_to_equations; lia. }
  rewrite H1, H2, H3, H4.
  replace (fy + 1 - 1 - 1) with (fy - 1) by lia. f_equal. unfold off. lia.
Qed.

(** X6: [getFiscalPeriodDates] lists the 28 consecutive days that begin
    with week 1 day 1 of the period, in order, and the next period begins
    on the day after the last of them. *)
Theorem fiscal_period_is_28_consecutive_days fy p :
  let first := FiscalCalendar.convertToCalendarDate calendar fy p 1 1 in
  FiscalCalendar.getFiscalPeriodDates calendar fy p
  = map (fun i => addDays first (Z.of_nat i)) (seq 0 28)
  /\ FiscalCalendar.convertToCalendarDate calendar fy (p + 1) 1 1 = addDays first 28.
Proof.
  intros first. unfold first, FiscalCalendar.getFiscalPeriodDates.
  cbn [flat_map map app seq]. unfold calendar.
  rewrite !(convertToCalendarDate_anchor month day Hmonth Hday).
  rewrite !addDays_spec, !MakeDate_add_days.
  split; [repeat (apply (f_equal2 cons); [f_equal; lia|]); reflexivity | f_equal; lia].
Qed.

End FiscalYears.

(** The last day of period 13 of fiscal year 2025, in the default calendar. *)
Lemma fiscal_date_lies_in_its_fiscal_year_witness :
  FiscalCalendar.isInFiscalYear defaultCalendar
    (FiscalCalendar.convertToCalendarDate defaultCalendar 2025 13 4 7) 2025 = true.
Proof.
  apply (fiscal_date_lies_in_its_fiscal_year 9 2 ltac:(lia) ltac:(lia) 2025 13 4 7); lia.
Defined.

(** 1 September 2025, the day before the default fiscal year starts. *)
Lemma midnight_belongs_to_one_fiscal_year_witness :
  exists fy,
    FiscalCalendar.isInFiscalYear defaultCalendar (new_Date 2025 8 1) fy = true
    /\ forall fy',
         FiscalCalendar.isInFiscalYear defaultCalendar (new_Date 2025 8 1) fy' = true ->
         fy' = fy.
Proof.
  apply (midnight_belongs_to_one_fiscal_year 9 2 ltac:(lia) ltac:(lia) (new_Date 2025 8 1)).
  reflexivity.
Defined.

(** Noon of the last day of fiscal year 2025. *)
Lemma last_day_after_midnight_is_in_no_fiscal_year_witness :
  FiscalCalendar.isInFiscalYear defaultCalendar
    (FiscalCalendar.getFiscalYearEnd defaultCalendar 2025 + 12 * 3600000) 2025 = false.
Proof.
  apply (last_day_after_midnight_is_in_no_fiscal_year 9 2 ltac:(lia) ltac:(lia)
           2025 (12 * 3600000) 2025).
  unfold msPerDay. lia.
Defined.


(** Period 3, week 2, day 5 of fiscal year 2025. *)
Lemma corresponding_date_last_year_is_the_date_itself_witness :
  let date := FiscalCalendar.convertToCalendarDate defaultCalendar 2025 3 2 5 in
  FiscalCalendar.getCorrespondingDateLastYear defaultCalendar date = date.
Proof.
  apply (corresponding_date_last_year_is_the_date_itself 9 2 ltac:(lia) ltac:(lia)
           2025 3 2 5); lia.
Defined.

(** Period 13 of fiscal year 2025. *)
Lemma fiscal_period_is_28_consecutive_days_witness :
  let first := FiscalCalendar.convertToCalendarDate defaultCalendar 2025 13 1 1 in
  FiscalCalendar.getFiscalPeriodDates defaultCalendar 2025 13
  = map (fun i => addDays first (Z.of_nat i)) (seq 0 28)
  /\ FiscalCalendar.convertToCalendarDate defaultCalendar 2025 14 1 1 = addDays first 28.
Proof.
  apply (fiscal_period_is_28_consecutive_days 9 2 ltac:(lia) ltac:(lia) 2025 13).
Defined.

Lemma ceilZ_unique (x : R) (z : Z) : (x <= IZR z < x + 1)%R -> Real.ceilZ x = z.
Proof.
  intros [Hle Hlt]. destruct (ceilZ_bounds x) as [Hle' Hlt'].
  assert (H1 : (IZR z < IZR (Real.ceilZ x) + 1)%R) by lra.
  assert (H2 : (IZR (Real.ceilZ x) < IZR z + 1)%R) by lra.
  rewrite <- plus_IZR in H1, H2. apply lt_IZR in H1, H2. lia.
Qed.

(** X7: in exact arithmetic the quarter of period [p], for [p] from 1 to
    13, is [(p + 2) / 3] rounded down: a number from 1 to 5, and 5 for
    period 13 only. *)
Theorem fiscal_quarter_of_period (p : Z) :
  1 <= p <= 13 ->
  FiscalCalendar.getFiscalQuarter (IZR p) = IZR ((p + 2) / 3)
  /\ 1 <= (p + 2) / 3 <= 5
  /\ ((p + 2) / 3 = 5 <-> p = 13).
Proof.
  intros Hp. split; [|split; [|split; intros]; Z.div_mod_to_equations; lia].
  unfold FiscalCalendar.getFiscalQuarter. cbn. unfold Real.ceil. f_equal.
  apply ceilZ_unique.
  assert (H3 : p <= 3 * ((p + 2) / 3) < p + 3) by (Z.div_mod_to_equations; lia).
  destruct H3 as [Hlo Hhi].
  apply IZR_le in Hlo. apply IZR_lt in Hhi.
  rewrite mult_IZR in Hlo, Hhi. rewrite plus_IZR in Hhi.
  split; lra.
Qed.

(** Period 13 is in a fifth quarter. *)
Lemma fiscal_quarter_of_period_witness :
  FiscalCalendar.getFiscalQuarter (IZR 13) = IZR ((13 + 2) / 3)
  /\ 1 <= (13 + 2) / 3 <= 5
  /\ ((13 + 2) / 3 = 5 <-> 13 = 13).
Proof.
  apply (fiscal_quarter_of_period 13). lia.
Defined.

(** ** Floating holidays *)

Lemma monthStart_length l m :
  0 <= m <= 11 -> 28 <= monthStart l (m + 1) - monthStart l m <= 31.
Proof.
  intros Hm.
  assert (m = 0 \/ m = 1 \/ m = 2 \/ m = 3 \/ m = 4 \/ m = 5 \/ m = 6 \/ m = 7
          \/ m = 8 \/ m = 9 \/ m = 10 \/ m = 11) as Hc by lia.
  destruct l; repeat (destruct Hc as [-> | Hc]; [simpl; lia|]); subst; simpl; lia.
Qed.

(** The civil date of midnight on day [d] of a month, for a day that the
    month has. *)
Lemma civil_of_midnight y m d :
  0 <= m <= 11 -> 1 <= d <= monthStart (isLeapYear y) (m + 1) - monthStart (isLeapYear y) m ->
  let t := MakeDate (MakeDay y m d) 0 in
  getFullYear t = y /\ getMonth t = m /\ getDate t = d /\ TimeWithinDay t = 0.
Proof.
  intros Hm Hd t.
  destruct (civil_of_MakeDate y m d 0) as (Hy & Hmo & Hda); [lia | lia | lia | unfold msPerDay; lia |].
  repeat split; try assumption.
  unfold t. apply TimeWithinDay_MakeDate. unfold msPerDay; lia.
Qed.

Lemma WeekDay_range t : 0 <= WeekDay t <= 6.
Proof. unfold WeekDay. Z.div_mod_to_equations; lia. Qed.

(** The n-th weekday of a month is that weekday, in that month, among
    the days 7n-6 to 7n. *)
Lemma getNthDayOfWeekInMonth_spec year month dayOfWeek occurrence :
  100 <= year -> 0 <= month <= 11 -> 0 <= dayOfWeek <= 6 -> 1 <= occurrence <= 4 ->
  let date := HolidayEngine.getNthDayOfWeekInMonth year month dayOfWeek occurrence in
  getDay date = dayOfWeek
  /\ getFullYear date = year
  /\ getMonth date = month
  /\ 7 * (occurrence - 1) < getDate date <= 7 * occurrence.
Proof.
  intros Hy Hm Hdow Hocc date.
  set (firstDay := MakeDate (MakeDay year month 1) 0).
  pose proof (WeekDay_range firstDay) as Hwd. set (wd := WeekDay firstDay) in *.
  set (k := (dayOfWeek - wd + 7) mod 7 + (occurrence - 1) * 7).
  assert (Hk : 7 * (occurrence - 1) <= k <= 7 * (occurrence - 1) + 6).
  { unfold k. Z.div_mod_to_equations; lia. }
  assert (Hdate : date = firstDay + k * msPerDay).
  { unfold date, HolidayEngine.getNthDayOfWeekInMonth.
    rewrite new_Date_regular by (destruct (Z.leb_spec year 99); [lia | apply andb_false_r]).
    fold firstDay. unfold getDay. fold wd.
    rewrite Z.rem_mod_nonneg by lia. apply addDays_spec. }
  clearbody date. subst date.
  split.
  - unfold getDay. rewrite WeekDay_add_days. fold wd. unfold k.
    Z.div_mod_to_equations; lia.
  - unfold firstDay. rewrite MakeDate_add_days, <- MakeDay_date.
    pose proof (monthStart_length (isLeapYear year) month Hm) as Hlen.
    destruct (civil_of_midnight year month (1 + k) Hm ltac:(lia)) as (H1 & H2 & H3 & _).
    rewrite H1, H2, H3. repeat split; lia.
Qed.

(** The last weekday of a month is that weekday, in that month, and a
    week later the month is over. *)
Lemma getLastDayOfWeekInMonth_spec year month dayOfWeek :
  100 <= year -> 0 <= month <= 11 -> 0 <= dayOfWeek <= 6 ->
  let date := HolidayEngine.getLastDayOfWeekInMonth year month dayOfWeek in
  getDay date = dayOfWeek
  /\ getFullYear date = year
  /\ getMonth date = month
  /\ (getMonth (addDays date 7) =? month) = false.
Proof.
  intros Hy Hm Hdow date.
  set (lastDay := MakeDate (MakeDay year (month + 1) 0) 0).
  pose proof (WeekDay_range lastDay) as Hwd. set (wd := WeekDay lastDay) in *.
  set (j := (wd - dayOfWeek + 7) mod 7).
  assert (Hj : 0 <= j <= 6) by (unfold j; Z.div_mod_to_equations; lia).
  assert (Hdate : date = lastDay + - j * msPerDay).
  { unfold date, HolidayEngine.getLastDayOfWeekInMonth.
    rewrite new_Date_regular by (destruct (Z.leb_spec year 99); [lia | apply andb_false_r]).
    fold lastDay. unfold getDay. fold wd.
    rewrite Z.rem_mod_nonneg by lia. apply addDays_spec. }
  clearbody date. subst date.
  rewrite addDays_spec.
  pose proof (monthStart_length (isLeapYear year) month Hm) as Hlen.
  set (len := monthStart (isLeapYear year) (month + 1) - monthStart (isLeapYear year) month) in *.
  assert (Hlast : MakeDay year (month + 1) 0 = MakeDay year month len).
  { rewrite MakeDay_last, MakeDay_month by lia. unfold len. lia. }
  split.
  - unfold getDay. rewrite WeekDay_add_days. fold wd. unfold j.
    Z.div_mod_to_equations; lia.
  - unfold lastDay. rewrite Hlast, MakeDate_add_days, <- MakeDay_date.
    destruct (civil_of_midnight year month (len + - j) Hm ltac:(fold len; lia))
      as (H1 & H2 & H3 & _).
    rewrite H1, H2. split; [reflexivity|]. split; [reflexivity|].
    rewrite MakeDate_add_days, <- MakeDay_date.
    apply Z.eqb_neq.
    destruct (Z.eq_dec month 11) as [-> | Hne].
    + assert (Hnext : MakeDay year 11 (len + - j + 7) = MakeDay (year + 1) 0 (7 - j)).
      { rewrite !MakeDay_month by lia. rewrite DayFromYear_step. unfold len.
        destruct (isLeapYear year), (isLeapYear (year + 1)); simpl; lia. }
      rewrite Hnext.
      pose proof (monthStart_length (isLeapYear (year + 1)) 0 ltac:(lia)).
      destruct (civil_of_midnight (year + 1) 0 (7 - j) ltac:(lia) ltac:(lia)) as (_ & H2' & _).
      rewrite H2'. lia.
    + assert (Hnext : MakeDay year month (len + - j + 7) = MakeDay year (month + 1) (7 - j)).
      { rewrite !MakeDay_month by lia. unfold len. lia. }
      rewrite Hnext.
      pose proof (monthStart_length (isLeapYear year) (month + 1) ltac:(lia)).
      destruct (civil_of_midnight year (month + 1) (7 - j) ltac:(lia) ltac:(lia)) as (_ & H2' & _).
      rewrite H2'. lia.
Qed.

Ltac evaluate f :=
  repeat match goal with
         | |- context [f ?s] =>
             let v := eval vm_compute in (f s) in change (f s) with v
         end.

Lemma toLowerCase_truthy (rule lower : string) :
  toLowerCase rule = lower -> strTruthy lower = true -> strTruthy rule = true.
Proof. intros <-. now destruct rule. Qed.

Section FloatingRules.
Context {A : Type} `{Number A}.
Variables (h : Holiday.t A) (year month : Z) (rule : string).
Hypothesis Hyear : 100 <= year.
Hypothesis Htype : Holiday.type h = floating.
Hypothesis Hmonth : Holiday.month h = Some month.
Hypothesis Hrange : 1 <= month <= 12.
Hypothesis Hrule : Holiday.rule h = Some rule.

Lemma calculateHolidayDate_floating (lower : string) :
  toLowerCase rule = lower -> strTruthy lower = true ->
  HolidayEngine.calculateHolidayDate h year
  = match HolidayEngine.matchRule lower with
    | None => None
    | Some (occurrence, dayName) =>
        let targetDayOfWeek := HolidayEngine.getDayOfWeekNumber dayName in
        if String.eqb occurrence "last" then
          Some (HolidayEngine.getLastDayOfWeekInMonth year (month - 1) targetDayOfWeek)
        else
          Some (HolidayEngine.getNthDayOfWeekInMonth year (month - 1) targetDayOfWeek
                  (HolidayEngine.getOccurrenceNumber occurrence))
    end.
Proof.
  intros Hlower Htruthy.
  unfold HolidayEngine.calculateHolidayDate. rewrite Htype.
  unfold HolidayEngine.calculateFloatingHoliday. rewrite Hrule, Hmonth, Hlower.
  rewrite (toLowerCase_truthy rule lower Hlower Htruthy).
  destruct (Z.eqb_spec month 0); [lia|]. reflexivity.
Qed.

(** X8: a floating holiday of a month 1-12 whose rule reads, in lower
    case, an ordinal from first to fourth and the name of a day, has a
    date in every year from 100 on: in that year and month, on that day of
    the week, and within the days 1-7, 8-14, 15-21 or 22-28 of the month
    for the first, second, third or fourth. *)
Theorem nth_weekday_rule_falls_on_its_weekday (i j : nat) (occurrence dayName : string) :
  nth_error occurrences i = Some occurrence ->
  nth_error HolidayEngine.dayNames j = Some dayName ->
  toLowerCase rule = occurrence +:+ " " +:+ dayName ->
  exists date,
    HolidayEngine.calculateHolidayDate h year = Some date
    /\ getDay date = Z.of_nat j
    /\ getFullYear date = year
    /\ getMonth date = month - 1
    /\ 7 * Z.of_nat i < getDate date <= 7 * (Z.of_nat i + 1).
Proof.
  intros Hi Hj Hlower.
  assert (Hi4 : (i < length occurrences)%nat)
    by (apply nth_error_Some; rewrite Hi; discriminate).
  assert (Hj7 : (j < length HolidayEngine.dayNames)%nat)
    by (apply nth_error_Some; rewrite Hj; discriminate).
  cbn in Hi4, Hj7.
  destruct i as [|[|[|[|i]]]]; try lia;
    destruct j as [|[|[|[|[|[|[|j]]]]]]]; try lia;
    injection Hi as <-; injection Hj as <-;
    rewrite (calculateHolidayDate_floating _ Hlower eq_refl);
    evaluate HolidayEngine.matchRule; cbv beta iota zeta;
    evaluate HolidayEngine.getDayOfWeekNumber;
    evaluate HolidayEngine.getOccurrenceNumber;
    (eexists; split; [reflexivity|]);
    match goal with
    | |- context [HolidayEngine.getNthDayOfWeekInMonth ?y ?m ?w ?n] =>
        destruct (getNthDayOfWeekInMonth_spec y m w n) as (H1 & H2 & H3 & H4);
          [lia | lia | lia | lia |];
          cbv zeta in H1, H2, H3, H4; rewrite H1, H2, H3; repeat split; lia
    end.
Qed.

(** X9: a floating holiday of a month 1-12 whose rule reads, in lower
    case, [last] and the name of a day, has a date in every year from 100
    on: in that year and month, on that day of the week, and a week later
    the month is over. *)
Theorem last_weekday_rule_falls_on_its_weekday (j : nat) (dayName : string) :
  nth_error HolidayEngine.dayNames j = Some dayName ->
  toLowerCase rule = "last " +:+ dayName ->
  exists date,
    HolidayEngine.calculateHolidayDate h year = Some date
    /\ getDay date = Z.of_nat j
    /\ getFullYear date = year
    /\ getMonth date = month - 1
    /\ (getMonth (addDays date 7) =? month - 1) = false.
Proof.
  intros Hj Hlower.
  assert (Hj7 : (j < length HolidayEngine.dayNames)%nat)
    by (apply nth_error_Some; rewrite Hj; discriminate).
  cbn in Hj7.
  destruct j as [|[|[|[|[|[|[|j]]]]]]]; try lia;
    injection Hj as <-;
    rewrite (calculateHolidayDate_floating _ Hlower eq_refl);
    evaluate HolidayEngine.matchRule; cbv beta iota zeta;
    evaluate HolidayEngine.getDayOfWeekNumber;
    (eexists; split; [reflexivity|]);
    match goal with
    | |- context [HolidayEngine.getLastDayOfWeekInMonth ?y ?m ?w] =>
        destruct (getLastDayOfWeekInMonth_spec y m w) as (H1 & H2 & H3 & H4);
          [lia | lia | lia |];
          cbv zeta in H1, H2, H3, H4; rewrite H1, H2, H3; repeat split; (lia || exact H4)
    end.
Qed.

End FloatingRules.

(** Thanksgiving 2025. *)
Lemma nth_weekday_rule_falls_on_its_weekday_witness :
  exists date,
    HolidayEngine.calculateHolidayDate (thanksgiving (A:=float)) 2025 = Some date
    /\ getDay date = 4
    /\ getFullYear date = 2025
    /\ getMonth date = 10
    /\ 21 < getDate date <= 28.
Proof.
  apply (nth_weekday_rule_falls_on_its_weekday (thanksgiving (A:=float)) 2025 11
           "fourth thursday" ltac:(lia) eq_refl eq_refl ltac:(lia) eq_refl
           3 4 "fourth" "thursday" eq_refl eq_refl eq_refl).
Defined.

(** Memorial Day 2025. *)
Lemma last_weekday_rule_falls_on_its_weekday_witness :
  exists date,
    HolidayEngine.calculateHolidayDate (memorialDay (A:=float)) 2025 = Some date
    /\ getDay date = 1
    /\ getFullYear date = 2025
    /\ getMonth date = 4
    /\ (getMonth (addDays date 7) =? 4) = false.
Proof.
  apply (last_weekday_rule_falls_on_its_weekday (memorialDay (A:=float)) 2025 5
           "last monday" ltac:(lia) eq_refl eq_refl ltac:(lia) eq_refl
           1 "monday" eq_refl eq_refl).
Defined.

(** ** The impact window *)

Section ImpactWindow.
Context {A : Type} `{Number A}.

(** A call without a year considers the holidays of the year of the date. *)
Lemma getHolidayImpactFactor_default (e : HolidayEngine.t A) (date : Date) :
  HolidayEngine.getHolidayImpactFactor e date None
  = let affectedHolidays :=
      HolidayEngine.findNearbyHolidays date
        (HolidayEngine.getHolidaysForYear e (getFullYear date)) in
    HolidayImpact.mk
      (HolidayEngine.calculateCombinedImpact affectedHolidays)
      affectedHolidays
      (HolidayEngine.generateImpactExplanation affectedHolidays).
Proof. reflexivity. Qed.

Lemma getHolidaysForYear_single (h : Holiday.t A) (year : Z) (holidayDate : Date) :
  Holiday.isActive h = true ->
  HolidayEngine.calculateHolidayDate h year = Some holidayDate ->
  HolidayEngine.getHolidaysForYear (HolidayEngine.constructor [h]) year
  = [HolidayInstance.mk h holidayDate year].
Proof.
  intros Hactive Hdate. unfold HolidayEngine.getHolidaysForYear, HolidayEngine.constructor.
  cbn [length Nat.ltb Nat.leb HolidayEngine.holidays List.filter].
  rewrite Hactive. cbn [flat_map]. now rewrite Hdate.
Qed.

Lemma findNearbyHolidays_single (h : Holiday.t A) (year : Z) (holidayDate : Date) (k : Z) :
  HolidayEngine.findNearbyHolidays (addDays holidayDate k)
    [HolidayInstance.mk h holidayDate year]
  = if (- Holiday.daysAfter h <=? k) && (k <=? Holiday.daysBefore h)
    then [AffectedHoliday.mk h k
            (Holiday.salesMultiplier h
             * Math_max (ofZ 0)
                 (ofZ 1 - ofZ (Z.abs k)
                          / ofZ (Z.max (Holiday.daysBefore h) (Holiday.daysAfter h))))%num]
    else [].
Proof.
  unfold HolidayEngine.findNearbyHolidays.
  cbn [flat_map HolidayInstance.holiday HolidayInstance.date].
  assert (Hdiff : (getTime (addDays holidayDate k) - getTime holidayDate)
                  / (1000 * 60 * 60 * 24) = k).
  { rewrite addDays_spec. unfold getTime, msPerDay. Z.div_mod_to_equations; lia. }
  rewrite Hdiff.
  destruct ((- Holiday.daysAfter h <=? k) && (k <=? Holiday.daysBefore h)); reflexivity.
Qed.


Lemma getHolidaysForYear_In (e : HolidayEngine.t A) (year : Z) (i : HolidayInstance.t A) :
  In i (HolidayEngine.getHolidaysForYear e year) ->
  In (HolidayInstance.holiday i) (HolidayEngine.holidays e)
  /\ Holiday.isActive (HolidayInstance.holiday i) = true.
Proof.
  unfold HolidayEngine.getHolidaysForYear. rewrite in_flat_map.
  intros (h & Hh & Hi). apply filter_In in Hh as [Hin Hactive].
  destruct (HolidayEngine.calculateHolidayDate h year); [|destruct Hi].
  destruct Hi as [<- | []]. now split.
Qed.

(** X12: the affected holidays are listed by ascending absolute distance;
    each is an active holiday of the engine, and its distance is within
    the holiday's window. *)
Theorem affected_holidays_are_nearest_first
    (e : HolidayEngine.t A) (date : Date) (year : option Z) :
  let affected :=
    HolidayImpact.affectedHolidays (HolidayEngine.getHolidayImpactFactor e date year) in
  StronglySorted (byKey (fun a => Z.abs (AffectedHoliday.distance a))) affected
  /\ Forall
       (fun a =>
          In (AffectedHoliday.holiday a) (HolidayEngine.holidays e)
          /\ Holiday.isActive (AffectedHoliday.holiday a) = true
          /\ - Holiday.daysAfter (AffectedHoliday.holiday a)
             <= AffectedHoliday.distance a
             <= Holiday.daysBefore (AffectedHoliday.holiday a))
       affected.
Proof.
  intros affected. unfold affected, HolidayEngine.getHolidayImpactFactor.
  cbn [HolidayImpact.affectedHolidays].
  set (targetYear := match year with Some y => _ | None => _ end).
  unfold HolidayEngine.findNearbyHolidays.
  split; [apply sortByKey_sorted|].
  apply List.Forall_forall. intros a Ha.
  apply sortByKey_In in Ha. apply in_flat_map in Ha as (i & Hi & Ha).
  apply getHolidaysForYear_In in Hi as [Hin Hactive].
  destruct (Z.leb_spec (- Holiday.daysAfter (HolidayInstance.holiday i))
              ((getTime date - getTime (HolidayInstance.date i)) / (1000 * 60 * 60 * 24)));
    [|destruct Ha].
  destruct (Z.leb_spec ((getTime date - getTime (HolidayInstance.date i))
                        / (1000 * 60 * 60 * 24))
              (Holiday.daysBefore (HolidayInstance.holiday i))); [|destruct Ha].
  destruct Ha as [<- | []]. cbn. repeat split; assumption.
Qed.

End ImpactWindow.


Lemma calculateCombinedImpact_zero (h : Holiday.t R) (k : Z) :
  HolidayEngine.calculateCombinedImpact [AffectedHoliday.mk h k 0%R] = (1 / 10)%R.
Proof.
  unfold HolidayEngine.calculateCombinedImpact.
  cbn [length Nat.eqb fold_left AffectedHoliday.impact].
  unfold lit. cbn [Qnum Qden ofZ nadd nsub nmul ndiv nltb Math_abs Math_sqrt Math_max Math_min real].
  replace (0 - 10 / 10)%R with (-1)%R by lra.
  replace (Rabs (-1)) with 1%R by (rewrite Rabs_left; lra).
  replace (0 + 1)%R with 1%R by lra.
  rewrite sqrt_1.
  destruct (Real_ltb_spec 0 1) as [_ | Hbad]; [|lra].
  rewrite Rmin_right by lra. rewrite Rmax_left by lra. reflexivity.
Qed.



(** Across the turn of the year, on binary64: 1 January 2026 is one day
    after New Year's Eve, whose window reaches one day further, but the
    call considers New Year's Eve of 2026 only and reports no holiday. *)
Example new_year_is_not_affected_by_new_years_eve :
  let e := HolidayEngine.constructor [newYearsEve (A:=float)] in
  let r := HolidayEngine.getHolidayImpactFactor e (new_Date 2026 0 1) None in
  new_Date 2026 0 1 = addDays (new_Date 2025 11 31) 1
  /\ Holiday.daysBefore (newYearsEve (A:=float)) = 1
  /\ HolidayEngine.calculateHolidayDate (newYearsEve (A:=float)) 2026
     = Some (new_Date 2026 11 31)
  /\ HolidayImpact.affectedHolidays r = []
  /\ HolidayImpact.factor r = 1%float
  /\ HolidayImpact.explanation r = "No holiday impact"%string.
Proof. vm_compute. repeat split. Qed.

(** ** The rule set *)

Section RuleSet.
Context {A : Type} `{Number A}.

Lemma updateHoliday_cons (h : Holiday.t A) (hs : list (Holiday.t A)) (id : string)
    (updates : HolidayUpdates.t A) :
  HolidayEngine.holidays
    (HolidayEngine.updateHoliday (HolidayEngine.mk (h :: hs)) id updates)
  = if String.eqb (Holiday.id h) id then HolidayEngine.spread h updates :: hs
    else h :: HolidayEngine.holidays
                (HolidayEngine.updateHoliday (HolidayEngine.mk hs) id updates).
Proof.
  unfold HolidayEngine.updateHoliday. cbn [HolidayEngine.holidays list_find].
  destruct (String.eqb_spec (Holiday.id h) id) as [Heq | Hne].
  - rewrite decide_True by assumption. reflexivity.
  - rewrite decide_False by assumption.
    destruct (list_find _ hs) as [[index holiday]|]; reflexivity.
Qed.

Lemma removeHoliday_absent (hs : list (Holiday.t A)) (id : string) :
  ~ In id (map (fun h => Holiday.id h) hs) ->
  List.filter (fun h => negb (String.eqb (Holiday.id h) id)) hs = hs.
Proof.
  induction hs as [|h hs IH]; [reflexivity|]. cbn. intros Hnot.
  destruct (String.eqb_spec (Holiday.id h) id) as [Heq | Hne]; [tauto|].
  cbn. f_equal. apply IH. tauto.
Qed.

(** X13: when the ids of the holidays are distinct, switching a holiday
    off with [updateHoliday] gives the same holidays of every year as
    removing it with [removeHoliday]. *)
Theorem deactivating_a_holiday_removes_it (e : HolidayEngine.t A) (id : string) (year : Z) :
  List.NoDup (map (fun h => Holiday.id h) (HolidayEngine.holidays e)) ->
  HolidayEngine.getHolidaysForYear (HolidayEngine.updateHoliday e id deactivation) year
  = HolidayEngine.getHolidaysForYear (HolidayEngine.removeHoliday e id) year.
Proof.
  destruct e as [hs]. cbn [HolidayEngine.holidays]. intros Hnodup.
  unfold HolidayEngine.getHolidaysForYear, HolidayEngine.removeHoliday.
  cbn [HolidayEngine.holidays].
  induction hs as [|h hs IH]; [reflexivity|].
  cbn [map] in Hnodup. apply List.NoDup_cons_iff in Hnodup as [Hfresh Hnodup].
  rewrite updateHoliday_cons. cbn [List.filter].
  destruct (String.eqb_spec (Holiday.id h) id) as [Heq | Hne].
  - cbn [negb List.filter HolidayEngine.spread Holiday.isActive deactivation
         HolidayUpdates.isActive default].
    subst id. now rewrite removeHoliday_absent.
  - cbn [negb List.filter]. destruct (Holiday.isActive h); cbn [flat_map]; now rewrite IH.
Qed.

(** X14: removing the id of a holiday that was just added leaves the list
    that removing this id from the engine as it was leaves; if no holiday
    had this id, the engine is as it was before the holiday was added. *)
Theorem removing_an_added_holiday (e : HolidayEngine.t A) (h : Holiday.t A) :
  let e' := HolidayEngine.removeHoliday (HolidayEngine.addHoliday e h) (Holiday.id h) in
  HolidayEngine.holidays e'
  = HolidayEngine.holidays (HolidayEngine.removeHoliday e (Holiday.id h))
  /\ (forallb (fun h' => negb (String.eqb (Holiday.id h') (Holiday.id h)))
        (HolidayEngine.holidays e) = true ->
      e' = e).
Proof.
  intros e'. unfold e', HolidayEngine.removeHoliday, HolidayEngine.addHoliday.
  cbn [HolidayEngine.holidays]. rewrite List.filter_app. cbn [List.filter].
  rewrite String.eqb_refl. cbn [negb]. rewrite app_nil_r. split; [reflexivity|].
  intros Hfresh. destruct e as [hs]. cbn [HolidayEngine.holidays] in *. f_equal.
  induction hs as [|h' hs IH]; [reflexivity|]. cbn in *.
  apply andb_true_iff in Hfresh as [Hh Hhs]. rewrite Hh. f_equal. now apply IH.
Qed.

Lemma app_eq_nil_l {T : Type} (xs ys : list T) : xs ++ ys = [] -> xs = [] /\ ys = [].
Proof. destruct xs; [tauto | discriminate]. Qed.

Lemma invalidPart_false (z : option Z) (lo hi : Z) :
  0 < lo ->
  HolidayEngine.invalidPart z lo hi = false -> exists v, z = Some v /\ lo <= v <= hi.
Proof.
  unfold HolidayEngine.invalidPart, optTruthy. intros Hlo.
  destruct z as [v|]; [|discriminate]. intros Hvalid.
  apply orb_false_iff in Hvalid as [_ Hvalid]. apply orb_false_iff in Hvalid as [H1 H2].
  exists v. split; [reflexivity|]. apply Z.ltb_ge in H1, H2. lia.
Qed.

(** X15: a fixed holiday without validation errors has a month from 1 to
    12 and a day from 1 to 31, and a date in every year from 100 on:
    [new Date(year, month - 1, day)], which is a date of that year, also
    when the day is past the end of the month. *)
Theorem valid_fixed_holiday_has_a_date_every_year (h : Holiday.t A) (year : Z) :
  HolidayEngine.validateHoliday h = [] ->
  Holiday.type h = fixed ->
  100 <= year ->
  exists month day,
    Holiday.month h = Some month /\ 1 <= month <= 12
    /\ Holiday.day h = Some day /\ 1 <= day <= 31
    /\ HolidayEngine.calculateHolidayDate h year = Some (new_Date year (month - 1) day)
    /\ getFullYear (new_Date year (month - 1) day) = year.
Proof.
  unfold HolidayEngine.validateHoliday. intros Hvalid Htype Hyear.
  rewrite Htype in Hvalid.
  repeat match type of Hvalid with
         | (if ?b then _ else _) = [] => destruct b eqn:?
         | _ ++ [_] = [] => apply app_eq_nil_l in Hvalid as [_ Hbad]; discriminate Hbad
         end.
  match goal with H : HolidayEngine.invalidPart (Holiday.month h) _ _ = false |- _ =>
    apply invalidPart_false in H as (month & Hm & Hmonth); [|lia] end.
  match goal with H : HolidayEngine.invalidPart (Holiday.day h) _ _ = false |- _ =>
    apply invalidPart_false in H as (day & Hd & Hday); [|lia] end.
  exists month, day. repeat split; try assumption; try lia.
  - unfold HolidayEngine.calculateHolidayDate. rewrite Htype, Hm, Hd. cbn [optTruthy].
    destruct (Z.eqb_spec month 0); [lia|]. destruct (Z.eqb_spec day 0); [lia|]. reflexivity.
  - rewrite new_Date_regular by (destruct (Z.leb_spec year 99); [lia | apply andb_false_r]).
    unfold getFullYear, YearFromTime. rewrite Day_MakeDate by (unfold msPerDay; lia).
    apply YearFromDay_unique. rewrite MakeDay_month, DayFromYear_step by lia.
    pose proof (monthStart_bounds (isLeapYear year) (month - 1) ltac:(lia)) as [Hlo Hhi].
    assert (Hlast : monthStart (isLeapYear year) (month - 1) + 31
                    <= monthStart (isLeapYear year) 12).
    { assert (month - 1 = 0 \/ month - 1 = 1 \/ month - 1 = 2 \/ month - 1 = 3
              \/ month - 1 = 4 \/ month - 1 = 5 \/ month - 1 = 6 \/ month - 1 = 7
              \/ month - 1 = 8 \/ month - 1 = 9 \/ month - 1 = 10 \/ month - 1 = 11)
        as Hc by lia.
      destruct (isLeapYear year);
        repeat (destruct Hc as [-> | Hc]; [simpl; lia|]); rewrite Hc; simpl; lia. }
    destruct (isLeapYear year); simpl in *; lia.
Qed.

End RuleSet.

(** Thanksgiving, among the default holidays. *)
Lemma deactivating_a_holiday_removes_it_witness :
  let e := HolidayEngine.constructor (A:=float) [] in
  HolidayEngine.getHolidaysForYear (HolidayEngine.updateHoliday e "thanksgiving" deactivation)
    2025
  = HolidayEngine.getHolidaysForYear (HolidayEngine.removeHoliday e "thanksgiving") 2025.
Proof.
  apply (deactivating_a_holiday_removes_it (HolidayEngine.constructor (A:=float) [])
           "thanksgiving" 2025).
  simpl. repeat (apply List.NoDup_cons; [simpl; intuition discriminate|]). apply List.NoDup_nil.
Defined.

(** Christmas Day 2025. *)
Lemma valid_fixed_holiday_has_a_date_every_year_witness :
  exists month day,
    Holiday.month (christmas (A:=float)) = Some month
    /\ 1 <= month <= 12
    /\ Holiday.day (christmas (A:=float)) = Some day
    /\ 1 <= day <= 31
    /\ HolidayEngine.calculateHolidayDate (christmas (A:=float)) 2025
       = Some (new_Date 2025 (month - 1) day)
    /\ getFullYear (new_Date 2025 (month - 1) day) = 2025.
Proof.
  apply (valid_fixed_holiday_has_a_date_every_year (christmas (A:=float)) 2025).
  - vm_compute. reflexivity.
  - reflexivity.
  - lia.
Defined.

(** ** Forecaster *)

Lemma firstn_In {T : Type} (n : nat) (xs : list T) (x : T) : In x (firstn n xs) -> In x xs.
Proof.
  revert xs. induction n as [|n IH]; intros [|y xs]; cbn; try tauto.
  intros [-> | Hin]; [now left | right; now apply IH].
Qed.

Lemma StronglySorted_app {T : Type} (R : T -> T -> Prop) (xs ys : list T) :
  StronglySorted R (xs ++ ys) ->
  StronglySorted R xs /\ forall x y, In x xs -> In y ys -> R x y.
Proof.
  induction xs as [|z xs IH]; cbn; intros Hsorted.
  - split; [constructor | intros x y []].
  - apply StronglySorted_inv in Hsorted as [Hsorted Hall].
    destruct (IH Hsorted) as [Hxs Hcross]. rewrite List.Forall_forall in Hall. split.
    + constructor; [exact Hxs|]. apply List.Forall_forall. intros x Hx.
      apply Hall. apply in_or_app. now left.
    + intros x y [<- | Hx] Hy; [|now apply Hcross].
      apply Hall. apply in_or_app. now right.
Qed.

Section Forecaster.
Context {A : Type} `{Number A}.

(** X18: [getSameDayOfWeekData] returns at most 8 records, the newest
    first; they are records of the data on the target's day of the week,
    and a record on that day that is left out is not newer than any record
    kept. *)
Theorem same_weekday_data_is_the_eight_newest
    (itemData : list (ProcessedSalesData.t A)) (targetDate : Date) :
  let sameDay := DemandForecaster.getSameDayOfWeekData itemData targetDate in
  (length sameDay <= 8)%nat
  /\ StronglySorted
       (fun a b => ProcessedSalesData.calendarDate b <= ProcessedSalesData.calendarDate a)
       sameDay
  /\ (forall d, In d sameDay ->
        In d itemData /\ getDay (ProcessedSalesData.calendarDate d) = getDay targetDate)
  /\ (forall d d', In d itemData ->
        getDay (ProcessedSalesData.calendarDate d) = getDay targetDate ->
        ~ In d sameDay -> In d' sameDay ->
        ProcessedSalesData.calendarDate d <= ProcessedSalesData.calendarDate d').
Proof.
  intros sameDay. unfold sameDay, DemandForecaster.getSameDayOfWeekData.
  set (onDay := List.filter _ itemData).
  set (sorted := sortByKey DemandForecaster.byDateDescending onDay).
  assert (HonDay : forall d, In d onDay <->
            In d itemData /\ getDay (ProcessedSalesData.calendarDate d) = getDay targetDate).
  { intros d. unfold onDay. rewrite filter_In, Z.eqb_eq. tauto. }
  pose proof (sortByKey_sorted DemandForecaster.byDateDescending onDay) as Hsorted.
  fold sorted in Hsorted. rewrite <- (firstn_skipn 8 sorted) in Hsorted.
  apply StronglySorted_app in Hsorted as [Hfirst Hcross].
  split; [apply List.firstn_le_length|]. split; [|split].
  - eapply StronglySorted_ind with (P := StronglySorted _); [constructor | | exact Hfirst].
    intros a l Hl IH Hall. constructor; [exact IH|].
    eapply List.Forall_impl; [|exact Hall].
    intros b Hb. unfold byKey, DemandForecaster.byDateDescending, getTime in Hb. lia.
  - intros d Hd. apply HonDay. apply (sortByKey_In DemandForecaster.byDateDescending).
    now apply firstn_In in Hd.
  - intros d d' Hd Hday Hnot Hd'.
    assert (Hin : In d sorted).
    { apply sortByKey_In. apply HonDay. now split. }
    rewrite <- (firstn_skipn 8 sorted) in Hin. apply in_app_or in Hin as [Hin | Hin];
      [contradiction|].
    specialize (Hcross d' d Hd' Hin).
    unfold byKey, DemandForecaster.byDateDescending, getTime in Hcross. lia.
Qed.

Lemma forecastMultiDay_dates_acc (this : DemandForecaster.t A) (now : Date)
    (historicalData : list (ProcessedSalesData.t A)) (startDate : Date)
    (growthRate : A) (itemNumber : string) (indices : list nat)
    (acc : list (DailyForecast.t A) * A * A) :
  map (fun d => DailyForecast.date d)
    (fst (fst
       (fold_left
          (fun '(dailyForecasts, totalDemand, totalConfidence) i =>
             let targetDate := setDate startDate (getDate startDate + Z.of_nat i) in
             let forecast :=
               DemandForecaster.forecastDemand this now historicalData targetDate
                 growthRate itemNumber in
             let dailyForecast :=
               {| DailyForecast.date := targetDate;
                  DailyForecast.baseDemand := ForecastResult.baseDemand forecast;
                  DailyForecast.adjustedDemand := ForecastResult.adjustedDemand forecast;
                  DailyForecast.dateFactor :=
                    DemandForecaster.calculateDateFactor (ForecastResult.factors forecast);
                  DailyForecast.confidence := ForecastResult.confidence forecast;
                  DailyForecast.factors := ForecastResult.factors forecast |} in
             (dailyForecasts ++ [dailyForecast],
              (totalDemand + ForecastResult.adjustedDemand forecast)%num,
              (totalConfidence + ForecastResult.confidence forecast)%num))
          indices acc)))
  = map (fun d => DailyForecast.date d) (fst (fst acc))
    ++ map (fun i => startDate + Z.of_nat i * msPerDay) indices.
Proof.
  revert acc. induction indices as [|i indices IH]; intros [[dailyForecasts total] conf].
  - cbn. now rewrite app_nil_r.
  - cbn [fold_left]. rewrite IH. cbn [fst map]. rewrite map_app. cbn [map DailyForecast.date].
    rewrite <- app_assoc. cbn [app]. rewrite setDate_spec. do 3 f_equal. lia.
Qed.

(** X19: [forecastMultiDay] holds one forecast for each of the [days]
    consecutive days that begin with the start date, in order (none when
    [days] is not positive), and reports [days] as its horizon. *)
Theorem multi_day_forecast_covers_consecutive_days (this : DemandForecaster.t A) (now : Date)
    (historicalData : list (ProcessedSalesData.t A)) (startDate : Date) (days : Z)
    (growthRate : A) (itemNumber : string) :
  let demand :=
    DemandForecaster.forecastMultiDay this now historicalData startDate days growthRate
      itemNumber in
  map (fun d => DailyForecast.date d) (MultiDayDemand.dailyForecasts demand)
  = map (fun i => startDate + Z.of_nat i * msPerDay) (seq 0 (Z.to_nat days))
  /\ length (MultiDayDemand.dailyForecasts demand) = Z.to_nat days
  /\ MultiDayDemand.daysAhead demand = days.
Proof.
  intros demand.
  assert (Hdates : map (fun d => DailyForecast.date d) (MultiDayDemand.dailyForecasts demand)
                   = map (fun i => startDate + Z.of_nat i * msPerDay) (seq 0 (Z.to_nat days))).
  { unfold demand, DemandForecaster.forecastMultiDay.
    pose proof (forecastMultiDay_dates_acc this now historicalData startDate growthRate
                  itemNumber (seq 0 (Z.to_nat days)) ([], ofZ 0, ofZ 0)) as Hacc.
    destruct (fold_left _ _ _) as [[dailyForecasts total] conf].
    cbn [MultiDayDemand.dailyForecasts]. exact Hacc. }
  split; [exact Hdates|]. split.
  - rewrite <- (length_map (fun d => DailyForecast.date d)), Hdates, length_map.
    apply length_seq.
  - unfold demand, DemandForecaster.forecastMultiDay.
    destruct (fold_left _ _ _) as [[dailyForecasts total] conf]. reflexivity.
Qed.

End Forecaster.

Lemma calculateConfidence_range (now : Date) (itemData : list (ProcessedSalesData.t float))
    (targetDate : Date) (factors : ForecastFactors.t float) :
  let c := DemandForecaster.calculateConfidence now itemData targetDate factors in
  PrimFloat.leb 0.5 c = true /\ PrimFloat.leb c 1 = true.
Proof.
  unfold DemandForecaster.calculateConfidence. cbv zeta.
  repeat match goal with
         | |- context [if ?b then _ else _] => destruct b
         end;
    vm_compute; split; reflexivity.
Qed.

(** X16: on binary64, the confidence of [forecastDemand] is 0 for an item
    without records, and at least 0.5 and at most 1 for an item with
    records. *)
Theorem forecast_confidence_range (this : DemandForecaster.t float) (now : Date)
    (historicalData : list (ProcessedSalesData.t float)) (targetDate : Date)
    (growthRate : float) (itemNumber : string) :
  let c :=
    ForecastResult.confidence
      (DemandForecaster.forecastDemand this now historicalData targetDate growthRate
         itemNumber) in
  match List.filter (hasItemNumber itemNumber) historicalData with
  | [] => c = 0%float
  | _ :: _ => PrimFloat.leb 0.5 c = true /\ PrimFloat.leb c 1 = true
  end.
Proof.
  unfold DemandForecaster.forecastDemand.
  change (fun d : ProcessedSalesData.t float =>
            (ProcessedSalesData.itemNumber d =? itemNumber)%string)
    with (hasItemNumber (A:=float) itemNumber).
  destruct (List.filter (hasItemNumber itemNumber) historicalData) as [|d itemData];
    [reflexivity|].
  cbn [length Nat.eqb ForecastResult.confidence]. apply calculateConfidence_range.
Qed.

(** ** Forecaster, in exact arithmetic *)

Lemma lit_real (q : Q) : lit q = (IZR (Qnum q) / IZR (Zpos (Qden q)))%R.
Proof. reflexivity. Qed.

Lemma Math_pow_pos (n : nat) : (0 < Math_pow (lit 0.8 : R) n)%R.
Proof.
  induction n as [|n IH]; cbn [Math_pow]; [cbn; lra|].
  change (0 < lit 0.8 * Math_pow (lit 0.8 : R) n)%R.
  apply Rmult_lt_0_compat; [rewrite lit_real; cbn; lra | exact IH].
Qed.

(** An invariant of a loop over an array with its indices. *)
Lemma foldIndexed_invariant {S T : Type} (f : S -> T -> nat -> S) (P : nat -> S -> Prop)
    (xs : list T) (init : S) :
  (forall acc x i, In x xs -> P i acc -> P (Datatypes.S i) (f acc x i)) ->
  P O init ->
  P (length xs) (DemandForecaster.foldIndexed f xs init).
Proof.
  unfold DemandForecaster.foldIndexed. intros Hstep Hinit.
  assert (Hacc : forall ys acc i, (forall x, In x ys -> In x xs) -> P i acc ->
            let r := fold_left (fun '(acc, index) x => (f acc x index, Datatypes.S index))
                       ys (acc, i) in
            P (i + length ys)%nat (fst r)).
  { induction ys as [|y ys IH]; intros acc i Hincl Hacc; cbn [fold_left length].
    - cbn. now rewrite Nat.add_0_r.
    - replace (i + Datatypes.S (length ys))%nat with (Datatypes.S i + length ys)%nat by lia.
      apply IH; [intros x Hx; apply Hincl; now right|].
      apply Hstep; [apply Hincl; now left | exact Hacc]. }
  apply (Hacc xs init O); [tauto | exact Hinit].
Qed.

Section Units.
Variables (lo hi : R).

Let inRange (d : ProcessedSalesData.t R) : Prop :=
  (lo <= ProcessedSalesData.currentYearUnits d <= hi)%R.

Lemma calculateWeightedAverage_range (data : list (ProcessedSalesData.t R)) :
  data <> [] -> Forall inRange data ->
  (lo <= DemandForecaster.calculateWeightedAverage data <= hi)%R.
Proof.
  intros Hne Hall. unfold DemandForecaster.calculateWeightedAverage.
  destruct data as [|d data]; [contradiction|]. cbn [length Nat.eqb].
  set (P := fun (i : nat) (acc : R * R) =>
              (lo * snd acc <= fst acc <= hi * snd acc)%R
              /\ (0 <= snd acc)%R /\ ((0 < i)%nat -> 0 < snd acc)%R).
  match goal with
  | |- context [DemandForecaster.foldIndexed ?f ?xs ?init] =>
      pose proof (foldIndexed_invariant f P xs init) as Hinv
  end.
  destruct (DemandForecaster.foldIndexed _ _ _) as [ws tw].
  destruct Hinv as (Hr & _ & Hpos).
  - intros [ws0 tw0] x i Hx (Hr & Htw & _). unfold P. cbn [fst snd nadd nmul real].
    pose proof (Math_pow_pos i) as Hw. set (w := Math_pow (lit 0.8) i) in *.
    rewrite List.Forall_forall in Hall. specialize (Hall x Hx). unfold inRange in Hall.
    cbn [fst snd] in Hr, Htw. repeat split; try (intros _); nra.
  - unfold P. cbn. repeat split; try lra. intros Hbad. lia.
  - cbn [fst snd length] in *. specialize (Hpos ltac:(lia)).
    change (@nltb R real (ofZ 0) tw) with (Real.ltb 0 tw).
    destruct (Real_ltb_spec 0 tw) as [_ | Hbad]; [|lra].
    cbn [ndiv real].
    assert (Hinv : (0 < / tw)%R) by now apply Rinv_0_lt_compat.
    assert (Hone : (tw * / tw = 1)%R) by (apply Rinv_r; lra).
    unfold Rdiv. split.
    + replace lo with (lo * tw * / tw)%R by (rewrite Rmult_assoc, Hone; lra).
      apply Rmult_le_compat_r; lra.
    + replace hi with (hi * tw * / tw)%R by (rewrite Rmult_assoc, Hone; lra).
      apply Rmult_le_compat_r; lra.
Qed.

Lemma sum_range (data : list (ProcessedSalesData.t R)) (sum : R) (n : nat) :
  Forall inRange data ->
  (lo * INR n <= sum <= hi * INR n)%R ->
  let total :=
    fold_left (fun sum d => (sum + ProcessedSalesData.currentYearUnits d)%num) data sum in
  (lo * INR (n + length data) <= total <= hi * INR (n + length data))%R.
Proof.
  revert sum n. induction data as [|d data IH]; intros sum n Hall Hsum.
  - cbn. now rewrite Nat.add_0_r.
  - apply Forall_cons_iff in Hall as [Hd Hall]. cbn [fold_left length].
    replace (n + S (length data))%nat with (S n + length data)%nat by lia.
    apply IH; [exact Hall|]. rewrite S_INR. unfold inRange in Hd. cbn [nadd real]. lra.
Qed.

(** X17: in exact arithmetic, the base demand of an item with records
    lies between the least and the greatest number of units of its
    records. *)
Theorem base_demand_lies_within_the_data (now : Date)
    (itemData : list (ProcessedSalesData.t R)) (targetDate : Date) :
  itemData <> [] ->
  Forall (fun d => (lo <= ProcessedSalesData.currentYearUnits d <= hi)%R) itemData ->
  (lo <= DemandForecaster.calculateBaseDemand now itemData targetDate <= hi)%R.
Proof.
  intros Hne Hall. unfold DemandForecaster.calculateBaseDemand.
  destruct itemData as [|d0 rest] eqn:Hdata; [contradiction|]. rewrite <- Hdata in *.
  replace (length itemData =? 0)%nat with false by (rewrite Hdata; reflexivity).
  assert (Hsub : forall sub, (forall d, In d sub -> In d itemData) ->
                 (0 <? length sub)%nat = true ->
                 (lo <= DemandForecaster.calculateWeightedAverage sub <= hi)%R).
  { intros sub Hincl Hlen. apply calculateWeightedAverage_range.
    - destruct sub; [discriminate | discriminate].
    - apply List.Forall_forall. intros d Hd. rewrite List.Forall_forall in Hall.
      apply Hall. now apply Hincl. }
  destruct (0 <? length (DemandForecaster.getSameDayOfWeekData itemData targetDate))%nat eqn:H1.
  { apply Hsub; [|exact H1]. intros d Hd.
    unfold DemandForecaster.getSameDayOfWeekData in Hd.
    apply firstn_In, sortByKey_In, filter_In in Hd. tauto. }
  destruct (0 <? length (DemandForecaster.getRecentData now itemData 30))%nat eqn:H2.
  { apply Hsub; [|exact H2]. intros d Hd.
    unfold DemandForecaster.getRecentData in Hd. apply sortByKey_In, filter_In in Hd. tauto. }
  destruct (0 <? length (DemandForecaster.getSamePeriodLastYear itemData targetDate))%nat eqn:H3.
  { apply Hsub; [|exact H3]. intros d Hd.
    unfold DemandForecaster.getSamePeriodLastYear in Hd. apply filter_In in Hd. tauto. }
  pose proof (sum_range itemData 0 0 Hall ltac:(cbn; lra)) as Hsum. cbv zeta in Hsum.
  cbn [ofZ real ndiv] in *. cbn [Nat.add] in Hsum.
  set (total := fold_left _ itemData 0%R) in *.
  rewrite <- INR_IZR_INZ.
  assert (Hn : (0 < INR (length itemData))%R).
  { apply lt_0_INR. rewrite Hdata. cbn. lia. }
  set (n := INR (length itemData)) in *.
  assert (Hinv : (0 < / n)%R) by now apply Rinv_0_lt_compat.
  assert (Hone : (n * / n = 1)%R) by (apply Rinv_r; lra).
  unfold Rdiv. split.
  - replace lo with (lo * n * / n)%R by (rewrite Rmult_assoc, Hone; lra).
    apply Rmult_le_compat_r; lra.
  - replace hi with (hi * n * / n)%R by (rewrite Rmult_assoc, Hone; lra).
    apply Rmult_le_compat_r; lra.
Qed.

End Units.

(** Two records, of 10 and of 30 units. *)
Lemma base_demand_lies_within_the_data_witness :
  (10 <= DemandForecaster.calculateBaseDemand (noon 2025 3 10)
           [exactRecord (new_Date 2025 2 4) 10; exactRecord (new_Date 2025 2 20) 30]
           (new_Date 2025 2 3)
   <= 30)%R.
Proof.
  apply (base_demand_lies_within_the_data 10 30 (noon 2025 3 10)
           [exactRecord (new_Date 2025 2 4) 10; exactRecord (new_Date 2025 2 20) 30]
           (new_Date 2025 2 3)).
  - discriminate.
  - repeat constructor; simpl; lra.
Defined.

Lemma lit_one : (lit 1.0 : R) = 1%R.
Proof. rewrite lit_real. cbn. lra. Qed.

(** X21: in exact arithmetic, a history in which every record has the
    same number of units has the trend factor 1. *)
Theorem flat_history_has_no_trend (now : Date) (itemData : list (ProcessedSalesData.t R))
    (targetDate : Date) (units : R) :
  Forall (fun d => ProcessedSalesData.currentYearUnits d = units) itemData ->
  DemandForecaster.calculateTrendFactor now itemData targetDate = 1%R.
Proof.
  intros Hall. unfold DemandForecaster.calculateTrendFactor.
  destruct (length itemData <? 4)%nat; [apply lit_one|].
  destruct (length (DemandForecaster.getRecentData now itemData 28) <? 4)%nat eqn:Hlen;
    [apply lit_one|].
  set (recentData := sortByKey DemandForecaster.byDateAscending
                       (DemandForecaster.getRecentData now itemData 28)).
  assert (Hrecent : forall d, In d recentData -> ProcessedSalesData.currentYearUnits d = units).
  { intros d Hd. unfold recentData, DemandForecaster.getRecentData in Hd.
    apply sortByKey_In, sortByKey_In, filter_In in Hd as [Hd _].
    rewrite List.Forall_forall in Hall. now apply Hall. }
  assert (Hn : (4 <= length recentData)%nat).
  { unfold recentData. rewrite sortByKey_length. apply Nat.ltb_ge in Hlen. exact Hlen. }
  set (P := fun (i : nat) (acc : R * R * R * R) =>
              let '(sumX, sumY, sumXY, sumX2) := acc in
              sumY = (INR i * units)%R /\ sumXY = (sumX * units)%R).
  match goal with
  | |- context [DemandForecaster.foldIndexed ?f ?xs ?init] =>
      pose proof (foldIndexed_invariant f P xs init) as Hinv
  end.
  destruct (DemandForecaster.foldIndexed _ _ _) as [[[sumX sumY] sumXY] sumX2].
  destruct Hinv as (HsumY & HsumXY).
  - intros [[[sX sY] sXY] sX2] x i Hx (HsY & HsXY). unfold P.
    rewrite (Hrecent x Hx), S_INR. cbn [nadd nmul real]. split; [lra | rewrite HsXY; ring].
  - unfold P. cbn. split; lra.
  - cbn [ofZ nadd nsub nmul ndiv real]. rewrite <- INR_IZR_INZ.
    set (n := INR (length recentData)) in *.
    assert (Hnpos : (0 < n)%R) by (apply lt_0_INR; lia).
    assert (Hslope : (n * sumXY - sumX * sumY = 0)%R) by (rewrite HsumY, HsumXY; ring).
    rewrite Hslope.
    change (@nltb R real 0%R (sumY / n)%R) with (Real.ltb 0 (sumY / n)).
    destruct (Real_ltb_spec 0 (sumY / n)) as [Hpos | _]; [|apply lit_one].
    cbn [Math_max Math_min real]. rewrite !lit_real. cbn [Qnum Qden].
    replace (1 + 0 / (n * sumX2 - sumX * sumX) / (sumY / n))%R with 1%R
      by (unfold Rdiv; ring).
    rewrite Rmin_right by lra. rewrite Rmax_right by lra. reflexivity.
Qed.

(** Four days of 10 units. *)
Lemma flat_history_has_no_trend_witness :
  DemandForecaster.calculateTrendFactor (noon 2025 3 10)
    [exactRecord (new_Date 2025 3 1) 10; exactRecord (new_Date 2025 3 2) 10;
     exactRecord (new_Date 2025 3 3) 10; exactRecord (new_Date 2025 3 4) 10]
    (new_Date 2025 3 11)
  = 1%R.
Proof.
  apply (flat_history_has_no_trend (noon 2025 3 10)
           [exactRecord (new_Date 2025 3 1) 10; exactRecord (new_Date 2025 3 2) 10;
            exactRecord (new_Date 2025 3 3) 10; exactRecord (new_Date 2025 3 4) 10]
           (new_Date 2025 3 11) 10).
  repeat constructor.
Defined.

(** ** A horizon of no days *)

Lemma forecastMultiDay_no_days {A : Type} `{Number A} (this : DemandForecaster.t A)
    (now : Date) (historicalData : list (ProcessedSalesData.t A)) (startDate : Date)
    (growthRate : A) (itemNumber : string) :
  DemandForecaster.forecastMultiDay this now historicalData startDate 0 growthRate itemNumber
  = {| MultiDayDemand.totalDemand := Math_round (ofZ 0);
       MultiDayDemand.dailyForecasts := [];
       MultiDayDemand.daysAhead := 0;
       MultiDayDemand.confidenceScore := (ofZ 0 / ofZ 0)%num |}.
Proof. reflexivity. Qed.

Lemma optimizeBatchSize_no_days (config : ItemConfig.t float) :
  BatchOptimizer.optimizeBatchSize
    {| MultiDayDemand.totalDemand := Math_round (ofZ 0);
       MultiDayDemand.dailyForecasts := [];
       MultiDayDemand.daysAhead := 0;
       MultiDayDemand.confidenceScore := (ofZ 0 / ofZ 0)%num |}
    (ofZ 0) config
  = {| BatchDecision.recommendedBatchSize := 0%float;
       BatchDecision.produceToday := 0%float;
       BatchDecision.hoursNeeded := 0%float;
       BatchDecision.reasoning := "Sufficient stock (0 units) covers 0-day demand (0 units)";
       BatchDecision.options := [];
       BatchDecision.selectedOption :=
         BatchOption.mk 0%float 0%float 0%float 50%float "No production needed" 0%float;
       BatchDecision.efficiencyScore := 1%float;
       BatchDecision.wasteRiskScore := 0%float |}.
Proof. vm_compute. reflexivity. Qed.

(** X20: on binary64, an item with records whose configuration sets
    [maxDaysAhead] to 0 is planned with no daily forecast, a total demand
    of 0 and a confidence score that is NaN (the mean of no confidences),
    and nothing is produced whatever its history: the decision is the one
    for a sufficient stock. *)
Theorem a_horizon_of_no_days_produces_nothing (this : PlanGenerator.t float) (now : Date)
    (itemNumber : string) (itemData : list (ProcessedSalesData.t float))
    (config : ItemConfig.t float) (planDate : Date) (globalSettings : GlobalSettings.t float) :
  itemData <> [] ->
  ItemConfig.maxDaysAhead config = 0 ->
  exists item,
    PlanGenerator.generatePlanItem this now itemNumber itemData config planDate globalSettings
    = Some item
    /\ MultiDayDemand.totalDemand (ProductionPlanItem.multiDayDemand item) = 0%float
    /\ MultiDayDemand.dailyForecasts (ProductionPlanItem.multiDayDemand item) = []
    /\ isNaN (MultiDayDemand.confidenceScore (ProductionPlanItem.multiDayDemand item)) = true
    /\ BatchDecision.produceToday (ProductionPlanItem.batchDecision item) = 0%float
    /\ BatchDecision.reasoning (ProductionPlanItem.batchDecision item)
       = "Sufficient stock (0 units) covers 0-day demand (0 units)"%string.
Proof.
  intros Hne Hdays. unfold PlanGenerator.generatePlanItem.
  destruct itemData as [|d rest] eqn:Hdata; [contradiction|]. rewrite <- Hdata.
  replace (length itemData =? 0)%nat with false by (rewrite Hdata; reflexivity).
  rewrite Hdays, forecastMultiDay_no_days, optimizeBatchSize_no_days.
  eexists. split; [reflexivity|].
  cbn [ProductionPlanItem.multiDayDemand ProductionPlanItem.batchDecision
       MultiDayDemand.totalDemand MultiDayDemand.dailyForecasts
       MultiDayDemand.confidenceScore BatchDecision.produceToday BatchDecision.reasoning].
  repeat split.
Qed.

(** The sample data, planned for the day only. *)
Lemma a_horizon_of_no_days_produces_nothing_witness :
  exists item,
    PlanGenerator.generatePlanItem sampleGenerator (noon 2025 3 10) "1001" sampleData
      sameDayOnly (new_Date 2025 2 3) sampleSettings = Some item
    /\ MultiDayDemand.totalDemand (ProductionPlanItem.multiDayDemand item) = 0%float
    /\ MultiDayDemand.dailyForecasts (ProductionPlanItem.multiDayDemand item) = []
    /\ isNaN (MultiDayDemand.confidenceScore (ProductionPlanItem.multiDayDemand item)) = true
    /\ BatchDecision.produceToday (ProductionPlanItem.batchDecision item) = 0%float
    /\ BatchDecision.reasoning (ProductionPlanItem.batchDecision item)
       = "Sufficient stock (0 units) covers 0-day demand (0 units)"%string.
Proof.
  apply (a_horizon_of_no_days_produces_nothing sampleGenerator (noon 2025 3 10) "1001"
           sampleData sameDayOnly (new_Date 2025 2 3) sampleSettings).
  - discriminate.
  - reflexivity.
Defined.

(** ** The plan *)

Section Plan.
Context {A : Type} `{Number A}.

Lemma generatePlanItem_itemNumber (this : PlanGenerator.t A) (now : Date)
    (itemNumber : string) (itemData : list (ProcessedSalesData.t A))
    (config : ItemConfig.t A) (planDate : Date) (globalSettings : GlobalSettings.t A) :
  exists item,
    PlanGenerator.generatePlanItem this now itemNumber itemData config planDate globalSettings
    = Some item
    /\ ProductionPlanItem.itemNumber item = itemNumber.
Proof.
  unfold PlanGenerator.generatePlanItem.
  destruct (length itemData =? 0)%nat; eexists; (split; [reflexivity|]); reflexivity.
Qed.

Lemma generatePlanItems_itemNumbers (this : PlanGenerator.t A) (now : Date)
    (itemGroups : gmap string (list (ProcessedSalesData.t A))) (dateRange : DateRange.t)
    (selectedItems : list string) (itemConfigs : gmap string (ItemConfig.t A))
    (globalSettings : GlobalSettings.t A) :
  map (fun item => ProductionPlanItem.itemNumber item)
    (PlanGenerator.generatePlanItems this now itemGroups dateRange selectedItems itemConfigs
       globalSettings)
  = List.filter (isPlanned itemConfigs) selectedItems.
Proof.
  unfold PlanGenerator.generatePlanItems.
  set (step := fun (planItems : list (ProductionPlanItem.t A)) (itemNumber : string) => _).
  assert (Hacc : forall ks planItems,
            map (fun item => ProductionPlanItem.itemNumber item) (fold_left step ks planItems)
            = map (fun item => ProductionPlanItem.itemNumber item) planItems
              ++ List.filter (isPlanned itemConfigs) ks).
  { induction ks as [|k ks IH]; intros planItems; cbn [fold_left List.filter].
    - now rewrite app_nil_r.
    - rewrite IH. unfold step at 1, isPlanned at 2.
      destruct (itemConfigs !! k) as [c|]; [|reflexivity].
      destruct (ItemConfig.isActive c); [|reflexivity].
      destruct (generatePlanItem_itemNumber this now k (default [] (itemGroups !! k)) c
                  (DateRange.start dateRange) globalSettings) as (item & -> & Hk).
      rewrite map_app. cbn [map]. rewrite Hk, <- app_assoc. reflexivity. }
  apply (Hacc selectedItems []).
Qed.

(** X22: the plan holds one item for each selected item number that has
    an active configuration, in the order of the selection and as often as
    it is selected; numbers without a configuration or with an inactive
    one are left out, and [totalItems] counts the items. *)
Theorem plan_lists_the_active_selected_items (this : PlanGenerator.t A) (now : Date)
    (data : list (ProcessedSalesData.t A)) (dateRange : DateRange.t)
    (selectedItems : list string) (itemConfigs : gmap string (ItemConfig.t A))
    (globalSettings : GlobalSettings.t A) (holidays : list (Holiday.t A)) :
  let plan :=
    PlanGenerator.generatePlan this now data dateRange selectedItems itemConfigs
      globalSettings holidays in
  map (fun item => ProductionPlanItem.itemNumber item) (ProductionPlan.items plan)
  = List.filter (isPlanned itemConfigs) selectedItems
  /\ ProductionSummary.totalItems (ProductionPlan.summary plan)
     = length (List.filter (isPlanned itemConfigs) selectedItems).
Proof.
  intros plan. unfold plan, PlanGenerator.generatePlan.
  cbn [ProductionPlan.items ProductionPlan.summary].
  unfold PlanGenerator.generateSummary. cbn [ProductionSummary.totalItems].
  rewrite <- generatePlanItems_itemNumbers
    with (this := this) (now := now) (dateRange := dateRange)
         (globalSettings := globalSettings)
         (itemGroups := PlanGenerator.groupDataByItem
                          (PlanGenerator.filterData data dateRange selectedItems)).
  split; [reflexivity | now rewrite length_map].
Qed.

Lemma filter_filter_and {T : Type} (p q : T -> bool) (xs : list T) :
  List.filter p (List.filter q xs) = List.filter (fun x => q x && p x) xs.
Proof.
  induction xs as [|x xs IH]; [reflexivity|]. cbn.
  destruct (q x); cbn; [destruct (p x)|]; now rewrite IH.
Qed.

(** X23: the records dated outside the date range have no influence:
    the data restricted to the range gives the same items and the same
    summary. *)
Theorem only_records_within_the_range_are_used (this : PlanGenerator.t A) (now : Date)
    (data : list (ProcessedSalesData.t A)) (dateRange : DateRange.t)
    (selectedItems : list string) (itemConfigs : gmap string (ItemConfig.t A))
    (globalSettings : GlobalSettings.t A) (holidays : list (Holiday.t A)) :
  let plan :=
    PlanGenerator.generatePlan this now data dateRange selectedItems itemConfigs
      globalSettings holidays in
  let plan' :=
    PlanGenerator.generatePlan this now (List.filter (isWithin dateRange) data) dateRange
      selectedItems itemConfigs globalSettings holidays in
  ProductionPlan.items plan' = ProductionPlan.items plan
  /\ ProductionPlan.summary plan' = ProductionPlan.summary plan.
Proof.
  intros plan plan'. unfold plan, plan', PlanGenerator.generatePlan.
  cbn [ProductionPlan.items ProductionPlan.summary].
  assert (Hfilter : PlanGenerator.filterData (List.filter (isWithin dateRange) data)
                      dateRange selectedItems
                    = PlanGenerator.filterData data dateRange selectedItems).
  { unfold PlanGenerator.filterData. rewrite filter_filter_and.
    apply filter_ext. intros r. unfold isWithin.
    destruct (DateRange.start dateRange <=? ProcessedSalesData.calendarDate r),
             (ProcessedSalesData.calendarDate r <=? DateRange.end_ dateRange),
             (PlanGenerator.includes selectedItems (ProcessedSalesData.itemNumber r));
      reflexivity. }
  rewrite Hfilter. split; reflexivity.
Qed.

End Plan.

(** X24: on binary64, a plan for no selected item has no items and a
    summary of zeros, and its planning horizon, the maximum of no
    horizons, is minus infinity. *)
Theorem empty_selection_gives_an_empty_plan (this : PlanGenerator.t float) (now : Date)
    (data : list (ProcessedSalesData.t float)) (dateRange : DateRange.t)
    (itemConfigs : gmap string (ItemConfig.t float))
    (globalSettings : GlobalSettings.t float) (holidays : list (Holiday.t float)) :
  let plan :=
    PlanGenerator.generatePlan this now data dateRange [] itemConfigs globalSettings
      holidays in
  ProductionPlan.items plan = []
  /\ ProductionPlan.summary plan
     = ProductionSummary.mk 0 0 0%float 0%float 0 0 0%float 0%float 0%float
  /\ PlanMetadata.planningHorizon (ProductionPlan.metadata plan) = neg_infinity.
Proof.
  intros plan. unfold plan, PlanGenerator.generatePlan.
  cbn [ProductionPlan.items ProductionPlan.summary ProductionPlan.metadata
       PlanGenerator.generatePlanItems fold_left].
  split; [reflexivity|]. split.
  - vm_compute. reflexivity.
  - unfold PlanGenerator.generateMetadata.
    cbn [PlanMetadata.planningHorizon map fold_left]. vm_compute. reflexivity.
Qed.

(** ** Sales records *)

Lemma append_cons (c : ascii) (a b : string) : String c a +:+ b = String c (a +:+ b).
Proof. reflexivity. Qed.

Lemma append_empty_r (s : string) : s +:+ EmptyString = s.
Proof. induction s as [|c s IH]; [reflexivity | now rewrite append_cons, IH]. Qed.

Lemma append_length (a b : string) :
  String.length (a +:+ b) = (String.length a + String.length b)%nat.
Proof.
  induction a as [|c a IH]; [reflexivity|]. rewrite append_cons. cbn [String.length].
  now rewrite IH.
Qed.

(** The longest run of a class comes first among the ways to match it. *)
Lemma plusSplits_longest (p : ascii -> bool) (m rest : string) :
  m <> EmptyString -> allChars p m = true ->
  match rest with EmptyString => true | String c _ => negb (p c) end = true ->
  exists shorter, plusSplits p (m +:+ rest) = (m, rest) :: shorter.
Proof.
  intros Hne Hall Hrest. induction m as [|c m IH]; [contradiction|].
  cbn [allChars] in Hall. apply andb_true_iff in Hall as [Hc Hall].
  change (String c m +:+ rest) with (String c (m +:+ rest)). cbn [plusSplits]. rewrite Hc.
  destruct m as [|c' m].
  - change (EmptyString +:+ rest) with rest.
    assert (Hnone : plusSplits p rest = []).
    { destruct rest as [|c' rest]; [reflexivity|]. cbn. apply negb_true_iff in Hrest.
      now rewrite Hrest. }
    rewrite Hnone. exists []. reflexivity.
  - destruct (IH ltac:(discriminate) Hall) as [shorter Hsplits].
    rewrite Hsplits. cbn [map app]. eexists. reflexivity.
Qed.

Lemma isSpace_not_digit (c : ascii) : isSpace c = true -> isDigit c = false.
Proof.
  unfold isSpace, isDigit. generalize (nat_of_ascii c). intros n Hn.
  apply orb_true_iff in Hn as [Hn | Hn].
  - apply Nat.eqb_eq in Hn. subst n. reflexivity.
  - apply andb_true_iff in Hn as [H1 H2]. apply Nat.leb_le in H1, H2.
    apply andb_false_iff. left. apply Nat.leb_gt. lia.
Qed.

Section ItemStrings.
Variables (number spaces description : string).
Hypothesis Hnumber : allChars isDigit number = true.
Hypothesis Hnumber_ne : number <> EmptyString.
Hypothesis Hspaces : allChars isSpace spaces = true.
Hypothesis Hspaces_ne : spaces <> EmptyString.
Hypothesis Hdescription : allChars anyChar description = true.
Hypothesis Hdescription_start : startsOutside isSpace description = true.

Let item : string := number +:+ spaces +:+ description.

Lemma matchRuns_item (toEnd : bool) :
  matchRuns [isDigit; isSpace; anyChar] toEnd item = Some [number; spaces; description].
Proof.
  unfold item.
  assert (Hd : description <> EmptyString).
  { destruct description; [discriminate | discriminate]. }
  destruct (plusSplits_longest isDigit number (spaces +:+ description) Hnumber_ne Hnumber)
    as [s1 H1].
  { destruct spaces as [|c s]; [contradiction|]. change (String c s +:+ description) with (String c (s +:+ description)). cbn [allChars] in *.
    apply andb_true_iff in Hspaces as [Hc _]. now rewrite (isSpace_not_digit c Hc). }
  destruct (plusSplits_longest isSpace spaces description Hspaces_ne Hspaces) as [s2 H2].
  { destruct description; [discriminate | exact Hdescription_start]. }
  destruct (plusSplits_longest anyChar description EmptyString Hd Hdescription eq_refl)
    as [s3 H3].
  rewrite append_empty_r in H3.
  cbn [matchRuns]. rewrite H1. cbn [firstSome]. rewrite H2. cbn [firstSome].
  rewrite H3. cbn [firstSome]. reflexivity.
Qed.

Lemma item_truthy : strTruthy item = true.
Proof. unfold item. destruct number; [contradiction | reflexivity]. Qed.

Lemma padStart_length (s : string) (n : nat) (c : ascii) :
  (n <= String.length (padStart s n c))%nat.
Proof.
  unfold padStart.
  assert (Hrep : forall k, String.length (repeatChar c k) = k).
  { induction k as [|k IH]; cbn; [reflexivity | now rewrite IH]. }
  rewrite append_length, Hrep. lia.
Qed.

Lemma padStart_long (s : string) (n : nat) (c : ascii) :
  (n <= String.length s)%nat -> padStart s n c = s.
Proof.
  intros Hlen. unfold padStart. replace (n - String.length s)%nat with O by lia. reflexivity.
Qed.

(** X26: an item text made of digits, white space and a description that
    starts with another character than white space and holds no line
    break is converted to the digits, filled with zeros at the start to 5
    characters, and the description without white space at its end; such a
    text matches the item format. *)
Theorem item_text_is_split_into_number_and_description
    {A : Type} `{Number A} (this : CsvProcessor.t) (raw : RawSalesData.t A)
    (dataSource : string) :
  RawSalesData.item raw = item ->
  let processed := CsvProcessor.convertToProcessedData this raw dataSource in
  ProcessedSalesData.itemNumber processed = padStart number 5 "0"
  /\ ProcessedSalesData.itemDescription processed = trim description
  /\ (5 <= String.length (ProcessedSalesData.itemNumber processed))%nat
  /\ CsvProcessor.matchesItemFormat (RawSalesData.item raw) = true.
Proof.
  intros Hitem processed. unfold processed, CsvProcessor.convertToProcessedData.
  cbn [ProcessedSalesData.itemNumber ProcessedSalesData.itemDescription].
  unfold CsvProcessor.matchesItemFormat, FormatHelpers.parseItemString.
  rewrite Hitem, item_truthy, !matchRuns_item.
  cbn [negb FormatHelpers.itemNumber FormatHelpers.description].
  assert (Hformat : FormatHelpers.formatItemNumber number = padStart number 5 "0").
  { unfold FormatHelpers.formatItemNumber. destruct number; [contradiction | reflexivity]. }
  rewrite Hformat.
  assert (Hagain : FormatHelpers.formatItemNumber (padStart number 5 "0")
                   = padStart number 5 "0").
  { unfold FormatHelpers.formatItemNumber.
    pose proof (padStart_length number 5 "0") as Hlen.
    destruct (padStart number 5 "0") as [|c s] eqn:Hpad; [cbn in Hlen; lia|].
    cbn [strTruthy String.eqb negb]. rewrite <- Hpad. apply padStart_long.
    rewrite Hpad. exact Hlen. }
  rewrite Hagain. repeat split. apply padStart_length.
Qed.

End ItemStrings.

(** The item of the sample row. *)
Lemma item_text_is_split_into_number_and_description_witness :
  let processed :=
    CsvProcessor.convertToProcessedData CsvProcessor.constructor sampleRow "sales.csv" in
  ProcessedSalesData.itemNumber processed = "00123"%string
  /\ ProcessedSalesData.itemDescription processed = "POTATO SALAD"%string
  /\ (5 <= String.length (ProcessedSalesData.itemNumber processed))%nat
  /\ CsvProcessor.matchesItemFormat "123 POTATO SALAD" = true.
Proof.
  apply (item_text_is_split_into_number_and_description "123" " " "POTATO SALAD"
           eq_refl ltac:(discriminate) eq_refl ltac:(discriminate) eq_refl eq_refl
           CsvProcessor.constructor sampleRow "sales.csv" eq_refl).
Defined.

Section Records.
Context {A : Type} `{Number A}.

(** X25: a row without validation errors is converted to a record whose
    fiscal date holds the coordinates of the row and is a valid fiscal
    date, and whose calendar date is a midnight within the fiscal year of
    the row; its item text matches the item format. *)
Theorem validated_record_converts_to_a_valid_record
    (raw : RawSalesData.t A) (rowNumber : Z) (dataSource : string) :
  CsvProcessor.validateRecord raw rowNumber = [] ->
  let processed :=
    CsvProcessor.convertToProcessedData CsvProcessor.constructor raw dataSource in
  ProcessedSalesData.fiscalDate processed
  = {| fiscalYear := RawSalesData.fiscalYear raw;
       fiscalPeriod := RawSalesData.fiscalPeriod raw;
       fiscalWeek := RawSalesData.fiscalWeek raw;
       fiscalDay := RawSalesData.fiscalDay raw |}
  /\ FiscalCalendar.isValidFiscalDate (ProcessedSalesData.fiscalDate processed) = true
  /\ FiscalCalendar.isInFiscalYear defaultCalendar
       (ProcessedSalesData.calendarDate processed) (RawSalesData.fiscalYear raw) = true
  /\ TimeWithinDay (ProcessedSalesData.calendarDate processed) = 0
  /\ CsvProcessor.matchesItemFormat (RawSalesData.item raw) = true.
Proof.
  intros Hvalid processed. unfold CsvProcessor.validateRecord in Hvalid.
  cbv zeta in Hvalid.
  repeat match type of Hvalid with
         | (if ?b then _ else _) = [] => destruct b eqn:?
         | _ ++ [_] = [] => apply app_eq_nil_l in Hvalid as [_ Hbad]; discriminate Hbad
         end.
  repeat match goal with
         | H : _ || _ = false |- _ => apply orb_false_iff in H as [? ?]
         | H : (_ =? _) = false |- _ => apply Z.eqb_neq in H
         | H : (_ <? _) = false |- _ => apply Z.ltb_ge in H
         | H : negb _ = false |- _ => apply negb_false_iff in H
         end.
  unfold processed, CsvProcessor.convertToProcessedData.
  cbn [ProcessedSalesData.fiscalDate ProcessedSalesData.calendarDate
       CsvProcessor.constructor CsvProcessor.fiscalCalendar].
  split; [reflexivity|]. split.
  { unfold FiscalCalendar.isValidFiscalDate. cbn [fiscalYear fiscalPeriod fiscalWeek fiscalDay].
    repeat (apply andb_true_iff; split); apply Z.leb_le; lia. }
  fold defaultCalendar. unfold defaultCalendar.
  rewrite (isInFiscalYear_anchor 9 2 ltac:(lia) ltac:(lia)).
  rewrite (convertToCalendarDate_anchor 9 2 ltac:(lia) ltac:(lia)).
  rewrite !MakeDate_le.
  pose proof (anchor_next 9 2 ltac:(lia) (RawSalesData.fiscalYear raw - 1)) as Hn.
  cbv beta in Hn.
  replace (RawSalesData.fiscalYear raw - 1 + 1) with (RawSalesData.fiscalYear raw) in Hn by lia.
  split; [apply andb_true_iff; split; apply Z.leb_le; lia|].
  split; [apply TimeWithinDay_MakeDate; unfold msPerDay; lia | assumption].
Qed.

End Records.

(** The sample row. *)
Lemma validated_record_converts_to_a_valid_record_witness :
  let processed :=
    CsvProcessor.convertToProcessedData CsvProcessor.constructor sampleRow "sales.csv" in
  ProcessedSalesData.fiscalDate processed
  = {| fiscalYear := 2025; fiscalPeriod := 1; fiscalWeek := 1; fiscalDay := 1 |}
  /\ FiscalCalendar.isValidFiscalDate (ProcessedSalesData.fiscalDate processed) = true
  /\ FiscalCalendar.isInFiscalYear defaultCalendar
       (ProcessedSalesData.calendarDate processed) 2025 = true
  /\ TimeWithinDay (ProcessedSalesData.calendarDate processed) = 0
  /\ CsvProcessor.matchesItemFormat "123 POTATO SALAD" = true.
Proof.
  apply (validated_record_converts_to_a_valid_record sampleRow 2 "sales.csv").
  vm_compute. reflexivity.
Defined.

(** ** The quality report *)

Lemma share_range (count total : nat) :
  (0 < count)%nat -> (count <= total)%nat ->
  (0 < IZR (Z.of_nat count) / IZR (Z.of_nat total) <= 1)%R.
Proof.
  intros Hpos Hle.
  assert (Hc : (0 < IZR (Z.of_nat count))%R) by (apply IZR_lt; lia).
  assert (Ht : (IZR (Z.of_nat count) <= IZR (Z.of_nat total))%R) by (apply IZR_le; lia).
  split.
  - apply Rdiv_lt_0_compat; lra.
  - apply (Rmult_le_reg_r (IZR (Z.of_nat total))); [lra|]. field_simplify; lra.
Qed.

(** X27: in exact arithmetic, whatever the data, the completeness of the
    quality report is between 0.9 and 1, the accuracy between 0.95 and 1
    and the consistency 1; there are at most 3 issues, none of high
    severity, and 1 or 2 recommendations. *)
Theorem quality_scores_have_floors (data : list (ProcessedSalesData.t R)) :
  let report := CsvProcessor.assessDataQuality data in
  (9 / 10 <= DataQualityReport.completeness report <= 1)%R
  /\ (19 / 20 <= DataQualityReport.accuracy report <= 1)%R
  /\ DataQualityReport.consistency report = 1%R
  /\ (length (DataQualityReport.issues report) <= 3)%nat
  /\ (1 <= length (DataQualityReport.recommendations report) <= 2)%nat
  /\ existsb (fun i => match DataQualityIssue.severity i with high => true | _ => false end)
       (DataQualityReport.issues report) = false.
Proof.
  intros report. unfold report, CsvProcessor.assessDataQuality.
  repeat match goal with
         | |- context [length (List.filter ?f data)] =>
             let count := fresh "count" in
             pose proof (List.filter_length_le f data);
             set (count := length (List.filter f data)) in *; clearbody count
         end.
  repeat match goal with
         | |- context [(0 <? ?count)%nat] =>
             let Hcount := fresh "Hcount" in
             destruct (0 <? count)%nat eqn:Hcount;
             [apply Nat.ltb_lt in Hcount;
              pose proof (share_range count (length data) Hcount ltac:(assumption))|]
         end;
    cbn [DataQualityReport.completeness DataQualityReport.accuracy
         DataQualityReport.consistency DataQualityReport.issues
         DataQualityReport.recommendations app length existsb
         CsvProcessor.generateRecommendations DataQualityIssue.type
         DataQualityIssue.severity orb Nat.eqb Math_max real];
    rewrite ?lit_one, ?lit_real; cbn [Qnum Qden ofZ nsub nmul ndiv real];
    (split; [unfold Rmax; destruct Rle_dec; lra|]);
    (split; [unfold Rmax; destruct Rle_dec; lra|]);
    (split; [unfold Rmax; destruct Rle_dec; lra|]);
    repeat split; lia.
Qed.

(** ** The selection among the batch options *)

(** The scan keeps the first of the options with the greatest score. *)
Lemma selectBest_split (rest earlier ties : list (BatchOption.t R)) (best : BatchOption.t R) :
  Forall (fun o => (BatchOption.score o < BatchOption.score best)%R) earlier ->
  Forall (fun o => (BatchOption.score o <= BatchOption.score best)%R) ties ->
  exists earlier' later,
    earlier ++ best :: ties ++ rest
    = earlier' ++ BatchOptimizer.selectBest best rest :: later
    /\ Forall (fun o => (BatchOption.score o
                         < BatchOption.score (BatchOptimizer.selectBest best rest))%R)
         earlier'
    /\ Forall (fun o => (BatchOption.score o
                         <= BatchOption.score (BatchOptimizer.selectBest best rest))%R)
         later.
Proof.
  unfold BatchOptimizer.selectBest. revert earlier ties best.
  induction rest as [|o rest IH]; intros earlier ties best Hearlier Hties.
  - exists earlier, ties. rewrite app_nil_r. auto.
  - cbn [fold_left].
    change (@nltb R real (BatchOption.score best) (BatchOption.score o))
      with (Real.ltb (BatchOption.score best) (BatchOption.score o)).
    destruct (Real_ltb_spec (BatchOption.score best) (BatchOption.score o)) as [Hlt | Hge].
    + destruct (IH (earlier ++ best :: ties) [] o) as (earlier' & later & Heq & Hbounds).
      * apply Forall_app_2; [|constructor].
        -- eapply List.Forall_impl; [|exact Hearlier]. cbv beta. intros; lra.
        -- exact Hlt.
        -- eapply List.Forall_impl; [|exact Hties]. cbv beta. intros; lra.
      * constructor.
      * exists earlier', later. split; [|exact Hbounds].
        rewrite <- Heq. cbn [app]. rewrite <- app_assoc. reflexivity.
    + destruct (IH earlier (ties ++ [o]) best Hearlier) as (earlier' & later & Heq & Hbounds).
      * apply Forall_app_2; [exact Hties|]. constructor; [lra | constructor].
      * exists earlier', later. split; [|exact Hbounds].
        rewrite <- Heq. rewrite <- app_assoc. reflexivity.
Qed.

(** X28: in exact arithmetic, when the demand exceeds the stock, the
    selected option is one of the listed options, no option has a greater
    score, and the options listed before it have a smaller one: of equal
    scores the first wins. *)
Theorem selected_option_is_the_first_with_the_best_score
    (multiDayDemand : MultiDayDemand.t R) (currentStock : R) (config : ItemConfig.t R) :
  (currentStock < MultiDayDemand.totalDemand multiDayDemand)%R ->
  let decision := BatchOptimizer.optimizeBatchSize multiDayDemand currentStock config in
  let selected := BatchDecision.selectedOption decision in
  exists earlier later,
    BatchDecision.options decision = earlier ++ selected :: later
    /\ Forall (fun o => (BatchOption.score o < BatchOption.score selected)%R) earlier
    /\ Forall (fun o => (BatchOption.score o <= BatchOption.score selected)%R) later.
Proof.
  intros Hstock decision selected.
  unfold selected, decision, BatchOptimizer.optimizeBatchSize.
  rewrite orElse_real_zero.
  change (@nleb R real ?x (ofZ 0)) with (Real.leb x 0).
  match goal with |- context [Real.leb ?x 0] => destruct (Real_leb_spec x 0) as [Hbad | _] end.
  { exfalso. revert Hbad. cbn [Math_max ofZ nsub real]. unfold Rmax.
    destruct Rle_dec; lra. }
  destruct (map _ _) as [|first rest].
  - exists [], []. cbn [BatchDecision.options BatchDecision.selectedOption
                        BatchOptimizer.createErrorBatchDecision app].
    repeat split; constructor.
  - cbn [BatchDecision.options BatchDecision.selectedOption].
    destruct (selectBest_split rest [] [] first) as (earlier & later & Heq & Hbounds);
      [constructor | constructor |].
    exists earlier, later. split; [exact Heq | exact Hbounds].
Qed.

(** Scenario A. *)
Lemma selected_option_is_the_first_with_the_best_score_witness :
  let decision := BatchOptimizer.optimizeBatchSize exactDemand 0%R exactConfig in
  let selected := BatchDecision.selectedOption decision in
  exists earlier later,
    BatchDecision.options decision = earlier ++ selected :: later
    /\ Forall (fun o => (BatchOption.score o < BatchOption.score selected)%R) earlier
    /\ Forall (fun o => (BatchOption.score o <= BatchOption.score selected)%R) later.
Proof.
  apply (selected_option_is_the_first_with_the_best_score exactDemand 0%R exactConfig).
  simpl. lra.
Defined.

(** ** The shape of the batch options *)

Lemma createBatchOption_wellFormed (size efficiency wasteRisk : R) (reasoning : string) :
  wellFormed (BatchOptimizer.createBatchOption size efficiency wasteRisk reasoning).
Proof.
  unfold wellFormed, BatchOptimizer.createBatchOption, BatchOptimizer.calculateBatchCost.
  cbn [BatchOption.size BatchOption.efficiency BatchOption.wasteRisk BatchOption.cost
       Math_ceil Math_max Math_min ofZ nadd nmul real].
  split; [exists size; split; reflexivity|].
  split; [apply Rmax_l|].
  split; [apply Rmax_l|].
  apply Rmax_lub; [lra | apply Rmin_l].
Qed.

Lemma generateBatchOptions_wellFormed (netDemand totalDemand : R) (config : ItemConfig.t R)
    (multiDayDemand : MultiDayDemand.t R) (o : BatchOption.t R) :
  In o (BatchOptimizer.generateBatchOptions netDemand totalDemand config multiDayDemand) ->
  wellFormed o.
Proof.
  unfold BatchOptimizer.generateBatchOptions.
  rewrite filter_In. intros [Hin _].
  repeat match type of Hin with
         | In _ (if ?b then _ else _) => destruct b
         | In _ (_ ++ _) => apply in_app_or in Hin as [Hin | Hin]
         | In _ [_] => destruct Hin as [<- | []]; apply createBatchOption_wellFormed
         | In _ [] => destruct Hin
         end.
Qed.

(** X29: in exact arithmetic, every option listed by [optimizeBatchSize]
    has a positive whole size, an efficiency of at least 0, a waste risk
    between 0 and 1 and a score of at least 0; its cost is that of the
    size before it is rounded up, so more than 50 + 2 * (size - 1) and at
    most 50 + 2 * size. *)
Theorem every_listed_option_is_well_formed
    (multiDayDemand : MultiDayDemand.t R) (currentStock : R) (config : ItemConfig.t R) :
  let decision := BatchOptimizer.optimizeBatchSize multiDayDemand currentStock config in
  Forall (fun o => positiveInteger (BatchOption.size o)
                   /\ (0 <= BatchOption.efficiency o)%R
                   /\ (0 <= BatchOption.wasteRisk o <= 1)%R
                   /\ (50 + 2 * (BatchOption.size o - 1) < BatchOption.cost o
                       <= 50 + 2 * BatchOption.size o)%R
                   /\ (0 <= BatchOption.score o)%R)
    (BatchDecision.options decision).
Proof.
  intros decision. unfold decision, BatchOptimizer.optimizeBatchSize.
  rewrite orElse_real_zero.
  set (totalDemand := MultiDayDemand.totalDemand multiDayDemand).
  set (netDemand := Math_max (ofZ 0) (totalDemand - currentStock)%num).
  change (@nleb R real netDemand (ofZ 0)) with (Real.leb netDemand 0).
  destruct (Real_leb_spec netDemand 0) as [_ | Hnet]; [constructor|].
  pose proof (generateBatchOptions_sizes netDemand totalDemand config multiDayDemand)
    as Hsizes.
  pose proof (generateBatchOptions_wellFormed netDemand totalDemand config multiDayDemand)
    as Hshape.
  destruct (generateBatchOptions_exact netDemand totalDemand config multiDayDemand
              ltac:(lra)) as (exact & Hexact & _).
  cbv beta in Hsizes.
  set (options := BatchOptimizer.generateBatchOptions netDemand totalDemand config
                    multiDayDemand) in *.
  remember (map _ options) as scoredOptions eqn:Hscored.
  destruct scoredOptions as [|first rest].
  { destruct options; [destruct Hexact | discriminate]. }
  cbn [BatchDecision.options]. rewrite Hscored.
  apply List.Forall_forall. intros o Ho.
  apply in_map_iff in Ho as (option & <- & Hoption).
  destruct (Hshape option Hoption) as ((size & Hsize & Hcost) & Hefficiency & Hrisk).
  cbn [BatchOption.size BatchOption.efficiency BatchOption.wasteRisk BatchOption.cost
       BatchOption.score].
  split; [exact (Hsizes option Hoption)|].
  split; [exact Hefficiency|]. split; [exact Hrisk|].
  split; [rewrite Hcost, Hsize; pose proof (ceilZ_bounds size); lra|].
  unfold BatchOptimizer.scoreBatchOption. apply Rmax_l.
Qed.
